(** * not-another-list-app: the Redux state layer and the request orchestration

    A shallow embedding of the front end's state management
    (constants, action creators, the three slice reducers, the store
    composition) and of the network-backed operations of the Lists and
    Tasks components, followed by the properties of the specification. *)

From stdpp Require Import gmap strings list fin_maps pretty.
From Stdlib Require Import ZArith Lia.

Open Scope string_scope.
Open Scope Z_scope.

(** ** JavaScript values

    Plain data as the application passes it around: JSON values plus
    [undefined].  Objects are finite maps from property names to values;
    a property may be present and hold [undefined].  Numbers are the
    integers the program meets (status codes, record ids). *)

#[warnings="-register-all"]
Inductive JsVal : Type :=
| JUndefined
| JNull
| JBool (b : bool)
| JNum (n : Z)
| JStr (s : string)
| JArr (l : list JsVal)
| JObj (m : gmap string JsVal).

(** What a thrown exception carries: [name] and [message] of an Error. *)
Record JsErr : Type := mkErr { err_name : string; err_message : string }.

(** The outcome of evaluating an expression or calling a function. *)
Inductive Completion (A : Type) : Type :=
| Normal (a : A)
| Throw (e : JsErr).
Arguments Normal {A} a.
Arguments Throw {A} e.

#[global] Instance Completion_ret : MRet Completion := fun _ a => Normal a.
#[global] Instance Completion_fmap : FMap Completion := fun _ _ f c =>
  match c with
  | Normal a => Normal (f a)
  | Throw e => Throw e
  end.
#[global] Instance Completion_bind : MBind Completion := fun _ _ k c =>
  match c with
  | Normal a => k a
  | Throw e => Throw e
  end.

Definition TypeError (msg : string) : JsErr := mkErr "TypeError" msg.

(** [Array.isArray]. *)
Definition isArray (v : JsVal) : bool :=
  match v with JArr _ => true | _ => false end.

(** [v === undefined]. *)
Definition is_undefined (v : JsVal) : bool :=
  match v with JUndefined => true | _ => false end.

(** [v === s] for a string literal [s] (the comparison of a [switch]). *)
Definition strict_eq_str (v : JsVal) (s : string) : bool :=
  match v with JStr t => bool_decide (t = s) | _ => false end.

(** ToBoolean: [undefined], [null], [false], [0] and the empty string
    are falsy, everything else (every array, every object) is truthy. *)
Definition truthy (v : JsVal) : bool :=
  match v with
  | JUndefined | JNull => false
  | JBool b => b
  | JNum n => negb (n =? 0)
  | JStr s => negb (bool_decide (s = ""))
  | JArr _ | JObj _ => true
  end.

(** [!a]. *)
Definition js_not (a : JsVal) : JsVal := JBool (negb (truthy a)).

(** Index keys ["0"], ["1"], ... of an array-like value. *)
Definition index_props {A} (f : A -> JsVal) (l : list A) : gmap string JsVal :=
  list_to_map (imap (fun i x => (pretty (N.of_nat i), f x)) l).

(** The own enumerable properties of a value, which is what an object
    spread [{...v}] copies: the properties of an object, the indexed
    elements of an array, the indexed characters of a string, nothing
    for the other primitives. *)
Definition own_props (v : JsVal) : gmap string JsVal :=
  match v with
  | JObj m => m
  | JArr l => index_props id l
  | JStr s => index_props (fun a => JStr (String a EmptyString)) (Stdlib.Strings.String.list_ascii_of_string s)
  | _ => ∅
  end.

(** Property read [v.k] for a name [k] that is neither an index nor an
    inherited property (the program reads only data properties such as
    [type], [payload], [accessId]): reading from [undefined] or [null]
    throws, a missing property reads as [undefined]. *)
Definition get_prop (v : JsVal) (k : string) : Completion JsVal :=
  match v with
  | JUndefined => Throw (TypeError "Cannot read properties of undefined")
  | JNull => Throw (TypeError "Cannot read properties of null")
  | JObj m => Normal (default JUndefined (m !! k))
  | _ => Normal JUndefined
  end.

(** [{...v, k: x}]. *)
Definition spread_set (v : JsVal) (k : string) (x : JsVal) : JsVal :=
  JObj (<[k := x]> (own_props v)).

(** A default parameter [state = d]: the default applies to [undefined] only. *)
Definition default_param (v d : JsVal) : JsVal :=
  if is_undefined v then d else v.

(** An object literal. *)
Definition obj (l : list (string * JsVal)) : JsVal := JObj (list_to_map l).

(** ** constants/index.js

    The module itself is not part of the sources at hand; its exported
    values are the ones pinned by constants/index.test.js. *)
Module constants.
Definition SET_ACCESS_ID := "SET_ACCESS_ID".
Definition SET_USERNAME := "SET_USERNAME".
Definition SET_PASSWORD := "SET_PASSWORD".
Definition LOGIN_SUCCESS := "LOGIN".
Definition SET_LISTS := "SET_LISTS".
Definition SWITCH_SHOW_ADD_LIST_FORM := "SWITCH_SHOW_ADD_LIST_FORM".
Definition SET_CREATE_LIST_NAME := "SET_CREATE_LIST_NAME".
Definition SET_CREATE_LIST_DESCRIPTION := "SET_CREATE_LIST_DESCRIPTION".
Definition SET_TASKS := "SET_TASKS".
Definition SET_TASKS_LIST_NAME := "SET_TASKS_LIST_NAME".
Definition SET_TASKS_LIST_ID := "SET_TASKS_LIST_ID".
Definition SWITCH_SHOW_ADD_TASK_FORM := "SWITCH_SHOW_ADD_TASK_FORM".
Definition SET_CREATE_TASK_NAME := "SET_CREATE_TASK_NAME".
Definition SET_CREATE_TASK_DESCRIPTION := "SET_CREATE_TASK_DESCRIPTION".
Definition SWITCH_SET_TASK_IS_DONE := "SWITCH_SET_TASK_IS_DONE".
End constants.

(** A reducer: [(state, action) => state], which may throw. *)
Definition Reducer : Type := JsVal -> JsVal -> Completion JsVal.

(** ** reducers/listReducer.js *)
Module listReducer_js.
Definition initialState : JsVal :=
  obj [("list", JArr []); ("showAddList", JBool false);
       ("name", JStr ""); ("description", JStr "")].

Definition listReducer : Reducer := fun state0 action =>
  let state := default_param state0 initialState in
  ty ← get_prop action "type";
  if strict_eq_str ty constants.SET_LISTS then
    payload ← get_prop action "payload";
    Normal (spread_set state "list" (if isArray payload then payload else JArr []))
  else if strict_eq_str ty constants.SWITCH_SHOW_ADD_LIST_FORM then
    payload ← get_prop action "payload";
    Normal (spread_set state "showAddList" payload)
  else if strict_eq_str ty constants.SET_CREATE_LIST_NAME then
    payload ← get_prop action "payload";
    Normal (spread_set state "name" payload)
  else if strict_eq_str ty constants.SET_CREATE_LIST_DESCRIPTION then
    payload ← get_prop action "payload";
    Normal (spread_set state "description" payload)
  else Normal state.
End listReducer_js.

(** ** reducers/loginReducer.js *)
Module loginReducer_js.
Definition initialState : JsVal := obj [("accessId", JUndefined)].

Definition loginReducer : Reducer := fun state0 action =>
  let state := default_param state0 initialState in
  ty ← get_prop action "type";
  if strict_eq_str ty constants.SET_ACCESS_ID then
    payload ← get_prop action "payload";
    Normal (spread_set state "accessId" payload)
  else if strict_eq_str ty constants.SET_USERNAME then
    payload ← get_prop action "payload";
    Normal (spread_set state "username" payload)
  else if strict_eq_str ty constants.SET_PASSWORD then
    payload ← get_prop action "payload";
    Normal (spread_set state "password" payload)
  else if strict_eq_str ty constants.LOGIN_SUCCESS then
    payload ← get_prop action "payload";
    accessId ← get_prop payload "accessId";
    username ← get_prop payload "username";
    Normal (JObj (<["username" := username]> (<["accessId" := accessId]> (own_props state))))
  else Normal state.
End loginReducer_js.

(** ** reducers/taskReducer.js *)
Module taskReducer_js.
Definition initialState : JsVal :=
  obj [("tasks", JArr []); ("showAddTaskForm", JBool false);
       ("name", JStr ""); ("description", JStr "");
       ("taskListName", JStr ""); ("taskListId", JStr "")].

Definition taskReducer : Reducer := fun state0 action =>
  let state := default_param state0 initialState in
  ty ← get_prop action "type";
  if strict_eq_str ty constants.SET_TASKS then
    payload ← get_prop action "payload";
    Normal (spread_set state "tasks" (if isArray payload then payload else JArr []))
  else if strict_eq_str ty constants.SET_TASKS_LIST_NAME then
    payload ← get_prop action "payload";
    Normal (spread_set state "taskListName" payload)
  else if strict_eq_str ty constants.SET_TASKS_LIST_ID then
    payload ← get_prop action "payload";
    Normal (spread_set state "taskListId" payload)
  else if strict_eq_str ty constants.SWITCH_SHOW_ADD_TASK_FORM then
    payload ← get_prop action "payload";
    Normal (spread_set state "showAddTaskForm" payload)
  else if strict_eq_str ty constants.SWITCH_SET_TASK_IS_DONE then
    payload ← get_prop action "payload";
    Normal (spread_set state "isDone" payload)
  else if strict_eq_str ty constants.SET_CREATE_TASK_NAME then
    payload ← get_prop action "payload";
    Normal (spread_set state "name" payload)
  else if strict_eq_str ty constants.SET_CREATE_TASK_DESCRIPTION then
    payload ← get_prop action "payload";
    Normal (spread_set state "description" payload)
  else Normal state.
End taskReducer_js.

(** ** actions/loginAction.js *)
Module loginAction_js.
Definition setAccessId (accessId : JsVal) : JsVal :=
  obj [("type", JStr constants.SET_ACCESS_ID); ("payload", accessId)].

Definition setUsername (username : JsVal) : JsVal :=
  obj [("type", JStr constants.SET_USERNAME); ("payload", username)].

Definition setPassword (password : JsVal) : JsVal :=
  obj [("type", JStr constants.SET_PASSWORD); ("payload", password)].

Definition loginSuccess (username accessId : JsVal) : JsVal :=
  obj [("type", JStr constants.LOGIN_SUCCESS);
       ("payload", obj [("username", username); ("accessId", accessId)])].

(** [export function loginFailed() { }]: the body is empty, so a call
    evaluates to [undefined]. *)
Definition loginFailed (_ : unit) : JsVal := JUndefined.
End loginAction_js.

(** ** actions/listAction.js *)
Module listAction_js.
(** Modelled from the spec: actions/listAction.js is not among the
    sources; only the names under which Lists.js calls it are.  The
    spec's constructors "package an operation identifier and a payload
    into an immutable action record" [{type, payload}]. *)
Definition setLists (lists : JsVal) : JsVal :=
  obj [("type", JStr constants.SET_LISTS); ("payload", lists)].

(** Modelled from the spec: the caller passes the current value of the
    flag and the spec has the flag "toggled" by the dispatch, so the
    payload is the negation of the argument. *)
Definition switchShowAddListForm (currentVal : JsVal) : JsVal :=
  obj [("type", JStr constants.SWITCH_SHOW_ADD_LIST_FORM); ("payload", js_not currentVal)].

(** Modelled from the spec: see [setLists]. *)
Definition setCreateListName (name : JsVal) : JsVal :=
  obj [("type", JStr constants.SET_CREATE_LIST_NAME); ("payload", name)].

(** Modelled from the spec: see [setLists]. *)
Definition setCreateListDescription (description : JsVal) : JsVal :=
  obj [("type", JStr constants.SET_CREATE_LIST_DESCRIPTION); ("payload", description)].
End listAction_js.

(** ** actions/taskAction.js *)
Module taskAction_js.
(** Modelled from the spec: actions/taskAction.js is not among the
    sources; only the names under which Lists.js and Tasks.js call it
    are.  Each constructor returns the [{type, payload}] record of its
    identifier. *)
Definition setTasks (tasks : JsVal) : JsVal :=
  obj [("type", JStr constants.SET_TASKS); ("payload", tasks)].

(** Modelled from the spec: see [setTasks]. *)
Definition setTaskListName (listName : JsVal) : JsVal :=
  obj [("type", JStr constants.SET_TASKS_LIST_NAME); ("payload", listName)].

(** Modelled from the spec: see [setTasks]. *)
Definition setTaskListId (listId : JsVal) : JsVal :=
  obj [("type", JStr constants.SET_TASKS_LIST_ID); ("payload", listId)].

(** Modelled from the spec: the flag is "toggled" from the current
    value the caller passes. *)
Definition switchShowAddTaskForm (currentVal : JsVal) : JsVal :=
  obj [("type", JStr constants.SWITCH_SHOW_ADD_TASK_FORM); ("payload", js_not currentVal)].

(** Modelled from the spec: see [setTasks]. *)
Definition setCreateTaskName (name : JsVal) : JsVal :=
  obj [("type", JStr constants.SET_CREATE_TASK_NAME); ("payload", name)].

(** Modelled from the spec: see [setTasks]. *)
Definition setCreateTaskDescription (description : JsVal) : JsVal :=
  obj [("type", JStr constants.SET_CREATE_TASK_DESCRIPTION); ("payload", description)].
End taskAction_js.

(** ** The Redux library, as far as the application uses it

    [combineReducers], [createStore], [getState] and [dispatch] of the
    redux package, on values: reference identity of state objects is not
    observed (when no slice changes redux returns the previous object,
    which has the same properties as the rebuilt one). *)
Module redux.
(** The loop of a combined reducer over its keys:
    [nextState[key] = reducer(state[key], action)]; a slice reducer
    that returns [undefined] is an error. *)
Fixpoint combination (reducers : list (string * Reducer)) (state action : JsVal)
    (nextState : gmap string JsVal) : Completion (gmap string JsVal) :=
  match reducers with
  | [] => Normal nextState
  | (key, reducer) :: rest =>
      previousStateForKey ← get_prop state key;
      nextStateForKey ← reducer previousStateForKey action;
      if is_undefined nextStateForKey
      then Throw (mkErr "Error" "reducer returned undefined")
      else combination rest state action (<[key := nextStateForKey]> nextState)
  end.

Definition combineReducers (reducers : list (string * Reducer)) : Reducer :=
  fun state0 action =>
    let state := default_param state0 (obj []) in
    nextState ← combination reducers state action ∅;
    Normal (JObj nextState).

Record Store : Type := mkStore { currentReducer : Reducer; currentState : JsVal }.

(** The action redux dispatches on creation; its type ends in a random
    suffix, here a parameter. *)
Definition INIT (suffix : string) : JsVal :=
  obj [("type", JStr ("@@redux/INIT" +:+ suffix))].

Definition createStore (reducer : Reducer) (preloadedState : JsVal) (suffix : string)
    : Completion Store :=
  s ← reducer preloadedState (INIT suffix);
  Normal (mkStore reducer s).

Definition getState (store : Store) : JsVal := currentState store.

(** [dispatch]: the action must be a plain object whose [type] is not
    [undefined]; then the root reducer computes the next state.  The
    thunk middleware only intercepts functions, which are not values
    of this model. *)
Definition dispatch (store : Store) (action : JsVal) : Completion Store :=
  match action with
  | JObj m =>
      if is_undefined (default JUndefined (m !! "type"))
      then Throw (mkErr "Error" "Actions may not have an undefined type property")
      else
        s ← currentReducer store (currentState store) action;
        Normal (mkStore (currentReducer store) s)
  | _ => Throw (mkErr "Error" "Actions must be plain objects")
  end.
End redux.

(** ** store/configureStore.js *)
Module configureStore_js.
Definition rootReducer : Reducer :=
  redux.combineReducers [("login", loginReducer_js.loginReducer)].

Definition configureStore (suffix : string) : Completion redux.Store :=
  redux.createStore rootReducer JUndefined suffix.
End configureStore_js.

(** ** components/App/App.test.js: the root reducer the component tests build *)
Module App_test_js.
Definition rootReducer : Reducer :=
  redux.combineReducers
    [("login", loginReducer_js.loginReducer);
     ("lists", listReducer_js.listReducer);
     ("tasks", taskReducer_js.taskReducer)].
End App_test_js.

(** ** components/App/App.js *)
Module App_js.
Inductive View : Type :=
| Login            (** [<Login />] *)
| Wrapper.         (** the [div.wrapper] with the /dashboard and /preferences routes *)

(** [mapStateToProps]: [{ ...state }]. *)
Definition mapStateToProps (state : JsVal) : JsVal := JObj (own_props state).

Definition render (props : JsVal) : Completion View :=
  login ← get_prop props "login";
  accessId ← get_prop login "accessId";
  if is_undefined accessId then Normal Login else Normal Wrapper.
End App_js.

(** ** The environment of a component: network, store, local state *)

(** A [fetch] call of the application: always a POST with JSON headers,
    so only the URL and the object handed to [JSON.stringify] vary. *)
Record Request : Type := mkRequest { req_url : string; req_body : JsVal }.

(** A response: its status, what [resp.text()] resolves to, and what
    [resp.json()] settles to (it rejects when the body is not JSON). *)
Record Response : Type :=
  mkResponse { resp_status : Z; resp_text : string; resp_json : Completion JsVal }.

(** [resp.ok]: the status is in the range 200-299. *)
Definition resp_ok (r : Response) : bool :=
  (200 <=? resp_status r) && (resp_status r <=? 299).

Inductive FetchOutcome : Type :=
| Resolved (r : Response)
| Rejected (e : JsErr).

(** What an operation does to the outside, in the order it happens. *)
Inductive Event : Type :=
| EvRequest (rq : Request)        (** [fetch] called *)
| EvResponse (o : FetchOutcome)   (** the awaited promise settled *)
| EvDispatch (action : JsVal).    (** [dispatch(action)] on the store *)

Record Toast : Type := mkToast { toast_message : string; toast_type : string }.

(** The store, the local state of the component ([this.state],
    [this.toastTimer], the pending timeouts) and the history. *)
Record World : Type := mkWorld {
  w_store : redux.Store;
  w_toast : option Toast;
  w_lastError : option string;
  w_toastTimer : option positive;
  w_timers : list (positive * Z);
  w_nextTimer : positive;
  w_issued : nat;
  w_trace : list Event
}.

Definition set_store (st : redux.Store) (w : World) : World :=
  mkWorld st (w_toast w) (w_lastError w) (w_toastTimer w) (w_timers w)
          (w_nextTimer w) (w_issued w) (w_trace w).
Definition set_toast (t : option Toast) (w : World) : World :=
  mkWorld (w_store w) t (w_lastError w) (w_toastTimer w) (w_timers w)
          (w_nextTimer w) (w_issued w) (w_trace w).
Definition set_lastError (e : option string) (w : World) : World :=
  mkWorld (w_store w) (w_toast w) e (w_toastTimer w) (w_timers w)
          (w_nextTimer w) (w_issued w) (w_trace w).
Definition set_toastTimer (h : option positive) (w : World) : World :=
  mkWorld (w_store w) (w_toast w) (w_lastError w) h (w_timers w)
          (w_nextTimer w) (w_issued w) (w_trace w).
Definition set_timers (ts : list (positive * Z)) (n : positive) (w : World) : World :=
  mkWorld (w_store w) (w_toast w) (w_lastError w) (w_toastTimer w) ts
          n (w_issued w) (w_trace w).
Definition log_events (evs : list Event) (issued : nat) (w : World) : World :=
  mkWorld (w_store w) (w_toast w) (w_lastError w) (w_toastTimer w) (w_timers w)
          (w_nextTimer w) issued (w_trace w ++ evs).

(** Component code: a computation on the world that returns or throws.
    An [await] is sequencing; no other operation and no timeout
    callback runs in between, and [this.props] is read from the store
    state of the moment. *)
Definition M (A : Type) : Type := World -> Completion A * World.

#[global] Instance M_ret : MRet M := fun _ a w => (Normal a, w).
#[global] Instance M_bind : MBind M := fun _ _ k m w =>
  match m w with
  | (Normal a, w') => k a w'
  | (Throw e, w') => (Throw e, w')
  end.

(** [try { body } catch (err) { handler }]. *)
Definition try_catch {A} (body : M A) (handler : JsErr -> M A) : M A := fun w =>
  match body w with
  | (Normal a, w') => (Normal a, w')
  | (Throw e, w') => handler e w'
  end.

(** A pure expression evaluated inside component code. *)
Definition eval {A} (c : Completion A) : M A := fun w => (c, w).

(** [Error.prototype.toString]. *)
Definition err_to_string (e : JsErr) : string :=
  if bool_decide (err_message e = "") then err_name e
  else if bool_decide (err_name e = "") then err_message e
  else err_name e +:+ ": " +:+ err_message e.

(** The text of [${err.message || err}]. *)
Definition err_text (e : JsErr) : string :=
  if bool_decide (err_message e = "") then err_to_string e else err_message e.

(** The text of [${text || resp.status}]. *)
Definition failure_text (text : string) (resp : Response) : string :=
  if bool_decide (text = "") then pretty (resp_status resp) else text.

(** White space of [String.prototype.trim] among the characters below
    256: tab, line feed, vertical tab, form feed, carriage return, space
    and no-break space. *)
Definition is_white_space (a : Ascii.ascii) : bool :=
  let n := Ascii.nat_of_ascii a in
  bool_decide (n = 9 ∨ n = 10 ∨ n = 11 ∨ n = 12 ∨ n = 13 ∨ n = 32 ∨ n = 160)%nat.

Fixpoint trim_start (s : string) : string :=
  match s with
  | String a s' => if is_white_space a then trim_start s' else s
  | EmptyString => EmptyString
  end.

Definition trim (s : string) : string :=
  String.rev (trim_start (String.rev (trim_start s))).

(** [v.trim()]: only strings have the method. *)
Definition call_trim (v : JsVal) : Completion JsVal :=
  match v with
  | JStr s => Normal (JStr (trim s))
  | JUndefined | JNull => Throw (TypeError "Cannot read properties of undefined")
  | _ => Throw (TypeError "trim is not a function")
  end.

(** [this.props.a && this.props.a.b], the guarded read the components
    use; [this.props] spreads the store state. *)
Definition props_of (w : World) : JsVal :=
  JObj (own_props (redux.getState (w_store w))).

Definition read_path (props : JsVal) (a b : string) : Completion JsVal :=
  pa ← get_prop props a;
  if truthy pa then get_prop pa b else Normal pa.

Definition guarded_read (a b : string) : M JsVal := fun w =>
  (read_path (props_of w) a b, w).

(** [!name || name.trim() === ''] *)
Definition is_blank (name : JsVal) : Completion bool :=
  if truthy name then t ← call_trim name; Normal (strict_eq_str t "")
  else Normal true.

(** The network answers a request from its position in the history and
    its content. *)
Definition Network : Type := nat -> Request -> FetchOutcome.

(** [await fetch(url, { method: 'POST', headers, body: JSON.stringify(body) })] *)
Definition fetch (network : Network) (url : string) (body : JsVal) : M Response := fun w =>
  let rq := mkRequest url body in
  let o := network (w_issued w) rq in
  let w' := log_events [EvRequest rq; EvResponse o] (S (w_issued w)) w in
  match o with
  | Resolved r => (Normal r, w')
  | Rejected e => (Throw e, w')
  end.

(** [dispatch(action)] of the connected store. *)
Definition dispatch (action : JsVal) : M unit := fun w =>
  let w' := log_events [EvDispatch action] (w_issued w) w in
  match redux.dispatch (w_store w) action with
  | Normal st => (Normal tt, set_store st w')
  | Throw e => (Throw e, w')
  end.

(** [this.setState({ lastError })]. *)
Definition setState_lastError (e : option string) : M unit := fun w =>
  (Normal tt, set_lastError e w).

(** [showToast(message, type, duration)], the same method in both
    components: cancel the pending dismissal, show the toast, schedule
    its dismissal. *)
Definition toasted (message type : string) (duration : Z) (w : World) : World :=
  let w1 :=
    match w_toastTimer w with
    | Some h =>
        set_toastTimer None
          (set_timers (filter (fun t => t.1 ≠ h) (w_timers w)) (w_nextTimer w) w)
    | None => w
    end in
  let w2 := set_toast (Some (mkToast message type)) w1 in
  let h := w_nextTimer w2 in
  set_toastTimer (Some h) (set_timers (w_timers w2 ++ [(h, duration)]) (Pos.succ h) w2).

Definition showToast (message type : string) (duration : Z) : M unit := fun w =>
  (Normal tt, toasted message type duration w).

(** [clearError()], the same method in both components. *)
Definition clearError : M unit := setState_lastError None.

(** ** components/Lists/Lists.js *)
Module Lists_js.
Section component.
(** [config.baseUrl] (config/dev is outside the sources) and the network. *)
Variable baseUrl : string.
Variable network : Network.

(** [mapDispatchToProps] *)
Definition setLists (lists : JsVal) : M unit := dispatch (listAction_js.setLists lists).
Definition switchShowAddList (currentVal : JsVal) : M unit :=
  dispatch (listAction_js.switchShowAddListForm currentVal).
Definition setCreateListName (name : JsVal) : M unit :=
  dispatch (listAction_js.setCreateListName name).
Definition setCreateListDescription (description : JsVal) : M unit :=
  dispatch (listAction_js.setCreateListDescription description).
Definition setTasks (tasks : JsVal) : M unit := dispatch (taskAction_js.setTasks tasks).
Definition setTaskListName (listName : JsVal) : M unit :=
  dispatch (taskAction_js.setTaskListName listName).
Definition setTaskListId (listId : JsVal) : M unit :=
  dispatch (taskAction_js.setTaskListId listId).

Definition openAddListForm : M unit :=
  setCreateListName (JStr "");;
  setCreateListDescription (JStr "");;
  cur ← guarded_read "lists" "showAddList";
  switchShowAddList cur.

Definition loadLists : M unit :=
  try_catch
    (accessId ← guarded_read "login" "accessId";
     resp ← fetch network (baseUrl +:+ "/list/list") (obj [("access_id", accessId)]);
     if negb (resp_ok resp) then
       let text := resp_text resp in
       setState_lastError (Some ("Load lists failed: " +:+ failure_text text resp));;
       setLists (JArr [])
     else
       body ← eval (resp_json resp);
       setLists (if isArray body then body else JArr []))
    (fun err =>
       setState_lastError (Some ("Load lists exception: " +:+ err_text err));;
       setLists (JArr [])).

Definition createList : M unit :=
  try_catch
    (setState_lastError None;;
     accessId ← guarded_read "login" "accessId";
     name ← guarded_read "lists" "name";
     if negb (truthy accessId) then
       setState_lastError (Some "You must be logged in to create a list.")
     else
       blank ← eval (is_blank name);
       if (blank : bool) then setState_lastError (Some "List name is required.")
       else
         access_id ← guarded_read "login" "accessId";
         name' ← guarded_read "lists" "name";
         description ← guarded_read "lists" "description";
         resp ← fetch network (baseUrl +:+ "/list/create")
                  (obj [("access_id", access_id); ("name", name');
                        ("description", description); ("is_done", JBool false)]);
         (if negb (resp_ok resp) then
            let text := resp_text resp in
            showToast ("Create failed: " +:+ failure_text text resp) "error" 3000;;
            setState_lastError (Some ("Create failed: " +:+ failure_text text resp))
          else
            body ← eval (resp_json resp);
            showToast "List created" "success" 3000;;
            setState_lastError None);;
         loadLists;;
         setCreateListName (JStr "");;
         setCreateListDescription (JStr "");;
         cur ← guarded_read "lists" "showAddList";
         switchShowAddList cur)
    (fun err => setState_lastError (Some ("Create exception: " +:+ err_text err))).

Definition deleteList (id : JsVal) : M unit :=
  try_catch
    (accessId ← guarded_read "login" "accessId";
     resp ← fetch network (baseUrl +:+ "/list/delete")
              (obj [("access_id", accessId); ("id", id)]);
     (if negb (resp_ok resp) then
        let text := resp_text resp in
        showToast ("Delete failed: " +:+ failure_text text resp) "error" 3000;;
        setState_lastError (Some ("Delete failed: " +:+ failure_text text resp))
      else
        body ← eval (resp_json resp);
        showToast "List deleted" "success" 3000;;
        setState_lastError None);;
     loadLists)
    (fun err => setState_lastError (Some ("Delete exception: " +:+ err_text err))).

Definition loadTasks (listName id : JsVal) : M unit :=
  try_catch
    (accessId ← guarded_read "login" "accessId";
     resp ← fetch network (baseUrl +:+ "/task/list")
              (obj [("access_id", accessId); ("list_id", id)]);
     if negb (resp_ok resp) then
       let text := resp_text resp in
       setState_lastError (Some ("Load tasks failed: " +:+ failure_text text resp));;
       setTasks (JArr [])
     else
       body ← eval (resp_json resp);
       setTasks (if isArray body then body else JArr []);;
       setTaskListName listName;;
       setTaskListId id)
    (fun err =>
       setState_lastError (Some ("Load tasks exception: " +:+ err_text err));;
       setTasks (JArr [])).
End component.
End Lists_js.

(** A call whose promise is not awaited: its effects happen, its
    rejection reaches nobody. *)
Definition detached {A} (m : M A) : M unit := fun w => (Normal tt, (m w).2).

(** ** components/Tasks/Tasks.js *)
Module Tasks_js.
Section component.
Variable baseUrl : string.
Variable network : Network.

(** [mapDispatchToProps] *)
Definition switchShowAddTaskForm (currentVal : JsVal) : M unit :=
  dispatch (taskAction_js.switchShowAddTaskForm currentVal).
Definition setCreateTaskName (name : JsVal) : M unit :=
  dispatch (taskAction_js.setCreateTaskName name).
Definition setCreateTaskDescription (description : JsVal) : M unit :=
  dispatch (taskAction_js.setCreateTaskDescription description).
Definition setTasks (tasks : JsVal) : M unit := dispatch (taskAction_js.setTasks tasks).

Definition openAddTaskForm : M unit :=
  setCreateTaskName (JStr "");;
  setCreateTaskDescription (JStr "");;
  cur ← guarded_read "tasks" "showAddTaskForm";
  switchShowAddTaskForm cur.

Definition loadTasks (id : JsVal) : M unit :=
  try_catch
    (accessId ← guarded_read "login" "accessId";
     resp ← fetch network (baseUrl +:+ "/task/list")
              (obj [("access_id", accessId); ("list_id", id)]);
     if negb (resp_ok resp) then
       let text := resp_text resp in
       setState_lastError (Some ("Load tasks failed: " +:+ failure_text text resp));;
       setTasks (JArr [])
     else
       body ← eval (resp_json resp);
       setTasks (if isArray body then body else JArr []))
    (fun err =>
       setState_lastError (Some ("Load tasks exception: " +:+ err_text err));;
       setTasks (JArr [])).

Definition createTask : M unit :=
  try_catch
    (setState_lastError None;;
     accessId ← guarded_read "login" "accessId";
     listId ← guarded_read "tasks" "taskListId";
     name ← guarded_read "tasks" "name";
     if negb (truthy accessId) then
       setState_lastError (Some "You must be logged in to create a task.")
     else if negb (truthy listId) then
       setState_lastError (Some "Please select a list before adding a task.")
     else
       blank ← eval (is_blank name);
       if (blank : bool) then setState_lastError (Some "Task name is required.")
       else
         access_id ← guarded_read "login" "accessId";
         name' ← guarded_read "tasks" "name";
         description ← guarded_read "tasks" "description";
         list_id ← guarded_read "tasks" "taskListId";
         resp ← fetch network (baseUrl +:+ "/task/create")
                  (obj [("access_id", access_id); ("name", name');
                        ("description", description); ("list_id", list_id);
                        ("is_done", JBool false)]);
         (if negb (resp_ok resp) then
            let text := resp_text resp in
            showToast ("Create failed: " +:+ failure_text text resp) "error" 3000;;
            setState_lastError (Some ("Create failed: " +:+ failure_text text resp))
          else
            body ← eval (resp_json resp);
            showToast "Task created" "success" 3000;;
            setState_lastError None);;
         reload_id ← guarded_read "tasks" "taskListId";
         loadTasks reload_id;;
         (* Clear inputs after successful create and close the form *)
         setCreateTaskName (JStr "");;
         setCreateTaskDescription (JStr "");;
         cur ← guarded_read "tasks" "showAddTaskForm";
         switchShowAddTaskForm cur)
    (fun err => setState_lastError (Some ("Create exception: " +:+ err_text err))).

Definition deleteTask (id : JsVal) : M unit :=
  try_catch
    (accessId ← guarded_read "login" "accessId";
     resp ← fetch network (baseUrl +:+ "/task/delete")
              (obj [("access_id", accessId); ("id", id)]);
     (if negb (resp_ok resp) then
        let text := resp_text resp in
        showToast ("Delete failed: " +:+ failure_text text resp) "error" 3000;;
        setState_lastError (Some ("Delete failed: " +:+ failure_text text resp))
      else
        body ← eval (resp_json resp);
        showToast "Task deleted" "success" 3000;;
        setState_lastError None);;
     reload_id ← guarded_read "tasks" "taskListId";
     loadTasks reload_id)
    (fun err => mret tt).

Definition switchTaskIsDone (id is_done : JsVal) : M unit :=
  try_catch
    (accessId ← guarded_read "login" "accessId";
     resp ← fetch network (baseUrl +:+ "/task/isdone")
              (obj [("access_id", accessId); ("id", id); ("is_done", is_done)]);
     (if negb (resp_ok resp) then
        let text := resp_text resp in
        showToast ("Update failed: " +:+ failure_text text resp) "error" 3000;;
        setState_lastError (Some ("Update failed: " +:+ failure_text text resp))
      else
        body ← eval (resp_json resp);
        showToast "Task updated" "success" 3000;;
        setState_lastError None);;
     reload_id ← guarded_read "tasks" "taskListId";
     detached (loadTasks reload_id))
    (fun err => mret tt).
End component.
End Tasks_js.

(** The requests and the dispatched actions of a history. *)
Definition requests (tr : list Event) : list Request :=
  omap (fun ev => match ev with EvRequest rq => Some rq | _ => None end) tr.

Definition dispatched (tr : list Event) : list JsVal :=
  omap (fun ev => match ev with EvDispatch a => Some a | _ => None end) tr.

(** A world at rest: a store and a component that shows nothing. *)
Definition initial_world (st : redux.Store) : World :=
  mkWorld st None None None [] 1%positive 0%nat [].

(** [state.slice.field] of a store state, [undefined] when absent. *)
Definition field (state : JsVal) (slice name : string) : JsVal :=
  match state with
  | JObj m =>
      match m !! slice with
      | Some (JObj s) => default JUndefined (s !! name)
      | _ => JUndefined
      end
  | _ => JUndefined
  end.

(** ** Vocabulary of the properties *)

(** The value read at [v.k] among the own properties of [v]. *)
Definition own_prop (v : JsVal) (k : string) : JsVal :=
  default JUndefined (own_props v !! k).

(** A slice: its reducer, its default state, and for each [case] label
    of the reducer's [switch] the fields that case assigns. *)
Record Slice : Type := mkSlice {
  sl_reducer : Reducer;
  sl_initial : JsVal;
  sl_cases : list (string * list string)
}.

Definition login_slice : Slice :=
  mkSlice loginReducer_js.loginReducer loginReducer_js.initialState
    [(constants.SET_ACCESS_ID, ["accessId"]);
     (constants.SET_USERNAME, ["username"]);
     (constants.SET_PASSWORD, ["password"]);
     (constants.LOGIN_SUCCESS, ["accessId"; "username"])].

Definition list_slice : Slice :=
  mkSlice listReducer_js.listReducer listReducer_js.initialState
    [(constants.SET_LISTS, ["list"]);
     (constants.SWITCH_SHOW_ADD_LIST_FORM, ["showAddList"]);
     (constants.SET_CREATE_LIST_NAME, ["name"]);
     (constants.SET_CREATE_LIST_DESCRIPTION, ["description"])].

Definition task_slice : Slice :=
  mkSlice taskReducer_js.taskReducer taskReducer_js.initialState
    [(constants.SET_TASKS, ["tasks"]);
     (constants.SET_TASKS_LIST_NAME, ["taskListName"]);
     (constants.SET_TASKS_LIST_ID, ["taskListId"]);
     (constants.SWITCH_SHOW_ADD_TASK_FORM, ["showAddTaskForm"]);
     (constants.SWITCH_SET_TASK_IS_DONE, ["isDone"]);
     (constants.SET_CREATE_TASK_NAME, ["name"]);
     (constants.SET_CREATE_TASK_DESCRIPTION, ["description"])].

Definition slices : list Slice := [login_slice; list_slice; task_slice].

(** The action type is one of the slice's [case] labels. *)
Definition recognizes (sl : Slice) (ty : JsVal) : bool :=
  existsb (strict_eq_str ty) (sl_cases sl).*1.

(** Exactly one field differs between two states. *)
Definition exactly_one_field_differs (s s' : JsVal) : Prop :=
  ∃ k, own_prop s k ≠ own_prop s' k ∧ ∀ k', k' ≠ k → own_prop s k' = own_prop s' k'.

(** Dispatching a sequence of actions to a reducer, starting from [state]. *)
Fixpoint reduce_all (r : Reducer) (state : JsVal) (actions : list JsVal) : Completion JsVal :=
  match actions with
  | [] => Normal state
  | a :: rest => s ← r state a; reduce_all r s rest
  end.

(** What a recognized case stores in the field it assigns: the payload,
    coerced to the empty array by [SET_LISTS] and [SET_TASKS] when it is
    not an array. *)
Definition stored (ty : string) (payload : JsVal) : JsVal :=
  if bool_decide (ty = constants.SET_LISTS ∨ ty = constants.SET_TASKS)
  then (if isArray payload then payload else JArr [])
  else payload.

(** The collections handled by [SET_LISTS] and [SET_TASKS]. *)
Definition collections : list (Slice * string * string) :=
  [(list_slice, constants.SET_LISTS, "list"); (task_slice, constants.SET_TASKS, "tasks")].

(** An action record: an object with a [type] and a [payload] property. *)
Definition is_action_record (v : JsVal) : Prop :=
  ∃ m, v = JObj m ∧ is_Some (m !! "type") ∧ is_Some (m !! "payload").

(** The value of [this.props.a && this.props.a.b] in a world. *)
Definition prop_path (w : World) (a b : string) : JsVal :=
  match read_path (props_of w) a b with
  | Normal v => v
  | Throw _ => JUndefined
  end.

(** A store over the three slices under the names the components read
    ([login], [lists], [tasks]), each slice being an object. *)
Definition three_slices (st : redux.Store) : Prop :=
  redux.currentReducer st = App_test_js.rootReducer
  ∧ ∃ login lists tasks : gmap string JsVal,
      redux.currentState st
      = JObj (<["tasks" := JObj tasks]> (<["lists" := JObj lists]>
                (<["login" := JObj login]> ∅))).

(** The list and task slices and the names they are mounted under. *)
Definition mounted : list (string * Slice) :=
  [("lists", list_slice); ("tasks", task_slice)].

(** The requests of the operations. *)
Definition list_request (baseUrl : string) (w : World) : Request :=
  mkRequest (baseUrl +:+ "/list/list")
    (obj [("access_id", prop_path w "login" "accessId")]).
Definition delete_list_request (baseUrl : string) (w : World) (id : JsVal) : Request :=
  mkRequest (baseUrl +:+ "/list/delete")
    (obj [("access_id", prop_path w "login" "accessId"); ("id", id)]).
Definition task_list_request (baseUrl : string) (w : World) (id : JsVal) : Request :=
  mkRequest (baseUrl +:+ "/task/list")
    (obj [("access_id", prop_path w "login" "accessId"); ("list_id", id)]).

(** The sequence a load takes from the outcome of its request: the body
    when the response is successful and its body is an array, the empty
    array otherwise. *)
Definition loaded_sequence (o : FetchOutcome) : JsVal :=
  match o with
  | Resolved r =>
      if resp_ok r then
        match resp_json r with
        | Normal body => if isArray body then body else JArr []
        | Throw _ => JArr []
        end
      else JArr []
  | Rejected _ => JArr []
  end.

(** What a load leaves in [lastError]: untouched on a successful JSON
    response, the failure text otherwise. *)
Definition load_error (what : string) (o : FetchOutcome) (prev : option string)
    : option string :=
  match o with
  | Resolved r =>
      if resp_ok r then
        match resp_json r with
        | Normal _ => prev
        | Throw e => Some (what +:+ " exception: " +:+ err_text e)
        end
      else Some (what +:+ " failed: " +:+ failure_text (resp_text r) r)
  | Rejected e => Some (what +:+ " exception: " +:+ err_text e)
  end.

Definition create_task_request (baseUrl : string) (w : World) : Request :=
  mkRequest (baseUrl +:+ "/task/create")
    (obj [("access_id", prop_path w "login" "accessId");
          ("name", prop_path w "tasks" "name");
          ("description", prop_path w "tasks" "description");
          ("list_id", prop_path w "tasks" "taskListId");
          ("is_done", JBool false)]).

(** The record [v] is the action of identifier [label] carrying [payload]. *)
Definition builds (v : JsVal) (label : string) (payload : JsVal) : Prop :=
  is_action_record v
  ∧ dom (own_props v) = ({["type"; "payload"]} : gset string)
  ∧ get_prop v "type" = Normal (JStr label)
  ∧ get_prop v "payload" = Normal payload.

Definition create_list_request (baseUrl : string) (w : World) : Request :=
  mkRequest (baseUrl +:+ "/list/create")
    (obj [("access_id", prop_path w "login" "accessId");
          ("name", prop_path w "lists" "name");
          ("description", prop_path w "lists" "description");
          ("is_done", JBool false)]).

(** ** A session used to exercise the operations *)

(** A store state over the three slices, with the given token, the form
    of the Tasks screen open on list "1", and the given names typed in. *)
Definition session_state (accessId listName taskName : JsVal) : JsVal :=
  obj [("login", obj [("accessId", accessId); ("username", JStr "alice")]);
       ("lists", obj [("list", JArr []); ("showAddList", JBool true);
                      ("name", listName); ("description", JStr "")]);
       ("tasks", obj [("tasks", JArr []); ("showAddTaskForm", JBool true);
                      ("name", taskName); ("description", JStr "2l");
                      ("taskListName", JStr "shop"); ("taskListId", JStr "1")])].

Definition session (accessId listName taskName : JsVal) : World :=
  initial_world (redux.mkStore App_test_js.rootReducer
                   (session_state accessId listName taskName)).

(** A backend that refuses the first request with status 500 and
    answers every later one with an empty sequence. *)
Definition refusing_backend : Network := fun n _ =>
  match n with
  | O => Resolved (mkResponse 500 "boom" (Normal (obj [("detail", JStr "boom")])))
  | S _ => Resolved (mkResponse 200 "[]" (Normal (JArr [])))
  end.

(** A backend that acknowledges the first request and then answers with
    an object where a sequence is expected. *)
Definition confused_backend : Network := fun n _ =>
  match n with
  | O => Resolved (mkResponse 200 "{}" (Normal (obj [("ok", JBool true)])))
  | S _ => Resolved (mkResponse 200 "{}" (Normal (obj [("error", JStr "nope")])))
  end.

(** A backend that acknowledges the first request and serves one list
    afterwards. *)
Definition serving_backend : Network := fun n _ =>
  match n with
  | O => Resolved (mkResponse 200 "{}" (Normal (obj [("ok", JBool true)])))
  | S _ =>
      Resolved (mkResponse 200 "[...]"
                  (Normal (JArr [obj [("id", JNum 2); ("name", JStr "chores");
                                      ("description", JStr ""); ("is_done", JBool false)]])))
  end.

(** A backend that acknowledges the first request with status 204 and
    no body, and serves an empty sequence afterwards. *)
Definition terse_backend : Network := fun n _ =>
  match n with
  | O => Resolved (mkResponse 204 ""
                     (Throw (mkErr "SyntaxError" "Unexpected end of JSON input")))
  | S _ => Resolved (mkResponse 200 "[]" (Normal (JArr [])))
  end.

(** ** What an action assigns *)

(** The assignments a reducer makes for an action: none when the type is
    not one of its [case] labels, otherwise the fields of the case with
    the values they receive.  Used to state how actions compose. *)
Definition assignments (sl : Slice) (action : JsVal) : option (gmap string JsVal) :=
  match get_prop action "type", get_prop action "payload" with
  | Normal ty, Normal payload =>
      match List.find (fun c => strict_eq_str ty c.1) (sl_cases sl) with
      | Some (label, [f]) => Some {[ f := stored label payload ]}
      | Some (label, flds) =>
          Some (list_to_map
                  (map (fun f => (f, match get_prop payload f with
                                     | Normal v => v
                                     | Throw _ => JUndefined
                                     end)) flds))
      | None => None
      end
  | _, _ => None
  end.

(** A state with assignments applied: [{ ...state, f1: v1, ... }]. *)
Definition patch (upd : option (gmap string JsVal)) (state : JsVal) : JsVal :=
  match upd with
  | Some u => JObj (u ∪ own_props state)
  | None => state
  end.

(** ** components/Login/Login.js *)

(** [this.props.a.b], read without a guard: it throws when [this.props.a]
    is [undefined] or [null]. *)
Definition unguarded_read (a b : string) : M JsVal := fun w =>
  (pa ← get_prop (props_of w) a; get_prop pa b, w).

(** The constructor of the component binds [login] and then evaluates
    [this.login.register(this)], a call of a property that a function
    does not have; the methods below are modelled as they run when they
    are called. *)
Module Login_js.
Section component.
Variable baseUrl : string.
Variable network : Network.

(** [mapDispatchToProps] *)
Definition loginUser (username accessId : JsVal) : M unit :=
  dispatch (loginAction_js.loginSuccess username accessId).
Definition setUsername (username : JsVal) : M unit :=
  dispatch (loginAction_js.setUsername username).
Definition setPassword (password : JsVal) : M unit :=
  dispatch (loginAction_js.setPassword password).

(** [login()] resolves to [body.access_token]; the second component of
    the result is the message handed to [alert], when it is called (the
    browser's [alert] shows its first argument and ignores the others). *)
Definition login : M (JsVal * option string) :=
  username ← unguarded_read "login" "username";
  password ← unguarded_read "login" "password";
  resp ← fetch network (baseUrl +:+ "/user/login")
           (obj [("username", username); ("password", password)]);
  body ← eval (resp_json resp);
  access_id ← eval (get_prop body "access_id");
  alerted ←
    (if negb (is_undefined access_id) then
       username' ← unguarded_read "login" "username";
       access_id' ← eval (get_prop body "access_id");
       loginUser username' access_id';;
       mret None
     else
       errorMsg ← eval (get_prop body "errorMsg");
       mret (Some "Invalid Registration"));
  access_token ← eval (get_prop body "access_token");
  mret (access_token, alerted).

Definition register : M (JsVal * option string) :=
  username ← unguarded_read "login" "username";
  password ← unguarded_read "login" "password";
  resp ← fetch network (baseUrl +:+ "/user/register")
           (obj [("username", username); ("password", password)]);
  body ← eval (resp_json resp);
  access_id ← eval (get_prop body "access_id");
  alerted ←
    (if negb (is_undefined access_id) then
       username' ← unguarded_read "login" "username";
       access_id' ← eval (get_prop body "access_id");
       loginUser username' access_id';;
       mret None
     else
       errorMsg ← eval (get_prop body "errorMsg");
       mret (Some "Invalid Registration"));
  access_token ← eval (get_prop body "access_token");
  mret (access_token, alerted).

(** The [onChange] handlers of the two inputs of [render]: both call
    [this.props.setUsername] with [event.target.value]. *)
Definition onChange_username (event : JsVal) : M unit :=
  target ← eval (get_prop event "target");
  value ← eval (get_prop target "value");
  setUsername value.

Definition onChange_password (event : JsVal) : M unit :=
  target ← eval (get_prop event "target");
  value ← eval (get_prop target "value");
  setUsername value.
End component.
End Login_js.

(** The two inputs of the login form, and a change event carrying the
    text typed into one. *)
Inductive LoginInput : Type := UsernameInput | PasswordInput.

Definition change_event (value : JsVal) : JsVal :=
  obj [("target", obj [("value", value)])].

Definition typed (input : LoginInput) (value : JsVal) : M unit :=
  match input with
  | UsernameInput => Login_js.onChange_username (change_event value)
  | PasswordInput => Login_js.onChange_password (change_event value)
  end.

(** Component code run in sequence, stopping at the first exception. *)
Fixpoint in_sequence (ms : list (M unit)) : M unit :=
  match ms with
  | [] => mret tt
  | m :: rest => m;; in_sequence rest
  end.

(** A store whose root reducer mounts the login reducer as [login] and
    holds an object there: the store of [configureStore], or a store
    over the three slices. *)
Definition login_mounted (st : redux.Store) : Prop :=
  (redux.currentReducer st = configureStore_js.rootReducer
   ∧ ∃ login : gmap string JsVal,
       redux.currentState st = JObj {[ "login" := JObj login ]})
  ∨ three_slices st.

(** The two methods of the login form that talk to the backend, and the
    request each sends. *)
Inductive Exchange : Type := LogIn | SignUp.

Definition exchange (baseUrl : string) (network : Network) (x : Exchange)
    : M (JsVal * option string) :=
  match x with
  | LogIn => Login_js.login baseUrl network
  | SignUp => Login_js.register baseUrl network
  end.

Definition exchange_request (baseUrl : string) (x : Exchange) (w : World) : Request :=
  mkRequest (baseUrl +:+ match x with LogIn => "/user/login" | SignUp => "/user/register" end)
    (obj [("username", field (redux.getState (w_store w)) "login" "username");
          ("password", field (redux.getState (w_store w)) "login" "password")]).

(** The world of a freshly created store of [configureStore], and
    backends that answer the request of the login form. *)
Definition fresh_world : World :=
  initial_world (redux.mkStore configureStore_js.rootReducer
                   (obj [("login", loginReducer_js.initialState)])).

Definition answering (status : Z) (body : JsVal) : Network := fun _ _ =>
  Resolved (mkResponse status "" (Normal body)).

Definition unreachable_backend : Network := fun _ _ =>
  Rejected (mkErr "TypeError" "Failed to fetch").

(** ** What an operation may do, whatever the world *)

(** The operation resolves: no exception leaves it. *)
Definition settles {A} (m : M A) : Prop :=
  ∀ w, ∃ a w', m w = (Normal a, w').

(** The operation only extends the history, by at least [lo] and at
    most [hi] requests. *)
Definition issues {A} (lo hi : nat) (m : M A) : Prop :=
  ∀ w, ∃ evs, w_trace (m w).2 = (w_trace w ++ evs)%list
              ∧ (lo ≤ length (requests evs) ≤ hi)%nat.

(** The requests of the two task operations that change a task. *)
Definition delete_task_request (baseUrl : string) (w : World) (id : JsVal) : Request :=
  mkRequest (baseUrl +:+ "/task/delete")
    (obj [("access_id", prop_path w "login" "accessId"); ("id", id)]).

Definition is_done_request (baseUrl : string) (w : World) (id is_done : JsVal) : Request :=
  mkRequest (baseUrl +:+ "/task/isdone")
    (obj [("access_id", prop_path w "login" "accessId"); ("id", id);
          ("is_done", is_done)]).

(** The exception an operation meets while it awaits the answer to its
    request: the rejection of [fetch], or that of [resp.json()] on a
    successful response whose body is not JSON. *)
Definition thrown_by (o : FetchOutcome) : option JsErr :=
  match o with
  | Rejected e => Some e
  | Resolved r =>
      if resp_ok r then
        match resp_json r with Throw e => Some e | Normal _ => None end
      else None
  end.

(** What an operation shows once its request is answered: the toast, and
    the banner it sets before it reloads. *)
Definition answer_toast (done failed : string) (r : Response) : Toast :=
  if resp_ok r then mkToast done "success"
  else mkToast (failed +:+ " failed: " +:+ failure_text (resp_text r) r) "error".

Definition answer_error (failed : string) (r : Response) : option string :=
  if resp_ok r then None
  else Some (failed +:+ " failed: " +:+ failure_text (resp_text r) r).

(** The state an operation of the task table ends in when its request
    [rq] was answered by [r] and the tasks of the selected list were
    loaded again afterwards. *)
Definition tasks_reloaded (baseUrl : string) (network : Network) (w : World)
    (rq : Request) (r : Response) (toast : Toast) (error : option string) (w' : World)
    : Prop :=
  let reload := task_list_request baseUrl w (prop_path w "tasks" "taskListId") in
  let o := network (S (w_issued w)) reload in
  w_trace w'
  = (w_trace w
     ++ [EvRequest rq; EvResponse (Resolved r); EvRequest reload; EvResponse o;
         EvDispatch (taskAction_js.setTasks (loaded_sequence o))])%list
  ∧ field (redux.getState (w_store w')) "tasks" "tasks" = loaded_sequence o
  ∧ (∀ s f, (s, f) ≠ ("tasks", "tasks") →
       field (redux.getState (w_store w')) s f = field (redux.getState (w_store w)) s f)
  ∧ w_toast w' = Some toast
  ∧ w_lastError w' = load_error "Load tasks" o error.

(** ** What the components render *)

(** [v.toString()] on a value of this model: it throws on [undefined]
    and [null]; an array joins its elements with commas, [undefined] and
    [null] elements giving the empty string; an object answers
    "[object Object]" unless it has a [toString] property of its own,
    which in this model is never a function. *)
Fixpoint toString (v : JsVal) : Completion string :=
  match v with
  | JUndefined => Throw (TypeError "Cannot read properties of undefined")
  | JNull => Throw (TypeError "Cannot read properties of null")
  | JBool b => Normal (if b then "true" else "false")
  | JNum n => Normal (pretty n)
  | JStr s => Normal s
  | JArr l =>
      (fix join (l : list JsVal) : Completion string :=
         match l with
         | [] => Normal ""
         | x :: rest =>
             sx ← match x with
                  | JUndefined | JNull => Normal ""
                  | _ => toString x
                  end;
             match rest with
             | [] => Normal sx
             | _ => sr ← join rest; Normal (sx +:+ "," +:+ sr)
             end
         end) l
  | JObj m =>
      if bool_decide (is_Some (m !! "toString"))
      then Throw (TypeError "toString is not a function")
      else Normal "[object Object]"
  end.

(** A row of the table, the form under it, and the screen. *)
Record Row : Type :=
  mkRow { row_id : JsVal; row_name : JsVal; row_description : JsVal; row_done : string }.

Record Form : Type :=
  mkForm { form_toast : option (string * string);   (** background and message *)
           form_banner : option string;
           form_name : JsVal;
           form_description : JsVal }.

Record Screen : Type := mkScreen { scr_rows : list Row; scr_form : option Form }.

(** The body of the [map] callback of both tables. *)
Definition table_row (data : JsVal) : Completion Row :=
  id ← get_prop data "id";
  name ← get_prop data "name";
  description ← get_prop data "description";
  is_done ← get_prop data "is_done";
  done ← toString is_done;
  Normal (mkRow id name description done).

(** [(collection || []).map(...)]: a truthy value that is no array has
    no [map] to call. *)
Definition table_rows (collection : JsVal) : Completion (list Row) :=
  match collection with
  | JArr l => mapM table_row l
  | _ => if truthy collection then Throw (TypeError "map is not a function")
         else Normal []
  end.

(** [this.state.toast ? ... : null] and [this.state.lastError ? ... : null]. *)
Definition toast_box (toast : option Toast) : option (string * string) :=
  match toast with
  | Some t =>
      Some (if bool_decide (toast_type t = "error") then "#ffcccc"
            else if bool_decide (toast_type t = "success") then "#d4edda"
            else "#cce5ff",
            toast_message t)
  | None => None
  end.

Definition banner (lastError : option string) : option string :=
  match lastError with
  | Some e => if bool_decide (e = "") then None else Some e
  | None => None
  end.

(** [v || '']. *)
Definition or_empty (v : JsVal) : JsVal := if truthy v then v else JStr "".

(** [render()] of the two components, from [this.props] and
    [this.state]. *)
Module Lists_view.
Definition render (props : JsVal) (toast : option Toast) (lastError : option string)
    : Completion Screen :=
  lists ← get_prop props "lists";
  showAddList ← get_prop lists "showAddList";
  if truthy showAddList then
    list ← get_prop lists "list";
    rows ← table_rows list;
    name ← read_path props "lists" "name";
    description ← read_path props "lists" "description";
    Normal (mkScreen rows
              (Some (mkForm (toast_box toast) (banner lastError)
                       (or_empty name) (or_empty description))))
  else
    list ← get_prop lists "list";
    rows ← table_rows list;
    Normal (mkScreen rows None).
End Lists_view.

Module Tasks_view.
Definition render (props : JsVal) (toast : option Toast) (lastError : option string)
    : Completion Screen :=
  tasks ← get_prop props "tasks";
  showAddTaskForm ← get_prop tasks "showAddTaskForm";
  if truthy showAddTaskForm then
    list ← get_prop tasks "tasks";
    rows ← table_rows list;
    name ← read_path props "tasks" "name";
    description ← read_path props "tasks" "description";
    Normal (mkScreen rows
              (Some (mkForm (toast_box toast) (banner lastError)
                       (or_empty name) (or_empty description))))
  else
    list ← get_prop tasks "tasks";
    rows ← table_rows list;
    Normal (mkScreen rows None).
End Tasks_view.

(** What a component shows in a world. *)
Definition lists_screen (w : World) : Completion Screen :=
  Lists_view.render (props_of w) (w_toast w) (w_lastError w).

Definition tasks_screen (w : World) : Completion Screen :=
  Tasks_view.render (props_of w) (w_toast w) (w_lastError w).

(** ** The store fields an operation may change *)

(** On a store over the three slices the operation leaves such a store,
    and every field outside [allowed] as it was. *)
Definition touches_only {A} (allowed : list (string * string)) (m : M A) : Prop :=
  ∀ w, three_slices (w_store w) →
    three_slices (w_store (m w).2)
    ∧ ∀ s f, (s, f) ∉ allowed →
        field (redux.getState (w_store (m w).2)) s f
        = field (redux.getState (w_store w)) s f.

(** ** The dismissal of a toast *)

(** The callback of the timeout that [showToast] schedules,
    [() => this.setState({ toast: null })], run when timer [h] is
    pending. *)
Definition timeout_fires (h : positive) (w : World) : World :=
  if bool_decide (h ∈ (w_timers w).*1)
  then set_toast None
         (set_timers (filter (fun t => t.1 ≠ h) (w_timers w)) (w_nextTimer w) w)
  else w.

(** [this.state.toast] holds a toast exactly while one dismissal is
    pending, the one scheduled with it. *)
Definition toast_pending (w : World) : Prop :=
  (w_toast w = None ∧ w_timers w = [])
  ∨ (∃ h d, is_Some (w_toast w) ∧ w_timers w = [(h, d)] ∧ w_toastTimer w = Some h).

(** The operation keeps a property of the world. *)
Definition keeps {A} (P : World → Prop) (m : M A) : Prop :=
  ∀ w, P w → P (m w).2.

(** The world in which the components are mounted on a store freshly
    created over the three slices. *)
Definition startup_world : World :=
  initial_world (redux.mkStore App_test_js.rootReducer
                   (obj [("login", loginReducer_js.initialState);
                         ("lists", listReducer_js.initialState);
                         ("tasks", taskReducer_js.initialState)])).

(** Actions dispatched one after the other on a store. *)
Fixpoint dispatch_all (store : redux.Store) (actions : list JsVal)
    : Completion redux.Store :=
  match actions with
  | [] => Normal store
  | action :: rest => store' ← redux.dispatch store action; dispatch_all store' rest
  end.

(** A record of a table whose row cannot be rendered: it is [undefined]
    or [null], or its [is_done] is. *)
Definition unrenderable (data : JsVal) : Prop :=
  data = JUndefined ∨ data = JNull
  ∨ get_prop data "is_done" = Normal JUndefined
  ∨ get_prop data "is_done" = Normal JNull.

(** A backend that answers every request with the same successful
    response. *)
Definition steady_backend (body : JsVal) : Network := fun _ _ =>
  Resolved (mkResponse 200 "" (Normal body)).

(** The request was answered with a 2xx status and a JSON body. *)
Definition accepted (o : FetchOutcome) : bool :=
  match o with
  | Resolved r =>
      resp_ok r && match resp_json r with Normal _ => true | Throw _ => false end
  | Rejected _ => false
  end.

(** A backend that answers every request with status 200 and a page
    that is not JSON. *)
Definition garbled_backend : Network := fun _ _ =>
  Resolved (mkResponse 200 "<html>Bad gateway</html>"
              (Throw (mkErr "SyntaxError" "Unexpected token < in JSON at position 0"))).

(** ** The cases of the test suites, run on the embedding *)

Example loginReducer_initial :
  loginReducer_js.loginReducer JUndefined (obj []) = Normal loginReducer_js.initialState.
Proof. reflexivity. Qed.

Example listReducer_initial :
  listReducer_js.listReducer JUndefined (obj []) = Normal listReducer_js.initialState.
Proof. reflexivity. Qed.

Example taskReducer_initial :
  taskReducer_js.taskReducer JUndefined (obj []) = Normal taskReducer_js.initialState.
Proof. reflexivity. Qed.

Example loginReducer_login_success_scenario :
  loginReducer_js.loginReducer loginReducer_js.initialState
    (loginAction_js.loginSuccess (JStr "alice") (JStr "tok-1"))
  = Normal (obj [("accessId", JStr "tok-1"); ("username", JStr "alice")]).
Proof. vm_compute. reflexivity. Qed.

Example listReducer_set_lists_null :
  listReducer_js.listReducer listReducer_js.initialState
    (obj [("type", JStr "SET_LISTS"); ("payload", JNull)])
  = Normal listReducer_js.initialState.
Proof. vm_compute. reflexivity. Qed.

Example taskReducer_multiple_updates :
  reduce_all taskReducer_js.taskReducer taskReducer_js.initialState
    [obj [("type", JStr "SET_TASKS_LIST_ID"); ("payload", JStr "100")];
     obj [("type", JStr "SET_TASKS_LIST_NAME"); ("payload", JStr "Project Tasks")];
     obj [("type", JStr "SET_CREATE_TASK_NAME"); ("payload", JStr "First Task")]]
  = Normal (obj [("tasks", JArr []); ("showAddTaskForm", JBool false);
                 ("name", JStr "First Task"); ("description", JStr "");
                 ("taskListName", JStr "Project Tasks"); ("taskListId", JStr "100")]).
Proof. vm_compute. reflexivity. Qed.

(** [LOGIN_SUCCESS] without a payload: reading [accessId] of
    [undefined] throws. *)
Example loginReducer_login_without_payload :
  loginReducer_js.loginReducer loginReducer_js.initialState (obj [("type", JStr "LOGIN")])
  = Throw (TypeError "Cannot read properties of undefined").
Proof. reflexivity. Qed.

(** The root reducer of the component tests starts from the three slice
    defaults. *)
Example three_slice_store_initial suffix :
  redux.getState <$> redux.createStore App_test_js.rootReducer JUndefined suffix
  = Normal (obj [("login", loginReducer_js.initialState);
                 ("lists", listReducer_js.initialState);
                 ("tasks", taskReducer_js.initialState)]).
Proof. reflexivity. Qed.

(** ** The reducers *)

Lemma strict_eq_str_true s : strict_eq_str (JStr s) s = true.
Proof. simpl. by apply bool_decide_eq_true_2. Qed.

Lemma strict_eq_str_false s t : s ≠ t → strict_eq_str (JStr s) t = false.
Proof. intros. simpl. by apply bool_decide_eq_false_2. Qed.

Lemma default_param_defined v d : d ≠ JUndefined → default_param v d ≠ JUndefined.
Proof. unfold default_param. by destruct v. Qed.

Lemma default_param_undefined d : default_param JUndefined d = d.
Proof. reflexivity. Qed.

Lemma default_param_id v d : v ≠ JUndefined → default_param v d = v.
Proof. unfold default_param. by destruct v. Qed.

(** Decide the tests of a [switch] whose discriminant is known. *)
Ltac switch_on H :=
  rewrite H; simpl mbind; unfold mbind, Completion_bind;
  repeat first
    [ rewrite strict_eq_str_true
    | rewrite strict_eq_str_false by (unfold constants.SET_ACCESS_ID; discriminate) ].

Lemma loginReducer_default state action ty :
  get_prop action "type" = Normal ty →
  recognizes login_slice ty = false →
  loginReducer_js.loginReducer state action
  = Normal (default_param state loginReducer_js.initialState).
Proof.
  intros Hty Hrec. unfold recognizes in Hrec. simpl in Hrec.
  repeat (apply orb_false_elim in Hrec as [? Hrec]).
  unfold loginReducer_js.loginReducer. rewrite Hty. unfold mbind, Completion_bind.
  by repeat match goal with H : strict_eq_str _ _ = false |- _ => rewrite H; clear H end.
Qed.

Lemma listReducer_default state action ty :
  get_prop action "type" = Normal ty →
  recognizes list_slice ty = false →
  listReducer_js.listReducer state action
  = Normal (default_param state listReducer_js.initialState).
Proof.
  intros Hty Hrec. unfold recognizes in Hrec. simpl in Hrec.
  repeat (apply orb_false_elim in Hrec as [? Hrec]).
  unfold listReducer_js.listReducer. rewrite Hty. unfold mbind, Completion_bind.
  by repeat match goal with H : strict_eq_str _ _ = false |- _ => rewrite H; clear H end.
Qed.

Lemma taskReducer_default state action ty :
  get_prop action "type" = Normal ty →
  recognizes task_slice ty = false →
  taskReducer_js.taskReducer state action
  = Normal (default_param state taskReducer_js.initialState).
Proof.
  intros Hty Hrec. unfold recognizes in Hrec. simpl in Hrec.
  repeat (apply orb_false_elim in Hrec as [? Hrec]).
  unfold taskReducer_js.taskReducer. rewrite Hty. unfold mbind, Completion_bind.
  by repeat match goal with H : strict_eq_str _ _ = false |- _ => rewrite H; clear H end.
Qed.

Lemma slice_default sl state action ty :
  sl ∈ slices →
  get_prop action "type" = Normal ty →
  recognizes sl ty = false →
  sl_reducer sl state action = Normal (default_param state (sl_initial sl)).
Proof.
  unfold slices. rewrite !elem_of_cons, elem_of_nil.
  intros [->|[->|[->|[]]]]; simpl.
  - apply loginReducer_default.
  - apply listReducer_default.
  - apply taskReducer_default.
Qed.

Lemma own_props_spread_set v k x : own_props (spread_set v k x) = <[k := x]> (own_props v).
Proof. reflexivity. Qed.

(** A case other than [LOGIN_SUCCESS]: [{ ...state, field: value }]. *)
Lemma slice_single_case sl ty f state action payload :
  sl ∈ slices →
  (ty, [f]) ∈ sl_cases sl →
  get_prop action "type" = Normal (JStr ty) →
  get_prop action "payload" = Normal payload →
  sl_reducer sl state action
  = Normal (spread_set (default_param state (sl_initial sl)) f (stored ty payload)).
Proof.
  unfold slices. rewrite !elem_of_cons, elem_of_nil.
  intros [->|[->|[->|[]]]]; simpl; rewrite !elem_of_cons, elem_of_nil;
    intros Hcase Hty Hpl;
    repeat (destruct Hcase as [[= -> ->]|Hcase]); try done;
    unfold loginReducer_js.loginReducer, listReducer_js.listReducer,
      taskReducer_js.taskReducer;
    switch_on Hty; rewrite Hpl; reflexivity.
Qed.

(** The [LOGIN_SUCCESS] case reads two properties of the payload, which
    throws on [undefined] and [null], and assigns two fields. *)
Lemma loginReducer_login_success state action payload accessId username :
  get_prop action "type" = Normal (JStr constants.LOGIN_SUCCESS) →
  get_prop action "payload" = Normal payload →
  get_prop payload "accessId" = Normal accessId →
  get_prop payload "username" = Normal username →
  loginReducer_js.loginReducer state action
  = Normal (JObj (<["username" := username]>
                    (<["accessId" := accessId]>
                       (own_props (default_param state loginReducer_js.initialState))))).
Proof.
  intros Hty Hpl Ha Hu. unfold loginReducer_js.loginReducer.
  switch_on Hty. rewrite Hpl, Ha, Hu. reflexivity.
Qed.

Lemma get_prop_defined v k :
  v ≠ JUndefined → v ≠ JNull → ∃ x, get_prop v k = Normal x.
Proof. destruct v; intros; try done; eexists; reflexivity. Qed.

(** ** Unrecognized actions *)

(** The reducers are not total.  Each of them reads [action.type]
    first, which throws when the action is [undefined] or [null], and
    the login reducer reads two properties of the payload of a [LOGIN]
    action, which throws when the action carries none. *)
Lemma reducers_are_not_total :
  ¬ (∀ sl state action, sl ∈ slices → ∃ s', sl_reducer sl state action = Normal s')
  ∧ loginReducer_js.loginReducer loginReducer_js.initialState
      (obj [("type", JStr constants.LOGIN_SUCCESS)])
    = Throw (TypeError "Cannot read properties of undefined")
  ∧ Forall (fun sl =>
              sl_reducer sl (sl_initial sl) JNull
              = Throw (TypeError "Cannot read properties of null")
              ∧ sl_reducer sl (sl_initial sl) JUndefined
                = Throw (TypeError "Cannot read properties of undefined"))
      slices.
Proof.
  split; [|split].
  - intros Htotal.
    destruct (Htotal login_slice loginReducer_js.initialState
                (obj [("type", JStr constants.LOGIN_SUCCESS)])) as (s' & Hs').
    + apply list_elem_of_here.
    + vm_compute in Hs'. discriminate.
  - reflexivity.
  - repeat constructor.
Qed.

(** C6. Each of the three slice reducers returns normally on every
    action whose type can be read and is not one of its [case] labels,
    whatever the state: it returns the input state unchanged, and the
    slice default when the state is [undefined]. *)
Theorem reducers_identity_on_unrecognized sl state action ty :
  sl ∈ slices →
  get_prop action "type" = Normal ty →
  recognizes sl ty = false →
  sl_reducer sl state action = Normal (default_param state (sl_initial sl))
  ∧ (state ≠ JUndefined → sl_reducer sl state action = Normal state)
  ∧ sl_reducer sl JUndefined action = Normal (sl_initial sl).
Proof.
  intros Hsl Hty Hrec. split; [|split].
  - by eapply slice_default.
  - intros Hdef. erewrite slice_default by done. by rewrite default_param_id.
  - by erewrite slice_default.
Qed.

Lemma reducers_identity_on_unrecognized_witness :
  loginReducer_js.loginReducer
    (obj [("accessId", JStr "existing-id"); ("username", JStr "existinguser")])
    (obj [("type", JStr "UNKNOWN_ACTION")])
  = Normal (obj [("accessId", JStr "existing-id"); ("username", JStr "existinguser")])
  ∧ loginReducer_js.loginReducer JUndefined (obj [("type", JStr "UNKNOWN_ACTION")])
    = Normal loginReducer_js.initialState.
Proof.
  destruct (reducers_identity_on_unrecognized login_slice
              (obj [("accessId", JStr "existing-id"); ("username", JStr "existinguser")])
              (obj [("type", JStr "UNKNOWN_ACTION")])
              (JStr "UNKNOWN_ACTION")) as (_ & Hid & Hdef).
  - apply list_elem_of_here.
  - reflexivity.
  - reflexivity.
  - split; [apply Hid; discriminate | exact Hdef].
Defined.

(** ** Recognized actions *)

Lemma recognizes_label sl ty :
  recognizes sl ty = true → ∃ label flds, ty = JStr label ∧ (label, flds) ∈ sl_cases sl.
Proof.
  unfold recognizes. intros H. apply existsb_exists in H as (label & Hin & Heq).
  apply list_elem_of_In, list_elem_of_fmap in Hin as ([l flds] & -> & Hin).
  destruct ty; try discriminate. simpl in Heq. apply bool_decide_eq_true in Heq as ->.
  by exists l, flds.
Qed.

Lemma stored_isArray ty payload :
  ty = constants.SET_LISTS ∨ ty = constants.SET_TASKS →
  stored ty payload = (if isArray payload then payload else JArr []).
Proof. intros H. unfold stored. by rewrite bool_decide_eq_true_2. Qed.

Lemma coerced_isArray payload : isArray (if isArray payload then payload else JArr []) = true.
Proof. by destruct payload. Qed.

Lemma collection_set sl ty fld state action payload :
  (sl, ty, fld) ∈ collections →
  get_prop action "type" = Normal (JStr ty) →
  get_prop action "payload" = Normal payload →
  sl_reducer sl state action
  = Normal (spread_set (default_param state (sl_initial sl)) fld
              (if isArray payload then payload else JArr [])).
Proof.
  unfold collections. rewrite !elem_of_cons, elem_of_nil.
  intros [[= -> -> ->]|[[= -> -> ->]|[]]] Hty Hpl.
  - rewrite (slice_single_case list_slice constants.SET_LISTS "list" state action payload);
      [ by rewrite stored_isArray by (by left)
      | unfold slices; set_solver | simpl; set_solver | done | done ].
  - rewrite (slice_single_case task_slice constants.SET_TASKS "tasks" state action payload);
      [ by rewrite stored_isArray by (by right)
      | unfold slices; set_solver | simpl; set_solver | done | done ].
Qed.

(** The collection field stays an array under every action. *)
Lemma collection_step sl ty fld state action :
  (sl, ty, fld) ∈ collections →
  action ≠ JUndefined → action ≠ JNull →
  state = JUndefined ∨ isArray (own_prop state fld) = true →
  ∃ s', sl_reducer sl state action = Normal s'
        ∧ s' ≠ JUndefined ∧ isArray (own_prop s' fld) = true.
Proof.
  intros Hc Ha1 Ha2 Hinv.
  assert (Hsl : sl ∈ slices).
  { revert Hc. unfold collections, slices. rewrite !elem_of_cons, !elem_of_nil.
    intros [[= -> _ _]|[[= -> _ _]|[]]]; auto. }
  assert (Hinit : sl_initial sl ≠ JUndefined ∧ isArray (own_prop (sl_initial sl) fld) = true).
  { revert Hc. unfold collections. rewrite !elem_of_cons, !elem_of_nil.
    intros [[= -> _ ->]|[[= -> _ ->]|[]]]; by split. }
  assert (Hcur : default_param state (sl_initial sl) ≠ JUndefined
                 ∧ isArray (own_prop (default_param state (sl_initial sl)) fld) = true).
  { destruct Hinv as [->|Harr]; [by rewrite default_param_undefined|].
    destruct state; rewrite default_param_id by done; by split. }
  destruct (get_prop_defined action "type" Ha1 Ha2) as [t Ht].
  destruct (get_prop_defined action "payload" Ha1 Ha2) as [payload Hpl].
  destruct (recognizes sl t) eqn:Hrec.
  - apply recognizes_label in Hrec as (label & flds & -> & Hin).
    assert (∃ f, flds = [f] ∧ (f = fld → label = ty)) as (f & -> & Hf).
    { revert Hc Hin. unfold collections. rewrite !elem_of_cons, !elem_of_nil.
      intros [[= -> -> ->]|[[= -> -> ->]|[]]]; simpl; rewrite !elem_of_cons, elem_of_nil;
        intros Hin; repeat (destruct Hin as [[= -> ->]|Hin]); try done;
        eexists; (split; [reflexivity|]); by intros [=]. }
    erewrite slice_single_case by eauto.
    eexists. split; [reflexivity|]. split; [done|].
    unfold own_prop. rewrite own_props_spread_set.
    destruct (decide (f = fld)) as [->|Hne].
    + rewrite lookup_insert_eq. simpl. rewrite (Hf eq_refl).
      rewrite stored_isArray; [apply coerced_isArray|].
      revert Hc. unfold collections. rewrite !elem_of_cons, !elem_of_nil.
      intros [[= _ -> _]|[[= _ -> _]|[]]]; auto.
    + rewrite lookup_insert_ne by done. apply Hcur.
  - erewrite slice_default by eauto. eexists. split; [reflexivity|]. apply Hcur.
Qed.

Lemma collection_invariant sl ty fld actions : ∀ state,
  (sl, ty, fld) ∈ collections →
  Forall (fun a => a ≠ JUndefined ∧ a ≠ JNull) actions →
  state ≠ JUndefined ∧ isArray (own_prop state fld) = true →
  ∃ s, reduce_all (sl_reducer sl) state actions = Normal s
       ∧ s ≠ JUndefined ∧ isArray (own_prop s fld) = true.
Proof.
  induction actions as [|a rest IH]; intros state Hc Hall Hinv; simpl.
  - by exists state.
  - apply Forall_cons in Hall as [[Ha1 Ha2] Hrest].
    destruct (collection_step sl ty fld state a Hc Ha1 Ha2) as (s' & -> & Hdef & Harr);
      [right; apply Hinv|].
    simpl. apply IH; auto.
Qed.

(** C5. [SET_LISTS] on the list reducer and [SET_TASKS] on the task
    reducer, for every input state: the collection field of the result
    is the payload itself when the payload is an array, and the empty
    array when it is [null], an object, a string or any other non-array;
    so the field is an array, and it stays one in every state reached
    from the slice default, whatever actions are dispatched. *)
Theorem collection_fields_are_sequences sl ty fld :
  (sl, ty, fld) ∈ collections →
  (∀ state action payload,
     get_prop action "type" = Normal (JStr ty) →
     get_prop action "payload" = Normal payload →
     ∃ s', sl_reducer sl state action = Normal s'
       ∧ (∀ l, payload = JArr l → own_prop s' fld = JArr l)
       ∧ (payload = JNull ∨ (∃ m, payload = JObj m) ∨ (∃ t, payload = JStr t)
          ∨ isArray payload = false → own_prop s' fld = JArr [])
       ∧ isArray (own_prop s' fld) = true)
  ∧ (∀ actions,
       Forall (fun a => a ≠ JUndefined ∧ a ≠ JNull) actions →
       ∃ s, reduce_all (sl_reducer sl) JUndefined actions = Normal s
            ∧ (actions ≠ [] → isArray (own_prop s fld) = true)).
Proof.
  intros Hc. split.
  - intros state action payload Hty Hpl.
    erewrite collection_set by eauto. eexists. split; [reflexivity|].
    unfold own_prop. rewrite own_props_spread_set, lookup_insert_eq. simpl.
    split; [|split].
    + by intros l ->.
    + intros [->|[[m ->]|[[t ->]|Hna]]]; try reflexivity. by rewrite Hna.
    + apply coerced_isArray.
  - intros [|a rest] Hall; [by exists JUndefined|].
    apply Forall_cons in Hall as [[Ha1 Ha2] Hrest]. simpl.
    destruct (collection_step sl ty fld JUndefined a Hc Ha1 Ha2) as (s' & -> & Hdef & Harr);
      [by left|].
    simpl.
    destruct (collection_invariant sl ty fld rest s' Hc Hrest) as (s & -> & _ & Hs); [done|].
    by exists s.
Qed.

Lemma collection_fields_are_sequences_witness :
  ∃ s', listReducer_js.listReducer listReducer_js.initialState
          (obj [("type", JStr "SET_LISTS");
                ("payload", obj [("id", JNum 1); ("name", JStr "List")])])
        = Normal s'
        ∧ own_prop s' "list" = JArr [].
Proof.
  destruct (collection_fields_are_sequences list_slice constants.SET_LISTS "list")
    as [Hset _].
  - apply list_elem_of_here.
  - destruct (Hset listReducer_js.initialState
                (obj [("type", JStr "SET_LISTS");
                      ("payload", obj [("id", JNum 1); ("name", JStr "List")])])
                (obj [("id", JNum 1); ("name", JStr "List")]))
      as (s' & Hs' & _ & Hempty & _).
    + reflexivity.
    + reflexivity.
    + exists s'. split; [exact Hs'|]. apply Hempty. right. left. eexists. reflexivity.
Defined.

(** The claim that a recognized action changes exactly one field fails
    on the spec's own login scenario: [LOGIN_SUCCESS] assigns both
    [accessId] and [username]. *)
Lemma exactly_one_field_differs_fails :
  ¬ (∀ sl state action ty s',
       sl ∈ slices →
       get_prop action "type" = Normal ty →
       recognizes sl ty = true →
       sl_reducer sl state action = Normal s' →
       exactly_one_field_differs state s').
Proof.
  intros H.
  destruct (H login_slice loginReducer_js.initialState
              (loginAction_js.loginSuccess (JStr "alice") (JStr "tok-1"))
              (JStr constants.LOGIN_SUCCESS)
              (obj [("accessId", JStr "tok-1"); ("username", JStr "alice")]))
    as (k & _ & Hothers).
  - apply list_elem_of_here.
  - reflexivity.
  - reflexivity.
  - vm_compute. reflexivity.
  - destruct (decide (k = "accessId")) as [->|Hk].
    + assert (Hd : "username" ≠ "accessId") by discriminate.
      specialize (Hothers "username" Hd). vm_compute in Hothers. discriminate.
    + assert (Hd : "accessId" ≠ k) by congruence.
      specialize (Hothers "accessId" Hd). vm_compute in Hothers. discriminate.
Qed.

(** C2. For every slice reducer, every input state and every recognized
    action ([LOGIN_SUCCESS] with a payload other than [undefined] and
    [null]), the reducer returns a state in which every field that the
    action does not target keeps the value of the input state (of the
    slice default when the input is [undefined]), so that a field which
    differs is a targeted one; the targeted field holds the payload
    (coerced to an array by [SET_LISTS] and [SET_TASKS]), and
    [LOGIN_SUCCESS] targets two fields, [accessId] and [username], which
    hold the payload's properties of those names. *)
Theorem reducers_replace_targeted_fields sl ty flds state action payload :
  sl ∈ slices →
  (ty, flds) ∈ sl_cases sl →
  get_prop action "type" = Normal (JStr ty) →
  get_prop action "payload" = Normal payload →
  (ty = constants.LOGIN_SUCCESS → payload ≠ JUndefined ∧ payload ≠ JNull) →
  ∃ s', sl_reducer sl state action = Normal s'
    ∧ (∀ k, k ∉ flds →
         own_props s' !! k = own_props (default_param state (sl_initial sl)) !! k)
    ∧ (∀ k, own_prop s' k ≠ own_prop (default_param state (sl_initial sl)) k → k ∈ flds)
    ∧ (ty ≠ constants.LOGIN_SUCCESS →
         ∃ f, flds = [f] ∧ own_props s' !! f = Some (stored ty payload))
    ∧ (ty = constants.LOGIN_SUCCESS →
         flds = ["accessId"; "username"]
         ∧ Normal <$> own_props s' !! "accessId" = Some (get_prop payload "accessId")
         ∧ Normal <$> own_props s' !! "username" = Some (get_prop payload "username")).
Proof.
  intros Hsl Hcase Hty Hpl Hlogin.
  assert (Hdiff : ∀ s' : JsVal,
            (∀ k, k ∉ flds →
               own_props s' !! k = own_props (default_param state (sl_initial sl)) !! k) →
            ∀ k, own_prop s' k ≠ own_prop (default_param state (sl_initial sl)) k → k ∈ flds).
  { intros s' Hframe k Hk. destruct (decide (k ∈ flds)) as [|Hout]; [done|].
    exfalso. apply Hk. unfold own_prop. by rewrite Hframe. }
  destruct (decide (ty = constants.LOGIN_SUCCESS)) as [->|Hne].
  - destruct (Hlogin eq_refl) as [Hp1 Hp2].
    destruct (get_prop_defined payload "accessId" Hp1 Hp2) as [a Ha].
    destruct (get_prop_defined payload "username" Hp1 Hp2) as [u Hu].
    assert (sl = login_slice ∧ flds = ["accessId"; "username"]) as [-> ->].
    { revert Hsl Hcase. unfold slices. rewrite !elem_of_cons, elem_of_nil.
      intros [->|[->|[->|[]]]]; simpl; rewrite !elem_of_cons, elem_of_nil;
        intros Hc; repeat (destruct Hc as [[= <-]|Hc]); done. }
    simpl sl_reducer. erewrite loginReducer_login_success by eauto.
    eexists. split; [reflexivity|].
    assert (Hframe : ∀ k, k ∉ ["accessId"; "username"] →
              own_props (JObj (<["username" := u]> (<["accessId" := a]>
                (own_props (default_param state (sl_initial login_slice)))))) !! k
              = own_props (default_param state (sl_initial login_slice)) !! k).
    { intros k Hk. apply not_elem_of_cons in Hk as [Hk1 Hk].
      apply not_elem_of_cons in Hk as [Hk2 _].
      simpl own_props at 1. by rewrite !lookup_insert_ne. }
    split; [exact Hframe|]. split; [by apply Hdiff|]. split; [done|].
    intros _. rewrite Ha, Hu. split; [done|]. simpl own_props.
    rewrite lookup_insert_eq, lookup_insert_ne by done. by rewrite lookup_insert_eq.
  - assert (∃ f, flds = [f]) as [f ->].
    { revert Hsl Hcase. unfold slices. rewrite !elem_of_cons, elem_of_nil.
      intros [->|[->|[->|[]]]]; simpl; rewrite !elem_of_cons, elem_of_nil;
        intros Hc; repeat (destruct Hc as [[= -> ->]|Hc]); try done; by eexists. }
    erewrite slice_single_case by eauto.
    eexists. split; [reflexivity|].
    assert (Hframe : ∀ k, k ∉ [f] →
              own_props (spread_set (default_param state (sl_initial sl)) f (stored ty payload))
                !! k
              = own_props (default_param state (sl_initial sl)) !! k).
    { intros k Hk. apply not_elem_of_cons in Hk as [Hk _].
      rewrite own_props_spread_set. by rewrite lookup_insert_ne. }
    split; [exact Hframe|]. split; [by apply Hdiff|]. split; [|done].
    intros _. exists f. rewrite own_props_spread_set. by rewrite lookup_insert_eq.
Qed.

Lemma reducers_replace_targeted_fields_witness :
  ∃ s', taskReducer_js.taskReducer taskReducer_js.initialState
          (obj [("type", JStr "SWITCH_SET_TASK_IS_DONE"); ("payload", JBool true)])
        = Normal s'
        ∧ own_props s' !! "isDone" = Some (JBool true)
        ∧ own_props s' !! "name" = Some (JStr "").
Proof.
  destruct (reducers_replace_targeted_fields task_slice
              constants.SWITCH_SET_TASK_IS_DONE ["isDone"]
              taskReducer_js.initialState
              (obj [("type", JStr "SWITCH_SET_TASK_IS_DONE"); ("payload", JBool true)])
              (JBool true))
    as (s' & Hs' & Hframe & _ & Hone & _).
  - unfold slices. apply list_elem_of_further, list_elem_of_further, list_elem_of_here.
  - simpl. do 4 apply list_elem_of_further. apply list_elem_of_here.
  - reflexivity.
  - reflexivity.
  - discriminate.
  - exists s'. split; [exact Hs'|]. split.
    + destruct Hone as (f & [= <-] & Hf); [discriminate|]. exact Hf.
    + rewrite (Hframe "name"); [reflexivity|].
      intros Hin. apply list_elem_of_singleton in Hin. discriminate.
Defined.

(** ** Action constructors *)

Lemma dom_obj l : dom (own_props (obj l)) = (list_to_set l.*1 : gset string).
Proof. unfold obj. simpl own_props. apply dom_list_to_map_L. Qed.

(** [loginFailed] has an empty body: it returns [undefined], which has
    neither a [type] nor a [payload]. *)
Lemma loginFailed_returns_no_record :
  ¬ is_action_record (loginAction_js.loginFailed tt).
Proof. intros (m & Hm & _). discriminate Hm. Qed.

(** C4. The constructors [setAccessId], [setUsername], [setPassword] and
    [loginSuccess] are total functions of their arguments: each returns
    a record with exactly the two properties [type] and [payload], the
    type being the constructor's identifier and the payload its argument
    (for [loginSuccess] the record of [username] and [accessId]). *)
Theorem login_action_constructors_total (x username accessId : JsVal) :
  builds (loginAction_js.setAccessId x) "SET_ACCESS_ID" x
  ∧ builds (loginAction_js.setUsername x) "SET_USERNAME" x
  ∧ builds (loginAction_js.setPassword x) "SET_PASSWORD" x
  ∧ builds (loginAction_js.loginSuccess username accessId) "LOGIN"
      (obj [("username", username); ("accessId", accessId)]).
Proof.
  repeat split; try (eexists; reflexivity);
    try (eexists; split; [reflexivity|]; split; eexists; reflexivity);
    (etrans; [apply dom_obj|]); simpl; set_solver.
Qed.

(** ** The routing gate *)

(** C10. The application is past the login view exactly when
    [login.accessId] is not [undefined]: any other value, [null] and the
    empty string included, renders the routed views. *)
Theorem authenticated_iff_accessId_defined state (login : gmap string JsVal) :
  own_props state !! "login" = Some (JObj login) →
  App_js.render (App_js.mapStateToProps state)
  = Normal (if is_undefined (default JUndefined (login !! "accessId"))
            then App_js.Login else App_js.Wrapper)
  ∧ (∀ accessId, login !! "accessId" = Some accessId → accessId ≠ JUndefined →
       App_js.render (App_js.mapStateToProps state) = Normal App_js.Wrapper)
  ∧ (login !! "accessId" = None ∨ login !! "accessId" = Some JUndefined ↔
       App_js.render (App_js.mapStateToProps state) = Normal App_js.Login).
Proof.
  intros Hlogin.
  assert (Hrender : App_js.render (App_js.mapStateToProps state)
            = Normal (if is_undefined (default JUndefined (login !! "accessId"))
                      then App_js.Login else App_js.Wrapper)).
  { unfold App_js.render, App_js.mapStateToProps. simpl. rewrite Hlogin. simpl.
    by destruct (is_undefined _). }
  split; [done|]. rewrite Hrender. split.
  - intros accessId -> Hne. simpl. by destruct accessId.
  - split.
    + by intros [->| ->].
    + destruct (login !! "accessId") as [[]|]; simpl; intros [=]; auto.
Qed.

Lemma authenticated_iff_accessId_defined_witness :
  App_js.render (App_js.mapStateToProps (obj [("login", obj [("accessId", JNull)])]))
  = Normal App_js.Wrapper
  ∧ App_js.render (App_js.mapStateToProps (obj [("login", obj [("accessId", JStr "")])]))
    = Normal App_js.Wrapper.
Proof.
  split.
  - destruct (authenticated_iff_accessId_defined
                (obj [("login", obj [("accessId", JNull)])])
                (list_to_map [("accessId", JNull)])) as (_ & Hdef & _).
    + reflexivity.
    + apply (Hdef JNull); [reflexivity | discriminate].
  - destruct (authenticated_iff_accessId_defined
                (obj [("login", obj [("accessId", JStr "")])])
                (list_to_map [("accessId", JStr "")])) as (_ & Hdef & _).
    + reflexivity.
    + apply (Hdef (JStr "")); [reflexivity | discriminate].
Defined.

(** ** The store *)

(** C1. The store built by [configureStore] mounts the login reducer
    alone: its initial state is [{ login: { accessId: undefined } }] and
    has no list or task slice under any of the names the tests and the
    components read; an action of unrecognized type leaves it as it is. *)
Theorem configureStore_mounts_login_only suffix :
  ∃ store, configureStore_js.configureStore suffix = Normal store
    ∧ redux.getState store = obj [("login", obj [("accessId", JUndefined)])]
    ∧ own_props (redux.getState store) !! "lists" = None
    ∧ own_props (redux.getState store) !! "tasks" = None
    ∧ own_props (redux.getState store) !! "list" = None
    ∧ own_props (redux.getState store) !! "task" = None
    ∧ redux.getState <$> redux.dispatch store (obj [("type", JStr "TEST_ACTION")])
      = Normal (redux.getState store).
Proof. eexists. split; [reflexivity|]. repeat split. Qed.

(** ** The component operations *)

Lemma guarded_read_run a b w : guarded_read a b w = (Normal (prop_path w a b), w).
Proof.
  unfold guarded_read, prop_path, read_path, props_of. simpl.
  destruct (default JUndefined (own_props (redux.getState (w_store w)) !! a));
    simpl; try done; by case_match.
Qed.

Lemma reducer_defined sl state action ty payload :
  sl ∈ slices →
  get_prop action "type" = Normal (JStr ty) →
  get_prop action "payload" = Normal payload →
  ty ≠ constants.LOGIN_SUCCESS →
  ∃ s', sl_reducer sl state action = Normal s' ∧ s' ≠ JUndefined.
Proof.
  intros Hsl Hty Hpl Hne.
  assert (Hinit : sl_initial sl ≠ JUndefined).
  { revert Hsl. unfold slices. rewrite !elem_of_cons, elem_of_nil.
    by intros [->|[->|[->|[]]]]. }
  destruct (recognizes sl (JStr ty)) eqn:Hrec.
  - apply recognizes_label in Hrec as (label & flds & [= <-] & Hin).
    assert (∃ f, flds = [f]) as [f ->].
    { revert Hsl Hin. unfold slices. rewrite !elem_of_cons, elem_of_nil.
      intros [->|[->|[->|[]]]]; simpl; rewrite !elem_of_cons, elem_of_nil;
        intros Hc; repeat (destruct Hc as [[= -> ->]|Hc]); try done; by eexists. }
    erewrite slice_single_case by eauto. by eexists.
  - erewrite slice_default by eauto. eexists. split; [done|].
    by apply default_param_defined.
Qed.

(** One dispatch on a store over the three slices: every slice reducer
    sees the action, and the next state collects their results. *)
Lemma dispatch_three_slices st m (ma : gmap string JsVal) ty :
  redux.currentReducer st = App_test_js.rootReducer →
  redux.currentState st = JObj m →
  ma !! "type" = Some (JStr ty) →
  ty ≠ constants.LOGIN_SUCCESS →
  ∃ l li t,
    loginReducer_js.loginReducer (default JUndefined (m !! "login")) (JObj ma) = Normal l
    ∧ listReducer_js.listReducer (default JUndefined (m !! "lists")) (JObj ma) = Normal li
    ∧ taskReducer_js.taskReducer (default JUndefined (m !! "tasks")) (JObj ma) = Normal t
    ∧ redux.dispatch st (JObj ma)
      = Normal (redux.mkStore App_test_js.rootReducer
                  (JObj (<["tasks" := t]> (<["lists" := li]> (<["login" := l]> ∅))))).
Proof.
  intros Hred Hst Hma Hne.
  assert (Hty : get_prop (JObj ma) "type" = Normal (JStr ty)) by (simpl; by rewrite Hma).
  assert (Hpl : get_prop (JObj ma) "payload" = Normal (default JUndefined (ma !! "payload")))
    by reflexivity.
  destruct (reducer_defined login_slice (default JUndefined (m !! "login")) _ _ _
              ltac:(unfold slices; set_solver) Hty Hpl Hne) as (l & Hl & Hl').
  destruct (reducer_defined list_slice (default JUndefined (m !! "lists")) _ _ _
              ltac:(unfold slices; set_solver) Hty Hpl Hne) as (li & Hli & Hli').
  destruct (reducer_defined task_slice (default JUndefined (m !! "tasks")) _ _ _
              ltac:(unfold slices; set_solver) Hty Hpl Hne) as (t & Ht & Ht').
  simpl in Hl, Hli, Ht. exists l, li, t. repeat (split; [done|]).
  unfold redux.dispatch. rewrite Hma. cbn [default from_option id is_undefined].
  rewrite Hred, Hst.
  unfold App_test_js.rootReducer, redux.combineReducers.
  cbn [redux.combination get_prop default_param is_undefined mbind Completion_bind].
  rewrite Hl. cbn [mbind Completion_bind].
  destruct l; try done; rewrite Hli; cbn [mbind Completion_bind is_undefined];
    destruct li; try done; rewrite Ht; cbn [mbind Completion_bind is_undefined];
    destruct t; done.
Qed.

Lemma slice_keeps_object sl (p : gmap string JsVal) action ty :
  sl ∈ slices →
  get_prop action "type" = Normal ty →
  recognizes sl ty = false →
  sl_reducer sl (JObj p) action = Normal (JObj p).
Proof. intros. by erewrite slice_default. Qed.

Lemma slice_sets_field sl ty f (p : gmap string JsVal) action payload :
  sl ∈ slices →
  (ty, [f]) ∈ sl_cases sl →
  get_prop action "type" = Normal (JStr ty) →
  get_prop action "payload" = Normal payload →
  sl_reducer sl (JObj p) action = Normal (JObj (<[f := stored ty payload]> p)).
Proof. intros. by erewrite slice_single_case. Qed.

Lemma loginReducer_keeps (p : gmap string JsVal) action ty :
  get_prop action "type" = Normal ty → recognizes login_slice ty = false →
  loginReducer_js.loginReducer (JObj p) action = Normal (JObj p).
Proof. apply (slice_keeps_object login_slice). apply list_elem_of_here. Qed.

Lemma listReducer_keeps (p : gmap string JsVal) action ty :
  get_prop action "type" = Normal ty → recognizes list_slice ty = false →
  listReducer_js.listReducer (JObj p) action = Normal (JObj p).
Proof.
  apply (slice_keeps_object list_slice). apply list_elem_of_further, list_elem_of_here.
Qed.

Lemma taskReducer_keeps (p : gmap string JsVal) action ty :
  get_prop action "type" = Normal ty → recognizes task_slice ty = false →
  taskReducer_js.taskReducer (JObj p) action = Normal (JObj p).
Proof.
  apply (slice_keeps_object task_slice).
  apply list_elem_of_further, list_elem_of_further, list_elem_of_here.
Qed.

Lemma listReducer_sets ty f (p : gmap string JsVal) action payload :
  (ty, [f]) ∈ sl_cases list_slice →
  get_prop action "type" = Normal (JStr ty) →
  get_prop action "payload" = Normal payload →
  listReducer_js.listReducer (JObj p) action = Normal (JObj (<[f := stored ty payload]> p)).
Proof.
  apply (slice_sets_field list_slice). apply list_elem_of_further, list_elem_of_here.
Qed.

Lemma taskReducer_sets ty f (p : gmap string JsVal) action payload :
  (ty, [f]) ∈ sl_cases task_slice →
  get_prop action "type" = Normal (JStr ty) →
  get_prop action "payload" = Normal payload →
  taskReducer_js.taskReducer (JObj p) action = Normal (JObj (<[f := stored ty payload]> p)).
Proof.
  apply (slice_sets_field task_slice).
  apply list_elem_of_further, list_elem_of_further, list_elem_of_here.
Qed.

(** A dispatch of a list or task action to a store over the three
    slices: the field of the case holds the stored payload and every
    other field of every slice is as before. *)
Lemma dispatch_slice_field st sname sl ty f payload :
  three_slices st →
  (sname, sl) ∈ mounted →
  (ty, [f]) ∈ sl_cases sl →
  ∃ st', redux.dispatch st (obj [("type", JStr ty); ("payload", payload)]) = Normal st'
    ∧ three_slices st'
    ∧ field (redux.getState st') sname f = stored ty payload
    ∧ ∀ s' f', (s', f') ≠ (sname, f) →
        field (redux.getState st') s' f' = field (redux.getState st) s' f'.
Proof.
  intros (Hred & l & li & t & Hst) Hm Hcase.
  set (m := <["tasks" := JObj t]> (<["lists" := JObj li]> (<["login" := JObj l]> ∅)))
    in Hst.
  set (action := obj [("type", JStr ty); ("payload", payload)]).
  assert (Hty : get_prop action "type" = Normal (JStr ty)) by reflexivity.
  assert (Hpl : get_prop action "payload" = Normal payload) by reflexivity.
  assert (Hy : (list_to_map [("type", JStr ty); ("payload", payload)] : gmap string JsVal)
                 !! "type" = Some (JStr ty)) by reflexivity.
  assert (Hne : ty ≠ constants.LOGIN_SUCCESS ∧ recognizes login_slice (JStr ty) = false
                ∧ (sname = "lists" → recognizes task_slice (JStr ty) = false)
                ∧ (sname = "tasks" → recognizes list_slice (JStr ty) = false)
                ∧ (sname = "lists" ∧ sl = list_slice ∨ sname = "tasks" ∧ sl = task_slice)).
  { revert Hm Hcase. unfold mounted. rewrite !elem_of_cons, elem_of_nil.
    intros [[= -> ->]|[[= -> ->]|[]]]; simpl; rewrite !elem_of_cons, elem_of_nil;
      intros Hc; repeat (destruct Hc as [[= -> ->]|Hc]); try done;
      repeat split; try done; auto. }
  destruct Hne as (Hne & Hlogin & Htask & Hlist & Hwhich).
  destruct (dispatch_three_slices st m _ ty Hred Hst Hy Hne)
    as (l' & li' & t' & Hl & Hli & Ht & Hd).
  fold (obj [("type", JStr ty); ("payload", payload)]) in *. fold action in Hl, Hli, Ht, Hd.
  change (m !! "login") with (Some (JObj l)) in Hl.
  change (m !! "lists") with (Some (JObj li)) in Hli.
  change (m !! "tasks") with (Some (JObj t)) in Ht.
  cbn [default from_option id] in Hl, Hli, Ht.
  rewrite (loginReducer_keeps l action (JStr ty) Hty Hlogin) in Hl.
  injection Hl as <-.
  eexists. split; [exact Hd|].
  destruct Hwhich as [[-> ->]|[-> ->]].
  - rewrite (listReducer_sets ty f li action payload Hcase Hty Hpl) in Hli.
    rewrite (taskReducer_keeps t action (JStr ty) Hty (Htask eq_refl)) in Ht.
    injection Hli as <-. injection Ht as <-.
    split; [split; [done|by eexists _, _, _]|].
    unfold field, redux.getState. cbn [redux.currentState]. rewrite Hst. split.
    + subst m. by simplify_map_eq.
    + intros s' f' Hsf. subst m.
      destruct (decide (s' = "lists")) as [->|?].
      * assert (f ≠ f') by congruence. by simplify_map_eq.
      * destruct (decide (s' = "tasks")) as [->|?]; [by rewrite !lookup_insert_eq|].
        rewrite !(lookup_insert_ne _ "tasks") by done.
        by rewrite !(lookup_insert_ne _ "lists") by done.
  - rewrite (taskReducer_sets ty f t action payload Hcase Hty Hpl) in Ht.
    rewrite (listReducer_keeps li action (JStr ty) Hty (Hlist eq_refl)) in Hli.
    injection Hli as <-. injection Ht as <-.
    split; [split; [done|by eexists _, _, _]|].
    unfold field, redux.getState. cbn [redux.currentState]. rewrite Hst. split.
    + subst m. by simplify_map_eq.
    + intros s' f' Hsf. subst m.
      destruct (decide (s' = "tasks")) as [->|?].
      * assert (f ≠ f') by congruence. by simplify_map_eq.
      * by rewrite !(lookup_insert_ne _ "tasks") by done.
Qed.

Lemma bind_run {A B} (m : M A) (k : A → M B) w :
  (m ≫= k) w = match m w with
               | (Normal a, w') => k a w'
               | (Throw e, w') => (Throw e, w')
               end.
Proof. reflexivity. Qed.

Lemma prop_path_store w w' a b :
  w_store w = w_store w' → prop_path w a b = prop_path w' a b.
Proof. unfold prop_path, props_of. by intros ->. Qed.

Lemma toasted_frame message type duration w :
  w_store (toasted message type duration w) = w_store w
  ∧ w_trace (toasted message type duration w) = w_trace w
  ∧ w_issued (toasted message type duration w) = w_issued w
  ∧ w_lastError (toasted message type duration w) = w_lastError w
  ∧ w_toast (toasted message type duration w) = Some (mkToast message type).
Proof. unfold toasted. by destruct (w_toastTimer w). Qed.

Lemma list_request_store baseUrl w w' :
  w_store w = w_store w' → list_request baseUrl w = list_request baseUrl w'.
Proof. intros H. unfold list_request. by rewrite (prop_path_store w w'). Qed.

Lemma task_list_request_store baseUrl w w' id :
  w_store w = w_store w' → task_list_request baseUrl w id = task_list_request baseUrl w' id.
Proof. intros H. unfold task_list_request. by rewrite (prop_path_store w w'). Qed.

Lemma loaded_sequence_isArray o : isArray (loaded_sequence o) = true.
Proof.
  destruct o as [r|e]; simpl; [|done].
  destruct (resp_ok r); [|done]. destruct (resp_json r) as [body|]; [|done].
  apply coerced_isArray.
Qed.

Lemma stored_collection ty o :
  ty = constants.SET_LISTS ∨ ty = constants.SET_TASKS →
  stored ty (loaded_sequence o) = loaded_sequence o.
Proof. intros H. rewrite stored_isArray by done. by rewrite loaded_sequence_isArray. Qed.

(** A dispatch of a list or task action by a component. *)
Lemma dispatch_run w sname sl ty f payload :
  three_slices (w_store w) →
  (sname, sl) ∈ mounted →
  (ty, [f]) ∈ sl_cases sl →
  ∃ st', dispatch (obj [("type", JStr ty); ("payload", payload)]) w
         = (Normal tt,
            set_store st'
              (log_events [EvDispatch (obj [("type", JStr ty); ("payload", payload)])]
                 (w_issued w) w))
    ∧ three_slices st'
    ∧ field (redux.getState st') sname f = stored ty payload
    ∧ ∀ s' f', (s', f') ≠ (sname, f) →
        field (redux.getState st') s' f' = field (redux.getState (w_store w)) s' f'.
Proof.
  intros H3 Hm Hcase.
  destruct (dispatch_slice_field (w_store w) sname sl ty f payload H3 Hm Hcase)
    as (st' & Hd & H3' & Hf & Hframe).
  exists st'. split; [|done]. unfold dispatch. by rewrite Hd.
Qed.

Lemma loadLists_run baseUrl network w :
  three_slices (w_store w) →
  ∃ st',
    Lists_js.loadLists baseUrl network w
    = (Normal tt,
       set_store st'
         (set_lastError
            (load_error "Load lists" (network (w_issued w) (list_request baseUrl w))
               (w_lastError w))
            (log_events
               [EvRequest (list_request baseUrl w);
                EvResponse (network (w_issued w) (list_request baseUrl w));
                EvDispatch (listAction_js.setLists
                              (loaded_sequence
                                 (network (w_issued w) (list_request baseUrl w))))]
               (S (w_issued w)) w)))
    ∧ three_slices st'
    ∧ field (redux.getState st') "lists" "list"
      = loaded_sequence (network (w_issued w) (list_request baseUrl w))
    ∧ ∀ s' f', (s', f') ≠ ("lists", "list") →
        field (redux.getState st') s' f' = field (redux.getState (w_store w)) s' f'.
Proof.
  intros H3.
  set (o := network (w_issued w) (list_request baseUrl w)).
  assert (Hdisp : ∀ w1, w_store w1 = w_store w →
            ∃ st', Lists_js.setLists (loaded_sequence o) w1
                   = (Normal tt,
                      set_store st'
                        (log_events [EvDispatch (listAction_js.setLists (loaded_sequence o))]
                           (w_issued w1) w1))
              ∧ three_slices st'
              ∧ field (redux.getState st') "lists" "list" = loaded_sequence o
              ∧ ∀ s' f', (s', f') ≠ ("lists", "list") →
                  field (redux.getState st') s' f' = field (redux.getState (w_store w)) s' f').
  { intros w1 Hw1.
    destruct (dispatch_run w1 "lists" list_slice constants.SET_LISTS "list" (loaded_sequence o))
      as (st' & Hrun & H3' & Hf & Hframe).
    - by rewrite Hw1.
    - apply list_elem_of_here.
    - apply list_elem_of_here.
    - exists st'. split; [exact Hrun|]. split; [done|].
      rewrite Hf, stored_collection by (by left). split; [done|].
      intros s' f' Hsf. rewrite Hframe by done. by rewrite Hw1. }
  unfold Lists_js.loadLists, try_catch.
  rewrite bind_run, guarded_read_run, bind_run. unfold fetch.
  fold (list_request baseUrl w). fold o. clearbody o.
  destruct o as [r|e]; cbn [loaded_sequence load_error] in *;
    [destruct (resp_ok r) eqn:Hok; cbn [negb];
       [rewrite bind_run; unfold eval; destruct (resp_json r) as [body|e] eqn:Hjson|]|];
    rewrite ?bind_run; unfold setState_lastError;
    match goal with |- context [Lists_js.setLists _ ?w1] =>
      destruct (Hdisp w1 eq_refl) as (st' & Hrun & Hrest) end;
    (exists st'; split; [|done]; rewrite Hrun; f_equal;
     unfold set_store, set_lastError, log_events; cbn; by rewrite <- app_assoc).
Qed.

Lemma Tasks_loadTasks_run baseUrl network id w :
  three_slices (w_store w) →
  ∃ st',
    Tasks_js.loadTasks baseUrl network id w
    = (Normal tt,
       set_store st'
         (set_lastError
            (load_error "Load tasks" (network (w_issued w) (task_list_request baseUrl w id))
               (w_lastError w))
            (log_events
               [EvRequest (task_list_request baseUrl w id);
                EvResponse (network (w_issued w) (task_list_request baseUrl w id));
                EvDispatch (taskAction_js.setTasks
                              (loaded_sequence
                                 (network (w_issued w) (task_list_request baseUrl w id))))]
               (S (w_issued w)) w)))
    ∧ three_slices st'
    ∧ field (redux.getState st') "tasks" "tasks"
      = loaded_sequence (network (w_issued w) (task_list_request baseUrl w id))
    ∧ ∀ s' f', (s', f') ≠ ("tasks", "tasks") →
        field (redux.getState st') s' f' = field (redux.getState (w_store w)) s' f'.
Proof.
  intros H3.
  set (o := network (w_issued w) (task_list_request baseUrl w id)).
  assert (Hdisp : ∀ w1, w_store w1 = w_store w →
            ∃ st', Tasks_js.setTasks (loaded_sequence o) w1
                   = (Normal tt,
                      set_store st'
                        (log_events [EvDispatch (taskAction_js.setTasks (loaded_sequence o))]
                           (w_issued w1) w1))
              ∧ three_slices st'
              ∧ field (redux.getState st') "tasks" "tasks" = loaded_sequence o
              ∧ ∀ s' f', (s', f') ≠ ("tasks", "tasks") →
                  field (redux.getState st') s' f' = field (redux.getState (w_store w)) s' f').
  { intros w1 Hw1.
    destruct (dispatch_run w1 "tasks" task_slice constants.SET_TASKS "tasks" (loaded_sequence o))
      as (st' & Hrun & H3' & Hf & Hframe).
    - by rewrite Hw1.
    - apply list_elem_of_further, list_elem_of_here.
    - apply list_elem_of_here.
    - exists st'. split; [exact Hrun|]. split; [done|].
      rewrite Hf, stored_collection by (by right). split; [done|].
      intros s' f' Hsf. rewrite Hframe by done. by rewrite Hw1. }
  unfold Tasks_js.loadTasks, try_catch.
  rewrite bind_run, guarded_read_run, bind_run. unfold fetch.
  fold (task_list_request baseUrl w id). fold o. clearbody o.
  destruct o as [r|e]; cbn [loaded_sequence load_error] in *;
    [destruct (resp_ok r) eqn:Hok; cbn [negb];
       [rewrite bind_run; unfold eval; destruct (resp_json r) as [body|e] eqn:Hjson|]|];
    rewrite ?bind_run; unfold setState_lastError;
    match goal with |- context [Tasks_js.setTasks _ ?w1] =>
      destruct (Hdisp w1 eq_refl) as (st' & Hrun & Hrest) end;
    (exists st'; split; [|done]; rewrite Hrun; f_equal;
     unfold set_store, set_lastError, log_events; cbn; by rewrite <- app_assoc).
Qed.

(** The same, for a load that runs later in an operation started in
    world [w0]: the store is still that of [w0], and [n] requests have
    been issued. *)
Lemma loadLists_later baseUrl network w w0 n :
  three_slices (w_store w0) →
  w_store w = w_store w0 →
  w_issued w = n →
  ∃ st',
    Lists_js.loadLists baseUrl network w
    = (Normal tt,
       set_store st'
         (set_lastError
            (load_error "Load lists" (network n (list_request baseUrl w0)) (w_lastError w))
            (log_events
               [EvRequest (list_request baseUrl w0);
                EvResponse (network n (list_request baseUrl w0));
                EvDispatch (listAction_js.setLists
                              (loaded_sequence (network n (list_request baseUrl w0))))]
               (S n) w)))
    ∧ three_slices st'
    ∧ field (redux.getState st') "lists" "list"
      = loaded_sequence (network n (list_request baseUrl w0))
    ∧ ∀ s' f', (s', f') ≠ ("lists", "list") →
        field (redux.getState st') s' f' = field (redux.getState (w_store w0)) s' f'.
Proof.
  intros H3 Hs <-. rewrite <- Hs in H3.
  destruct (loadLists_run baseUrl network w H3) as (st' & Hrun & H3' & Hf & Hframe).
  rewrite (list_request_store baseUrl w w0 Hs) in Hrun, Hf.
  exists st'. rewrite <- Hs. split; [done|split; [done|split; done]].
Qed.

Lemma Tasks_loadTasks_later baseUrl network id w w0 n :
  three_slices (w_store w0) →
  w_store w = w_store w0 →
  w_issued w = n →
  ∃ st',
    Tasks_js.loadTasks baseUrl network id w
    = (Normal tt,
       set_store st'
         (set_lastError
            (load_error "Load tasks" (network n (task_list_request baseUrl w0 id))
               (w_lastError w))
            (log_events
               [EvRequest (task_list_request baseUrl w0 id);
                EvResponse (network n (task_list_request baseUrl w0 id));
                EvDispatch (taskAction_js.setTasks
                              (loaded_sequence (network n (task_list_request baseUrl w0 id))))]
               (S n) w)))
    ∧ three_slices st'
    ∧ field (redux.getState st') "tasks" "tasks"
      = loaded_sequence (network n (task_list_request baseUrl w0 id))
    ∧ ∀ s' f', (s', f') ≠ ("tasks", "tasks") →
        field (redux.getState st') s' f' = field (redux.getState (w_store w0)) s' f'.
Proof.
  intros H3 Hs <-. rewrite <- Hs in H3.
  destruct (Tasks_loadTasks_run baseUrl network id w H3) as (st' & Hrun & H3' & Hf & Hframe).
  rewrite (task_list_request_store baseUrl w w0 id Hs) in Hrun, Hf.
  exists st'. rewrite <- Hs. split; [done|split; [done|split; done]].
Qed.

(** ** Local validation of the create operations *)

(** C7. When the session token is missing or empty (falsy), creating a
    list issues no request and dispatches nothing: it only shows "You
    must be logged in to create a list.".  A blank name (missing, empty
    or white space only) is rejected the same way by both create
    operations: "List name is required." once the token is there, and
    for tasks one of the three validation messages, "Task name is
    required." once the token and the list id are there. *)
Theorem create_validation_is_local baseUrl network w :
  (truthy (prop_path w "login" "accessId") = false →
     Lists_js.createList baseUrl network w
     = (Normal tt, set_lastError (Some "You must be logged in to create a list.") w))
  ∧ (truthy (prop_path w "login" "accessId") = true →
     is_blank (prop_path w "lists" "name") = Normal true →
     Lists_js.createList baseUrl network w
     = (Normal tt, set_lastError (Some "List name is required.") w))
  ∧ (is_blank (prop_path w "tasks" "name") = Normal true →
     ∃ msg,
       Tasks_js.createTask baseUrl network w = (Normal tt, set_lastError (Some msg) w)
       ∧ msg ∈ ["You must be logged in to create a task.";
                "Please select a list before adding a task.";
                "Task name is required."]
       ∧ (truthy (prop_path w "login" "accessId") = true →
          truthy (prop_path w "tasks" "taskListId") = true →
          msg = "Task name is required."))
  ∧ ∀ e, w_trace (set_lastError e w) = w_trace w
         ∧ w_issued (set_lastError e w) = w_issued w
         ∧ w_store (set_lastError e w) = w_store w.
Proof.
  split; [|split; [|split]].
  - intros Hfalsy. unfold Lists_js.createList, try_catch.
    rewrite bind_run. unfold setState_lastError at 1.
    rewrite bind_run, guarded_read_run, bind_run, guarded_read_run.
    rewrite (prop_path_store _ w) by done. by rewrite Hfalsy.
  - intros Htoken Hblank. unfold Lists_js.createList, try_catch.
    rewrite bind_run. unfold setState_lastError at 1.
    rewrite bind_run, guarded_read_run, bind_run, guarded_read_run.
    rewrite !(prop_path_store (set_lastError None w) w) by done.
    rewrite Htoken. cbn [negb]. rewrite bind_run. unfold eval. by rewrite Hblank.
  - intros Hblank. unfold Tasks_js.createTask, try_catch.
    rewrite bind_run. unfold setState_lastError at 1.
    rewrite bind_run, guarded_read_run, bind_run, guarded_read_run,
      bind_run, guarded_read_run.
    rewrite !(prop_path_store (set_lastError None w) w) by done.
    destruct (truthy (prop_path w "login" "accessId")); cbn [negb].
    + destruct (truthy (prop_path w "tasks" "taskListId")); cbn [negb].
      * rewrite bind_run. unfold eval. rewrite Hblank.
        eexists. split; [reflexivity|]. split; [set_solver|done].
      * eexists. split; [reflexivity|]. split; [set_solver|done].
    + eexists. split; [reflexivity|]. split; [set_solver|done].
  - done.
Qed.

(** ** Loading *)

(** A load answered with status 200 and a body that is not JSON, hence
    no sequence: the collection becomes the empty sequence, and the
    failure of [resp.json()] is reported in the banner by the exception
    handler.  It is so for the list load and for the task load. *)
Lemma unparsable_load_is_reported :
  w_lastError (session (JStr "tok-1") (JStr "") (JStr "")) = None
  ∧ (∃ r, garbled_backend 0%nat
            (list_request "http://localhost:8081/api"
               (session (JStr "tok-1") (JStr "") (JStr "")))
          = Resolved r
          ∧ resp_ok r = true
          ∧ ∀ body, resp_json r ≠ Normal body)
  ∧ field (redux.getState
             (w_store (Lists_js.loadLists "http://localhost:8081/api" garbled_backend
                         (session (JStr "tok-1") (JStr "") (JStr ""))).2))
      "lists" "list"
    = JArr []
  ∧ w_lastError (Lists_js.loadLists "http://localhost:8081/api" garbled_backend
                   (session (JStr "tok-1") (JStr "") (JStr ""))).2
    = Some "Load lists exception: Unexpected token < in JSON at position 0"
  ∧ field (redux.getState
             (w_store (Tasks_js.loadTasks "http://localhost:8081/api" garbled_backend
                         (JStr "1") (session (JStr "tok-1") (JStr "") (JStr ""))).2))
      "tasks" "tasks"
    = JArr []
  ∧ w_lastError (Tasks_js.loadTasks "http://localhost:8081/api" garbled_backend
                   (JStr "1") (session (JStr "tok-1") (JStr "") (JStr ""))).2
    = Some "Load tasks exception: Unexpected token < in JSON at position 0".
Proof.
  split; [reflexivity|]. split.
  { eexists. split; [reflexivity|]. split; [reflexivity|]. intros body. discriminate. }
  vm_compute. repeat split.
Qed.

(** C9. A load whose response has a successful status and a body that
    parses as JSON to a value that is not a sequence sets the collection
    to the empty sequence and reports nothing: the error banner and the
    toast are as before.  This holds for the list load and for both task
    loads. *)
Theorem malformed_load_is_silent baseUrl network w r body :
  three_slices (w_store w) →
  resp_ok r = true →
  resp_json r = Normal body →
  isArray body = false →
  (network (w_issued w) (list_request baseUrl w) = Resolved r →
     ∃ w', Lists_js.loadLists baseUrl network w = (Normal tt, w')
       ∧ field (redux.getState (w_store w')) "lists" "list" = JArr []
       ∧ w_lastError w' = w_lastError w ∧ w_toast w' = w_toast w)
  ∧ (∀ id, network (w_issued w) (task_list_request baseUrl w id) = Resolved r →
       ∃ w', Tasks_js.loadTasks baseUrl network id w = (Normal tt, w')
         ∧ field (redux.getState (w_store w')) "tasks" "tasks" = JArr []
         ∧ w_lastError w' = w_lastError w ∧ w_toast w' = w_toast w)
  ∧ (∀ listName id, network (w_issued w) (task_list_request baseUrl w id) = Resolved r →
       ∃ w', Lists_js.loadTasks baseUrl network listName id w = (Normal tt, w')
         ∧ field (redux.getState (w_store w')) "tasks" "tasks" = JArr []
         ∧ w_lastError w' = w_lastError w ∧ w_toast w' = w_toast w).
Proof.
  intros H3 Hok Hjson Harr. split; [|split].
  - intros Hnet.
    destruct (loadLists_run baseUrl network w H3) as (st' & Hrun & _ & Hf & _).
    rewrite Hnet in Hrun, Hf. cbn [loaded_sequence load_error] in Hrun, Hf.
    rewrite Hok, Hjson, Harr in Hf. rewrite Hok, Hjson in Hrun.
    eexists. split; [exact Hrun|]. by split.
  - intros id Hnet.
    destruct (Tasks_loadTasks_run baseUrl network id w H3) as (st' & Hrun & _ & Hf & _).
    rewrite Hnet in Hrun, Hf. cbn [loaded_sequence load_error] in Hrun, Hf.
    rewrite Hok, Hjson, Harr in Hf. rewrite Hok, Hjson in Hrun.
    eexists. split; [exact Hrun|]. by split.
  - intros listName id Hnet.
    unfold Lists_js.loadTasks, try_catch.
    rewrite bind_run, guarded_read_run, bind_run. unfold fetch.
    fold (task_list_request baseUrl w id). rewrite Hnet, Hok. cbn [negb].
    rewrite bind_run. unfold eval. rewrite Hjson, Harr, bind_run.
    unfold Lists_js.setTasks, taskAction_js.setTasks.
    match goal with |- context [dispatch _ ?w1] =>
      destruct (dispatch_run w1 "tasks" task_slice constants.SET_TASKS "tasks" (JArr []))
        as (st1 & Hrun1 & H31 & Hf1 & _) end;
      [exact H3 | apply list_elem_of_further, list_elem_of_here | apply list_elem_of_here |].
    rewrite Hrun1, bind_run.
    unfold Lists_js.setTaskListName, taskAction_js.setTaskListName.
    match goal with |- context [dispatch _ ?w1] =>
      destruct (dispatch_run w1 "tasks" task_slice constants.SET_TASKS_LIST_NAME
                  "taskListName" listName)
        as (st2 & Hrun2 & H32 & _ & Hframe2) end;
      [exact H31 | apply list_elem_of_further, list_elem_of_here
      | apply list_elem_of_further, list_elem_of_here |].
    rewrite Hrun2.
    unfold Lists_js.setTaskListId, taskAction_js.setTaskListId.
    match goal with |- context [dispatch _ ?w1] =>
      destruct (dispatch_run w1 "tasks" task_slice constants.SET_TASKS_LIST_ID
                  "taskListId" id)
        as (st3 & Hrun3 & H33 & _ & Hframe3) end;
      [exact H32 | apply list_elem_of_further, list_elem_of_here
      | do 2 apply list_elem_of_further; apply list_elem_of_here |].
    rewrite Hrun3. eexists. split; [reflexivity|]. split; [|by split].
    cbn [w_store set_store log_events] in *.
    rewrite Hframe3, Hframe2 by done. exact Hf1.
Qed.

(** A delete acknowledged with status 204 and an empty body: the status
    is a success, yet no list load is requested; the operation ends in
    its exception handler. *)
Lemma delete_acknowledged_without_reload :
  resp_ok (mkResponse 204 "" (Throw (mkErr "SyntaxError" "Unexpected end of JSON input")))
  = true
  ∧ map req_url
      (requests (w_trace (Lists_js.deleteList "http://localhost:8081/api" terse_backend
                            (JNum 1) (session (JStr "tok-1") (JStr "") (JStr ""))).2))
    = ["http://localhost:8081/api/list/delete"]
  ∧ w_lastError (Lists_js.deleteList "http://localhost:8081/api" terse_backend
                   (JNum 1) (session (JStr "tok-1") (JStr "") (JStr ""))).2
    = Some "Delete exception: Unexpected end of JSON input".
Proof. vm_compute. repeat split. Qed.

(** C8. A delete whose request is answered with a status 2xx and a
    body that parses as JSON is followed by exactly one list load,
    requested after the delete response has arrived; the outcome of that
    load is dispatched as [SET_LISTS] and the [list] field of the list
    slice becomes the sequence of the load response (the empty sequence
    when the load brings none), every other field staying as it was. *)
Theorem delete_then_reload baseUrl network w id r body :
  three_slices (w_store w) →
  network (w_issued w) (delete_list_request baseUrl w id) = Resolved r →
  resp_ok r = true →
  resp_json r = Normal body →
  ∃ w', Lists_js.deleteList baseUrl network id w = (Normal tt, w')
    ∧ w_trace w'
      = (w_trace w
        ++ [EvRequest (delete_list_request baseUrl w id);
            EvResponse (Resolved r);
            EvRequest (list_request baseUrl w);
            EvResponse (network (S (w_issued w)) (list_request baseUrl w));
            EvDispatch (listAction_js.setLists
                          (loaded_sequence
                             (network (S (w_issued w)) (list_request baseUrl w))))])%list
    ∧ field (redux.getState (w_store w')) "lists" "list"
      = loaded_sequence (network (S (w_issued w)) (list_request baseUrl w))
    ∧ (∀ r' xs,
         network (S (w_issued w)) (list_request baseUrl w) = Resolved r' →
         resp_ok r' = true → resp_json r' = Normal (JArr xs) →
         field (redux.getState (w_store w')) "lists" "list" = JArr xs)
    ∧ (∀ s' f', (s', f') ≠ ("lists", "list") →
         field (redux.getState (w_store w')) s' f'
         = field (redux.getState (w_store w)) s' f').
Proof.
  intros H3 Hnet Hok Hjson.
  unfold Lists_js.deleteList, try_catch.
  rewrite bind_run, guarded_read_run, bind_run. unfold fetch.
  fold (delete_list_request baseUrl w id). rewrite Hnet, Hok. cbn [negb].
  rewrite !bind_run. unfold eval. rewrite Hjson.
  rewrite !bind_run. unfold showToast, setState_lastError.
  match goal with |- context [toasted ?m ?t ?d ?w0] =>
    destruct (toasted_frame m t d w0) as (Hts & Htt & Hti & _)
  end.
  match goal with |- context [Lists_js.loadLists _ _ ?w1] =>
    destruct (loadLists_later baseUrl network w1 w (S (w_issued w)) H3)
      as (st' & Hrun & _ & Hf & Hframe);
    [cbn [w_store set_lastError]; by rewrite Hts
    |cbn [w_issued set_lastError]; by rewrite Hti|]
  end.
  rewrite Hrun. eexists. split; [reflexivity|].
  cbn [w_store w_trace set_store set_lastError log_events].
  split; [|split; [|split]].
  - rewrite Htt. cbn [w_trace log_events]. by rewrite <- app_assoc.
  - exact Hf.
  - intros r' xs Hr' Hok' Hjson'. rewrite Hf, Hr'. simpl. by rewrite Hok', Hjson'.
  - exact Hframe.
Qed.

Lemma prop_path_field w a b :
  three_slices (w_store w) →
  a ∈ ["login"; "lists"; "tasks"] →
  prop_path w a b = field (redux.getState (w_store w)) a b.
Proof.
  intros (_ & l & li & t & Hst). unfold prop_path, read_path, props_of, field, redux.getState.
  rewrite Hst. rewrite !elem_of_cons, elem_of_nil.
  intros [->|[->|[->|[]]]]; reflexivity.
Qed.

(** Run component code one step further. *)
Ltac run_step :=
  first [ rewrite bind_run
        | rewrite guarded_read_run
        | progress unfold eval, showToast, setState_lastError ].

(** ** A create whose request fails *)

(** C3. When the request of [createTask] is answered with a status
    outside 200-299, the operation goes on as after a success: it
    reloads the tasks, then dispatches the three actions that clear the
    name, clear the description and toggle the form flag. *)
Theorem failed_create_resets_form baseUrl network w r :
  three_slices (w_store w) →
  truthy (prop_path w "login" "accessId") = true →
  truthy (prop_path w "tasks" "taskListId") = true →
  is_blank (prop_path w "tasks" "name") = Normal false →
  network (w_issued w) (create_task_request baseUrl w) = Resolved r →
  resp_ok r = false →
  let reload := task_list_request baseUrl w (prop_path w "tasks" "taskListId") in
  ∃ w', Tasks_js.createTask baseUrl network w = (Normal tt, w')
    ∧ w_trace w'
      = (w_trace w
         ++ [EvRequest (create_task_request baseUrl w);
             EvResponse (Resolved r);
             EvRequest reload;
             EvResponse (network (S (w_issued w)) reload);
             EvDispatch (taskAction_js.setTasks
                           (loaded_sequence (network (S (w_issued w)) reload)));
             EvDispatch (taskAction_js.setCreateTaskName (JStr ""));
             EvDispatch (taskAction_js.setCreateTaskDescription (JStr ""));
             EvDispatch (taskAction_js.switchShowAddTaskForm
                           (prop_path w "tasks" "showAddTaskForm"))])%list
    ∧ field (redux.getState (w_store w')) "tasks" "name" = JStr ""
    ∧ field (redux.getState (w_store w')) "tasks" "description" = JStr ""
    ∧ field (redux.getState (w_store w')) "tasks" "showAddTaskForm"
      = js_not (prop_path w "tasks" "showAddTaskForm").
Proof.
  intros H3 Htoken Hlist Hblank Hnet Hok reload.
  unfold Tasks_js.createTask, try_catch.
  repeat run_step.
  rewrite !(prop_path_store (set_lastError None w) w) by done.
  rewrite Htoken, Hlist. cbn [negb]. repeat run_step. rewrite Hblank.
  repeat run_step.
  rewrite !(prop_path_store (set_lastError None w) w) by done.
  unfold fetch. fold (create_task_request baseUrl w).
  cbn [w_issued set_lastError]. rewrite Hnet, Hok. cbn [negb].
  repeat run_step.
  match goal with |- context [Tasks_js.loadTasks _ _ _ ?w0] => set (w1 := w0) end.
  assert (Hw1 : w_store w1 = w_store w ∧ w_issued w1 = S (w_issued w)
                ∧ w_trace w1 = (w_trace w ++ [EvRequest (create_task_request baseUrl w);
                                              EvResponse (Resolved r)])%list).
  { subst w1. cbn [w_store w_issued w_trace set_lastError].
    match goal with |- context [toasted ?m ?t ?d ?w0] =>
      destruct (toasted_frame m t d w0) as (-> & -> & -> & _) end.
    done. }
  destruct Hw1 as (Hs1 & Hi1 & Ht1).
  rewrite (prop_path_store w1 w _ _ Hs1).
  destruct (Tasks_loadTasks_later baseUrl network (prop_path w "tasks" "taskListId")
              w1 w (S (w_issued w)) H3 Hs1 Hi1)
    as (st1 & Hrun1 & H31 & _ & Hframe1).
  fold reload in Hrun1. rewrite Hrun1. clear Hrun1.
  repeat run_step.
  unfold Tasks_js.setCreateTaskName, taskAction_js.setCreateTaskName.
  match goal with |- context [dispatch _ ?w0] =>
    destruct (dispatch_run w0 "tasks" task_slice constants.SET_CREATE_TASK_NAME "name" (JStr ""))
      as (st2 & Hrun2 & H32 & Hf2 & Hframe2) end;
    [exact H31 | apply list_elem_of_further, list_elem_of_here
    | do 5 apply list_elem_of_further; apply list_elem_of_here |].
  rewrite Hrun2. clear Hrun2. repeat run_step.
  unfold Tasks_js.setCreateTaskDescription, taskAction_js.setCreateTaskDescription.
  match goal with |- context [dispatch _ ?w0] =>
    destruct (dispatch_run w0 "tasks" task_slice constants.SET_CREATE_TASK_DESCRIPTION
                "description" (JStr ""))
      as (st3 & Hrun3 & H33 & Hf3 & Hframe3) end;
    [exact H32 | apply list_elem_of_further, list_elem_of_here
    | do 6 apply list_elem_of_further; apply list_elem_of_here |].
  rewrite Hrun3. clear Hrun3. repeat run_step.
  match goal with |- context [prop_path ?w0 "tasks" "showAddTaskForm"] =>
    assert (Hcur : prop_path w0 "tasks" "showAddTaskForm"
                   = prop_path w "tasks" "showAddTaskForm") end.
  { rewrite !prop_path_field;
      [|done|set_solver|exact H33|set_solver].
    cbn [w_store set_store] in *. by rewrite Hframe3, Hframe2, Hframe1. }
  rewrite Hcur.
  unfold Tasks_js.switchShowAddTaskForm, taskAction_js.switchShowAddTaskForm.
  match goal with |- context [dispatch _ ?w0] =>
    destruct (dispatch_run w0 "tasks" task_slice constants.SWITCH_SHOW_ADD_TASK_FORM
                "showAddTaskForm" (js_not (prop_path w "tasks" "showAddTaskForm")))
      as (st4 & Hrun4 & H34 & Hf4 & Hframe4) end;
    [exact H33 | apply list_elem_of_further, list_elem_of_here
    | do 3 apply list_elem_of_further; apply list_elem_of_here |].
  rewrite Hrun4. clear Hrun4.
  eexists. split; [reflexivity|].
  cbn [w_store w_trace set_store set_lastError log_events] in *.
  split; [|split; [|split]].
  - rewrite Ht1. by rewrite <- !app_assoc.
  - by rewrite Hframe4, Hframe3, Hf2.
  - by rewrite Hframe4, Hf3.
  - exact Hf4.
Qed.

(** The store the component tests create is over the three slices. *)
Lemma created_store_three_slices suffix store :
  redux.createStore App_test_js.rootReducer JUndefined suffix = Normal store →
  three_slices store.
Proof.
  intros [= <-]. split; [reflexivity|].
  exists (list_to_map [("accessId", JUndefined)]),
    (list_to_map [("list", JArr []); ("showAddList", JBool false);
                  ("name", JStr ""); ("description", JStr "")]),
    (list_to_map [("tasks", JArr []); ("showAddTaskForm", JBool false);
                  ("name", JStr ""); ("description", JStr "");
                  ("taskListName", JStr ""); ("taskListId", JStr "")]).
  reflexivity.
Qed.

Lemma session_three_slices accessId listName taskName :
  three_slices (w_store (session accessId listName taskName)).
Proof.
  split; [reflexivity|].
  exists (list_to_map [("accessId", accessId); ("username", JStr "alice")]),
    (list_to_map [("list", JArr []); ("showAddList", JBool true);
                  ("name", listName); ("description", JStr "")]),
    (list_to_map [("tasks", JArr []); ("showAddTaskForm", JBool true);
                  ("name", taskName); ("description", JStr "2l");
                  ("taskListName", JStr "shop"); ("taskListId", JStr "1")]).
  reflexivity.
Qed.

Lemma failed_create_resets_form_witness :
  ∃ w', Tasks_js.createTask "http://localhost:8081/api" refusing_backend
          (session (JStr "tok-1") (JStr "") (JStr "milk")) = (Normal tt, w')
    ∧ field (redux.getState (w_store w')) "tasks" "name" = JStr ""
    ∧ field (redux.getState (w_store w')) "tasks" "description" = JStr ""
    ∧ field (redux.getState (w_store w')) "tasks" "showAddTaskForm" = JBool false.
Proof.
  destruct (failed_create_resets_form "http://localhost:8081/api" refusing_backend
              (session (JStr "tok-1") (JStr "") (JStr "milk"))
              (mkResponse 500 "boom" (Normal (obj [("detail", JStr "boom")]))))
    as (w' & Hrun & _ & Hname & Hdescr & Hflag).
  - apply session_three_slices.
  - reflexivity.
  - reflexivity.
  - reflexivity.
  - reflexivity.
  - reflexivity.
  - exists w'. split; [exact Hrun|]. split; [exact Hname|]. split; [exact Hdescr|].
    exact Hflag.
Defined.

Lemma create_validation_is_local_witness :
  Lists_js.createList "http://localhost:8081/api" serving_backend
    (session (JStr "") (JStr "groceries") (JStr "milk"))
  = (Normal tt,
     set_lastError (Some "You must be logged in to create a list.")
       (session (JStr "") (JStr "groceries") (JStr "milk")))
  ∧ Lists_js.createList "http://localhost:8081/api" serving_backend
      (session (JStr "tok-1") (JStr "   ") (JStr "milk"))
    = (Normal tt,
       set_lastError (Some "List name is required.")
         (session (JStr "tok-1") (JStr "   ") (JStr "milk")))
  ∧ Tasks_js.createTask "http://localhost:8081/api" serving_backend
      (session (JStr "tok-1") (JStr "groceries") JUndefined)
    = (Normal tt,
       set_lastError (Some "Task name is required.")
         (session (JStr "tok-1") (JStr "groceries") JUndefined)).
Proof.
  split; [|split].
  - destruct (create_validation_is_local "http://localhost:8081/api" serving_backend
                (session (JStr "") (JStr "groceries") (JStr "milk"))) as (Htoken & _).
    apply Htoken. reflexivity.
  - destruct (create_validation_is_local "http://localhost:8081/api" serving_backend
                (session (JStr "tok-1") (JStr "   ") (JStr "milk"))) as (_ & Hname & _).
    apply Hname; reflexivity.
  - destruct (create_validation_is_local "http://localhost:8081/api" serving_backend
                (session (JStr "tok-1") (JStr "groceries") JUndefined))
      as (_ & _ & Htask & _).
    destruct Htask as (msg & Hrun & _ & Hmsg); [reflexivity|].
    rewrite Hrun, Hmsg; reflexivity.
Defined.

Lemma malformed_load_is_silent_witness :
  ∃ w', Lists_js.loadLists "http://localhost:8081/api" confused_backend
          (session (JStr "tok-1") (JStr "") (JStr "")) = (Normal tt, w')
    ∧ field (redux.getState (w_store w')) "lists" "list" = JArr []
    ∧ w_lastError w' = None ∧ w_toast w' = None.
Proof.
  destruct (malformed_load_is_silent "http://localhost:8081/api" confused_backend
              (session (JStr "tok-1") (JStr "") (JStr ""))
              (mkResponse 200 "{}" (Normal (obj [("ok", JBool true)])))
              (obj [("ok", JBool true)]))
    as (Hlists & _).
  - apply session_three_slices.
  - reflexivity.
  - reflexivity.
  - reflexivity.
  - apply Hlists. reflexivity.
Defined.

Lemma delete_then_reload_witness :
  ∃ w', Lists_js.deleteList "http://localhost:8081/api" serving_backend (JNum 1)
          (session (JStr "tok-1") (JStr "") (JStr "")) = (Normal tt, w')
    ∧ map req_url (requests (w_trace w'))
      = ["http://localhost:8081/api/list/delete"; "http://localhost:8081/api/list/list"]
    ∧ field (redux.getState (w_store w')) "lists" "list"
      = JArr [obj [("id", JNum 2); ("name", JStr "chores");
                   ("description", JStr ""); ("is_done", JBool false)]].
Proof.
  destruct (delete_then_reload "http://localhost:8081/api" serving_backend
              (session (JStr "tok-1") (JStr "") (JStr "")) (JNum 1)
              (mkResponse 200 "{}" (Normal (obj [("ok", JBool true)])))
              (obj [("ok", JBool true)]))
    as (w' & Hrun & Htrace & Hlist & _).
  - apply session_three_slices.
  - reflexivity.
  - reflexivity.
  - reflexivity.
  - exists w'. split; [exact Hrun|]. split.
    + rewrite Htrace. reflexivity.
    + rewrite Hlist. reflexivity.
Defined.

(** The same goes for [createList]: after a refused request it reloads
    the lists and resets the form. *)
Lemma failed_createList_resets_form baseUrl network w r :
  three_slices (w_store w) →
  truthy (prop_path w "login" "accessId") = true →
  is_blank (prop_path w "lists" "name") = Normal false →
  network (w_issued w) (create_list_request baseUrl w) = Resolved r →
  resp_ok r = false →
  ∃ w', Lists_js.createList baseUrl network w = (Normal tt, w')
    ∧ dispatched (w_trace w')
      = (dispatched (w_trace w)
         ++ [listAction_js.setLists
               (loaded_sequence (network (S (w_issued w)) (list_request baseUrl w)));
             listAction_js.setCreateListName (JStr "");
             listAction_js.setCreateListDescription (JStr "");
             listAction_js.switchShowAddListForm (prop_path w "lists" "showAddList")])%list
    ∧ field (redux.getState (w_store w')) "lists" "name" = JStr ""
    ∧ field (redux.getState (w_store w')) "lists" "description" = JStr ""
    ∧ field (redux.getState (w_store w')) "lists" "showAddList"
      = js_not (prop_path w "lists" "showAddList").
Proof.
  intros H3 Htoken Hblank Hnet Hok.
  unfold Lists_js.createList, try_catch.
  repeat run_step.
  rewrite !(prop_path_store (set_lastError None w) w) by done.
  rewrite Htoken. cbn [negb]. repeat run_step. rewrite Hblank.
  repeat run_step.
  rewrite !(prop_path_store (set_lastError None w) w) by done.
  unfold fetch. fold (create_list_request baseUrl w).
  cbn [w_issued set_lastError]. rewrite Hnet, Hok. cbn [negb].
  repeat run_step.
  match goal with |- context [Lists_js.loadLists _ _ ?w0] => set (w1 := w0) end.
  assert (Hw1 : w_store w1 = w_store w ∧ w_issued w1 = S (w_issued w)
                ∧ w_trace w1 = (w_trace w ++ [EvRequest (create_list_request baseUrl w);
                                              EvResponse (Resolved r)])%list).
  { subst w1. cbn [w_store w_issued w_trace set_lastError].
    match goal with |- context [toasted ?m ?t ?d ?w0] =>
      destruct (toasted_frame m t d w0) as (-> & -> & -> & _) end.
    done. }
  destruct Hw1 as (Hs1 & Hi1 & Ht1).
  destruct (loadLists_later baseUrl network w1 w (S (w_issued w)) H3 Hs1 Hi1)
    as (st1 & Hrun1 & H31 & _ & Hframe1).
  rewrite Hrun1. clear Hrun1.
  repeat run_step.
  unfold Lists_js.setCreateListName, listAction_js.setCreateListName.
  match goal with |- context [dispatch _ ?w0] =>
    destruct (dispatch_run w0 "lists" list_slice constants.SET_CREATE_LIST_NAME "name" (JStr ""))
      as (st2 & Hrun2 & H32 & Hf2 & Hframe2) end;
    [exact H31 | apply list_elem_of_here
    | do 2 apply list_elem_of_further; apply list_elem_of_here |].
  rewrite Hrun2. clear Hrun2. repeat run_step.
  unfold Lists_js.setCreateListDescription, listAction_js.setCreateListDescription.
  match goal with |- context [dispatch _ ?w0] =>
    destruct (dispatch_run w0 "lists" list_slice constants.SET_CREATE_LIST_DESCRIPTION
                "description" (JStr ""))
      as (st3 & Hrun3 & H33 & Hf3 & Hframe3) end;
    [exact H32 | apply list_elem_of_here
    | do 3 apply list_elem_of_further; apply list_elem_of_here |].
  rewrite Hrun3. clear Hrun3. repeat run_step.
  match goal with |- context [prop_path ?w0 "lists" "showAddList"] =>
    assert (Hcur : prop_path w0 "lists" "showAddList"
                   = prop_path w "lists" "showAddList") end.
  { rewrite !prop_path_field;
      [|done|set_solver|exact H33|set_solver].
    cbn [w_store set_store] in *. by rewrite Hframe3, Hframe2, Hframe1. }
  rewrite Hcur.
  unfold Lists_js.switchShowAddList, listAction_js.switchShowAddListForm.
  match goal with |- context [dispatch _ ?w0] =>
    destruct (dispatch_run w0 "lists" list_slice constants.SWITCH_SHOW_ADD_LIST_FORM
                "showAddList" (js_not (prop_path w "lists" "showAddList")))
      as (st4 & Hrun4 & H34 & Hf4 & Hframe4) end;
    [exact H33 | apply list_elem_of_here
    | apply list_elem_of_further, list_elem_of_here |].
  rewrite Hrun4. clear Hrun4.
  eexists. split; [reflexivity|].
  cbn [w_store w_trace set_store set_lastError log_events] in *.
  split; [|split; [|split]].
  - rewrite Ht1. unfold dispatched. rewrite !omap_app. simpl. by rewrite !app_nil_r, <- !app_assoc.
  - by rewrite Hframe4, Hframe3, Hf2.
  - by rewrite Hframe4, Hf3.
  - exact Hf4.
Qed.

(** A delete answered with a 2xx status and a body that is not JSON is
    handled as an exception: the banner shows it and no load follows. *)
Lemma delete_unparsable_acknowledgement baseUrl network w id r e :
  network (w_issued w) (delete_list_request baseUrl w id) = Resolved r →
  resp_ok r = true →
  resp_json r = Throw e →
  Lists_js.deleteList baseUrl network id w
  = (Normal tt,
     set_lastError (Some ("Delete exception: " +:+ err_text e))
       (log_events [EvRequest (delete_list_request baseUrl w id); EvResponse (Resolved r)]
          (S (w_issued w)) w)).
Proof.
  intros Hnet Hok Hjson. unfold Lists_js.deleteList, try_catch.
  repeat run_step. unfold fetch. fold (delete_list_request baseUrl w id).
  rewrite Hnet, Hok. cbn [negb]. repeat run_step. by rewrite Hjson.
Qed.

(** ** How actions compose *)

Lemma default_param_idem v d : default_param (default_param v d) d = default_param v d.
Proof. unfold default_param. destruct v; try done. by destruct d. Qed.

(** Whether a reducer throws depends on the action alone, and when it
    does not, its result is the state patched with the assignments of
    the action. *)
Lemma reducer_outcome sl action :
  sl ∈ slices →
  (∀ state, sl_reducer sl state action
            = Normal (patch (assignments sl action) (default_param state (sl_initial sl))))
  ∨ (∃ e, ∀ state, sl_reducer sl state action = Throw e).
Proof.
  intros Hsl.
  destruct (get_prop action "type") as [ty|e] eqn:Hty.
  2:{ right. exists e. intros state. revert Hsl. unfold slices.
      rewrite !elem_of_cons, elem_of_nil.
      intros [->|[->|[->|[]]]]; simpl;
        unfold loginReducer_js.loginReducer, listReducer_js.listReducer,
          taskReducer_js.taskReducer; by rewrite Hty. }
  assert (∃ payload, get_prop action "payload" = Normal payload) as [payload Hpl].
  { destruct action; try discriminate; eexists; reflexivity. }
  destruct (recognizes sl ty) eqn:Hrec.
  - apply recognizes_label in Hrec as (label & flds & -> & Hin).
    destruct (decide (label = constants.LOGIN_SUCCESS)) as [->|Hne].
    + assert (sl = login_slice) as ->.
      { revert Hsl Hin. unfold slices. rewrite !elem_of_cons, elem_of_nil.
        intros [->|[->|[->|[]]]]; simpl; rewrite !elem_of_cons, elem_of_nil;
          intros Hc; repeat (destruct Hc as [[= <-]|Hc]); done. }
      destruct (get_prop payload "accessId") as [a|e] eqn:Ha.
      * assert (∃ u, get_prop payload "username" = Normal u) as [u Hu].
        { destruct payload; try discriminate; eexists; reflexivity. }
        left. intros state. simpl sl_reducer.
        erewrite loginReducer_login_success by eauto.
        unfold assignments. rewrite Hty, Hpl. simpl. rewrite Ha, Hu. simpl.
        do 2 f_equal. apply map_eq. intros k.
        rewrite lookup_union, !lookup_insert, lookup_empty.
        repeat case_decide; subst; try done;
          by destruct (own_props (default_param state loginReducer_js.initialState) !! _).
      * right. exists e. intros state. simpl.
        unfold loginReducer_js.loginReducer. switch_on Hty. by rewrite Hpl, Ha.
    + assert (∃ f, flds = [f]) as [f ->].
      { revert Hsl Hin. unfold slices. rewrite !elem_of_cons, elem_of_nil.
        intros [->|[->|[->|[]]]]; simpl; rewrite !elem_of_cons, elem_of_nil;
          intros Hc; repeat (destruct Hc as [[= -> ->]|Hc]); try done; by eexists. }
      left. intros state. erewrite slice_single_case by eauto.
      assert (assignments sl action = Some {[ f := stored label payload ]}) as ->.
      { unfold assignments. rewrite Hty, Hpl.
        revert Hsl Hin. unfold slices. rewrite !elem_of_cons, elem_of_nil.
        intros [->|[->|[->|[]]]]; simpl; rewrite !elem_of_cons, elem_of_nil;
          intros Hc; repeat (destruct Hc as [[= -> ->]|Hc]); done. }
      simpl. unfold spread_set. by rewrite insert_union_singleton_l.
  - left. intros state. erewrite slice_default by eauto.
    assert (assignments sl action = None) as ->; [|done].
    unfold assignments. rewrite Hty, Hpl.
    destruct (List.find _ _) as [[label flds]|] eqn:Hfind; [|done].
    apply find_some in Hfind as [Hin Heq]. simpl in Heq.
    unfold recognizes in Hrec.
    assert (existsb (strict_eq_str ty) (sl_cases sl).*1 = true); [|congruence].
    apply existsb_exists. exists label. split; [|done].
    apply in_map_iff. by exists (label, flds).
Qed.

Lemma slice_initial_defined sl : sl ∈ slices → sl_initial sl ≠ JUndefined.
Proof.
  unfold slices. rewrite !elem_of_cons, elem_of_nil. by intros [->|[->|[->|[]]]].
Qed.

(** The fields of the assignments are those of the case. *)
Lemma assignments_fields sl ty flds action :
  sl ∈ slices →
  (ty, flds) ∈ sl_cases sl →
  get_prop action "type" = Normal (JStr ty) →
  ∃ u, assignments sl action = Some u ∧ dom u = (list_to_set flds : gset string).
Proof.
  intros Hsl Hin Hty.
  assert (∃ payload, get_prop action "payload" = Normal payload) as [payload Hpl].
  { destruct action; try discriminate; eexists; reflexivity. }
  unfold assignments. rewrite Hty, Hpl.
  revert Hsl Hin. unfold slices. rewrite !elem_of_cons, elem_of_nil.
  intros [->|[->|[->|[]]]]; simpl; rewrite !elem_of_cons, elem_of_nil;
    intros Hc; repeat (destruct Hc as [[= -> ->]|Hc]); try done;
    eexists; (split; [reflexivity|]);
    rewrite ?dom_singleton_L, ?dom_list_to_map_L; simpl; set_solver.
Qed.

Lemma assignments_unrecognized sl action ty :
  get_prop action "type" = Normal ty →
  recognizes sl ty = false →
  assignments sl action = None.
Proof.
  intros Hty Hrec. unfold assignments. rewrite Hty.
  destruct (get_prop action "payload"); [|done].
  destruct (List.find _ _) as [[label flds]|] eqn:Hfind; [|done].
  apply find_some in Hfind as [Hin Heq]. simpl in Heq.
  unfold recognizes in Hrec.
  assert (existsb (strict_eq_str ty) (sl_cases sl).*1 = true); [|congruence].
  apply existsb_exists. exists label. split; [|done].
  apply in_map_iff. by exists (label, flds).
Qed.

Lemma patch_absorb (u1 u2 : gmap string JsVal) state :
  dom u1 ⊆ dom u2 →
  patch (Some u2) (patch (Some u1) state) = patch (Some u2) state.
Proof.
  intros Hdom. simpl. f_equal. apply map_eq. intros k.
  rewrite !lookup_union. destruct (u2 !! k) eqn:H2; [by rewrite !union_Some_l|].
  assert (u1 !! k = None) as ->.
  { apply not_elem_of_dom. intros Hk. apply Hdom in Hk.
    by apply not_elem_of_dom in H2. }
  by destruct (own_props state !! k).
Qed.

Lemma patch_commute (u1 u2 : gmap string JsVal) state :
  dom u1 ## dom u2 →
  patch (Some u2) (patch (Some u1) state) = patch (Some u1) (patch (Some u2) state).
Proof.
  intros Hdom. simpl. f_equal. rewrite !map_union_assoc. f_equal.
  apply map_union_comm. by apply map_disjoint_dom.
Qed.

(** Every action type of a slice, and the fields its case assigns. *)
Lemma recognized_case sl ty :
  recognizes sl ty = true ↔ ∃ label flds, ty = JStr label ∧ (label, flds) ∈ sl_cases sl.
Proof.
  split; [apply recognizes_label|].
  intros (label & flds & -> & Hin). unfold recognizes. apply existsb_exists.
  exists label. split; [|apply strict_eq_str_true].
  apply in_map_iff. exists (label, flds). split; [done|]. by apply list_elem_of_In.
Qed.

(** X1. Dispatching the same action twice is the same as dispatching it
    once, for each reducer and every state. *)
Theorem reducers_idempotent sl state action s' :
  sl ∈ slices →
  sl_reducer sl state action = Normal s' →
  sl_reducer sl s' action = Normal s'.
Proof.
  intros Hsl Hs'. pose proof (slice_initial_defined sl Hsl) as Hinit.
  destruct (reducer_outcome sl action Hsl) as [Hn|[e He]]; [|by rewrite He in Hs'].
  rewrite Hn in Hs'. injection Hs' as <-. rewrite Hn. f_equal.
  destruct (assignments sl action) as [u|]; simpl.
  - f_equal. by rewrite map_union_assoc, map_union_idemp.
  - apply default_param_idem.
Qed.

Lemma reducers_idempotent_witness :
  taskReducer_js.taskReducer
    (obj [("tasks", JArr []); ("name", JStr "milk")])
    (obj [("type", JStr "SET_CREATE_TASK_NAME"); ("payload", JStr "milk")])
  = Normal (obj [("tasks", JArr []); ("name", JStr "milk")]).
Proof.
  apply (reducers_idempotent task_slice (obj [("tasks", JArr [])])).
  - unfold slices. apply list_elem_of_further, list_elem_of_further, list_elem_of_here.
  - vm_compute. reflexivity.
Defined.

(** X2. Of two actions of the same type, the later one decides: the
    state after both is the state after the second alone. *)
Theorem reducers_last_write_wins sl state a1 a2 ty s1 s2 :
  sl ∈ slices →
  get_prop a1 "type" = Normal ty →
  get_prop a2 "type" = Normal ty →
  sl_reducer sl state a1 = Normal s1 →
  sl_reducer sl state a2 = Normal s2 →
  sl_reducer sl s1 a2 = Normal s2.
Proof.
  intros Hsl Ht1 Ht2 Hs1 Hs2. pose proof (slice_initial_defined sl Hsl) as Hinit.
  destruct (reducer_outcome sl a1 Hsl) as [Hn1|[e He]]; [|by rewrite He in Hs1].
  destruct (reducer_outcome sl a2 Hsl) as [Hn2|[e He]]; [|by rewrite He in Hs2].
  rewrite Hn1 in Hs1. rewrite Hn2 in Hs2. injection Hs1 as <-. injection Hs2 as <-.
  rewrite Hn2. f_equal.
  destruct (recognizes sl ty) eqn:Hrec.
  - apply recognizes_label in Hrec as (label & flds & -> & Hin).
    destruct (assignments_fields sl label flds a1 Hsl Hin Ht1) as (u1 & -> & Hd1).
    destruct (assignments_fields sl label flds a2 Hsl Hin Ht2) as (u2 & -> & Hd2).
    change (default_param (patch (Some u1) ?s) ?d) with (patch (Some u1) s).
    apply patch_absorb. by rewrite Hd1, Hd2.
  - rewrite (assignments_unrecognized sl a1 ty), (assignments_unrecognized sl a2 ty) by done.
    simpl. apply default_param_idem.
Qed.

Lemma reducers_last_write_wins_witness :
  loginReducer_js.loginReducer
    (obj [("accessId", JStr "tok-1"); ("username", JStr "alice")])
    (loginAction_js.loginSuccess (JStr "bob") (JStr "tok-2"))
  = Normal (obj [("accessId", JStr "tok-2"); ("username", JStr "bob")]).
Proof.
  apply (reducers_last_write_wins login_slice JUndefined
           (loginAction_js.loginSuccess (JStr "alice") (JStr "tok-1"))
           (loginAction_js.loginSuccess (JStr "bob") (JStr "tok-2"))
           (JStr "LOGIN")).
  - apply list_elem_of_here.
  - reflexivity.
  - reflexivity.
  - vm_compute. reflexivity.
  - vm_compute. reflexivity.
Defined.

(** A reducer throws only when the type of the action cannot be read
    or, for the login reducer, on [LOGIN_SUCCESS]. *)
Lemma reducer_throws sl state action e :
  sl ∈ slices →
  sl_reducer sl state action = Throw e →
  get_prop action "type" = Throw e
  ∨ (get_prop action "type" = Normal (JStr constants.LOGIN_SUCCESS) ∧ sl = login_slice).
Proof.
  intros Hsl Hthrow.
  destruct (get_prop action "type") as [ty|e'] eqn:Hty.
  2:{ left. revert Hsl Hthrow. unfold slices. rewrite !elem_of_cons, elem_of_nil.
      intros [->|[->|[->|[]]]]; simpl;
        unfold loginReducer_js.loginReducer, listReducer_js.listReducer,
          taskReducer_js.taskReducer; rewrite Hty; simpl; congruence. }
  right.
  assert (∃ payload, get_prop action "payload" = Normal payload) as [payload Hpl].
  { destruct action; try discriminate; eexists; reflexivity. }
  destruct (recognizes sl ty) eqn:Hrec; [|by erewrite slice_default in Hthrow].
  apply recognizes_label in Hrec as (label & flds & -> & Hin).
  destruct (decide (label = constants.LOGIN_SUCCESS)) as [->|Hne].
  - split; [done|]. revert Hsl Hin. unfold slices. rewrite !elem_of_cons, elem_of_nil.
    intros [->|[->|[->|[]]]]; simpl; rewrite !elem_of_cons, elem_of_nil;
      intros Hc; repeat (destruct Hc as [[= <-]|Hc]); done.
  - assert (∃ f, flds = [f]) as [f ->].
    { revert Hsl Hin. unfold slices. rewrite !elem_of_cons, elem_of_nil.
      intros [->|[->|[->|[]]]]; simpl; rewrite !elem_of_cons, elem_of_nil;
        intros Hc; repeat (destruct Hc as [[= -> ->]|Hc]); try done; by eexists. }
    by erewrite slice_single_case in Hthrow.
Qed.

(** X3. Two actions of a slice whose cases assign no common field can be
    dispatched in either order: the outcome, state or exception, is the
    same. *)
Theorem reducers_commute_on_distinct_fields sl state a1 a2 ty1 ty2 flds1 flds2 :
  sl ∈ slices →
  (ty1, flds1) ∈ sl_cases sl →
  (ty2, flds2) ∈ sl_cases sl →
  (∀ f, f ∈ flds1 → f ∉ flds2) →
  get_prop a1 "type" = Normal (JStr ty1) →
  get_prop a2 "type" = Normal (JStr ty2) →
  reduce_all (sl_reducer sl) state [a1; a2] = reduce_all (sl_reducer sl) state [a2; a1].
Proof.
  intros Hsl Hin1 Hin2 Hdisj Ht1 Ht2. pose proof (slice_initial_defined sl Hsl) as Hinit.
  destruct (assignments_fields sl ty1 flds1 a1 Hsl Hin1 Ht1) as (u1 & Hu1 & Hd1).
  destruct (assignments_fields sl ty2 flds2 a2 Hsl Hin2 Ht2) as (u2 & Hu2 & Hd2).
  assert (Hdom : dom u1 ## dom u2).
  { rewrite Hd1, Hd2. intros f. rewrite !elem_of_list_to_set. apply Hdisj. }
  simpl.
  destruct (reducer_outcome sl a1 Hsl) as [Hn1|[e1 He1]];
    destruct (reducer_outcome sl a2 Hsl) as [Hn2|[e2 He2]];
    rewrite ?Hn1, ?Hn2, ?He1, ?He2; simpl; rewrite ?Hn1, ?Hn2, ?He1, ?He2; simpl; try done.
  - rewrite Hu1, Hu2. f_equal.
    change (default_param (patch (Some u1) ?s) ?d) with (patch (Some u1) s).
    change (default_param (patch (Some u2) ?s) ?d) with (patch (Some u2) s).
    by rewrite patch_commute.
  - destruct (reducer_throws sl state a1 e1 Hsl (He1 state)) as [?|[H1 ->]]; [congruence|].
    destruct (reducer_throws login_slice state a2 e2 Hsl (He2 state)) as [?|[H2 _]];
      [congruence|].
    assert (ty1 = constants.LOGIN_SUCCESS) as -> by congruence.
    assert (ty2 = constants.LOGIN_SUCCESS) as -> by congruence.
    exfalso. simpl in Hin1, Hin2. revert Hin1 Hin2. rewrite !elem_of_cons, !elem_of_nil.
    intros Hc1 Hc2.
    assert (flds1 = ["accessId"; "username"]) as ->
      by (destruct Hc1 as [Hc|[Hc|[Hc|[Hc|[]]]]]; try discriminate Hc; by injection Hc).
    assert (flds2 = ["accessId"; "username"]) as ->
      by (destruct Hc2 as [Hc|[Hc|[Hc|[Hc|[]]]]]; try discriminate Hc; by injection Hc).
    apply (Hdisj "accessId"); apply list_elem_of_here.
Qed.

Lemma reducers_commute_on_distinct_fields_witness :
  reduce_all listReducer_js.listReducer JUndefined
    [obj [("type", JStr "SET_CREATE_LIST_NAME"); ("payload", JStr "chores")];
     obj [("type", JStr "SET_LISTS"); ("payload", JNull)]]
  = reduce_all listReducer_js.listReducer JUndefined
      [obj [("type", JStr "SET_LISTS"); ("payload", JNull)];
       obj [("type", JStr "SET_CREATE_LIST_NAME"); ("payload", JStr "chores")]].
Proof.
  apply (reducers_commute_on_distinct_fields list_slice JUndefined _ _
           "SET_CREATE_LIST_NAME" "SET_LISTS" ["name"] ["list"]).
  - unfold slices. apply list_elem_of_further, list_elem_of_here.
  - simpl. do 2 apply list_elem_of_further. apply list_elem_of_here.
  - simpl. apply list_elem_of_here.
  - intros f Hf Hf'. apply list_elem_of_singleton in Hf. apply list_elem_of_singleton in Hf'.
    rewrite Hf in Hf'. discriminate Hf'.
  - reflexivity.
  - reflexivity.
Defined.

(** X4. No reducer ever removes a field: the fields of the input state
    (of the slice default when the state is [undefined]) are all fields
    of the result, after one action and after any sequence of them. *)
Theorem reducers_never_remove_fields sl actions : ∀ state s,
  sl ∈ slices →
  reduce_all (sl_reducer sl) state actions = Normal s →
  dom (own_props state) ⊆ dom (own_props s)
  ∧ (actions ≠ [] → dom (own_props (default_param state (sl_initial sl))) ⊆ dom (own_props s)).
Proof.
  induction actions as [|a rest IH]; intros state s Hsl Hs; simpl in Hs.
  - injection Hs as <-. by split.
  - destruct (reducer_outcome sl a Hsl) as [Hn|[e He]]; [|by rewrite He in Hs].
    rewrite Hn in Hs. simpl in Hs.
    destruct (IH _ _ Hsl Hs) as [Hsub _].
    assert (Hstep : dom (own_props (default_param state (sl_initial sl)))
                    ⊆ dom (own_props (patch (assignments sl a)
                                        (default_param state (sl_initial sl))))).
    { destruct (assignments sl a); simpl; [|done]. rewrite dom_union_L. set_solver. }
    split; [|intros _; set_solver].
    transitivity (dom (own_props (default_param state (sl_initial sl)))); [|set_solver].
    destruct state; try done; simpl; set_solver.
Qed.

Lemma reducers_never_remove_fields_witness :
  dom (own_props taskReducer_js.initialState)
  ⊆ dom (own_props (obj [("tasks", JArr []); ("showAddTaskForm", JBool false);
                          ("name", JStr ""); ("description", JStr "");
                          ("taskListName", JStr ""); ("taskListId", JStr "");
                          ("isDone", JUndefined)])).
Proof.
  destruct (reducers_never_remove_fields task_slice
              [obj [("type", JStr "SWITCH_SET_TASK_IS_DONE"); ("payload", JUndefined)];
               obj [("type", JStr "SET_TASKS"); ("payload", JStr "oops")]]
              JUndefined
              (obj [("tasks", JArr []); ("showAddTaskForm", JBool false);
                    ("name", JStr ""); ("description", JStr "");
                    ("taskListName", JStr ""); ("taskListId", JStr "");
                    ("isDone", JUndefined)])) as [_ Hdef].
  - unfold slices. apply list_elem_of_further, list_elem_of_further, list_elem_of_here.
  - vm_compute. reflexivity.
  - apply Hdef. discriminate.
Defined.

(** X5. An action is taken up by at most one reducer: of the three, at
    least two return the state they were given. *)
Theorem action_changes_at_most_one_slice action ty login lists tasks :
  get_prop action "type" = Normal ty →
  let unchanged sl state :=
    sl_reducer sl state action = Normal (default_param state (sl_initial sl)) in
  (unchanged login_slice login ∧ unchanged list_slice lists)
  ∨ (unchanged login_slice login ∧ unchanged task_slice tasks)
  ∨ (unchanged list_slice lists ∧ unchanged task_slice tasks).
Proof.
  intros Hty unchanged. unfold unchanged.
  assert (H1 : login_slice ∈ slices) by apply list_elem_of_here.
  assert (H2 : list_slice ∈ slices) by apply list_elem_of_further, list_elem_of_here.
  assert (H3 : task_slice ∈ slices)
    by apply list_elem_of_further, list_elem_of_further, list_elem_of_here.
  destruct (recognizes login_slice ty) eqn:Hlogin.
  - right. right.
    apply recognizes_label in Hlogin as (label & flds & -> & Hc).
    simpl in Hc. revert Hc. rewrite !elem_of_cons, !elem_of_nil. intros Hc.
    destruct Hc as [Hc|[Hc|[Hc|[Hc|[]]]]]; injection Hc as -> _;
      (split; [exact (slice_default list_slice lists action _ H2 Hty eq_refl)
              |exact (slice_default task_slice tasks action _ H3 Hty eq_refl)]).
  - destruct (recognizes list_slice ty) eqn:Hlist.
    + right. left. split; [exact (slice_default login_slice login action _ H1 Hty Hlogin)|].
      apply recognizes_label in Hlist as (label & flds & -> & Hc).
      simpl in Hc. revert Hc. rewrite !elem_of_cons, !elem_of_nil. intros Hc.
      destruct Hc as [Hc|[Hc|[Hc|[Hc|[]]]]]; injection Hc as -> _;
        exact (slice_default task_slice tasks action _ H3 Hty eq_refl).
    + left. split; [exact (slice_default login_slice login action _ H1 Hty Hlogin)
                   |exact (slice_default list_slice lists action _ H2 Hty Hlist)].
Qed.

Lemma action_changes_at_most_one_slice_witness :
  loginReducer_js.loginReducer loginReducer_js.initialState
    (obj [("type", JStr "SET_CREATE_TASK_NAME"); ("payload", JStr "milk")])
  = Normal loginReducer_js.initialState
  ∧ listReducer_js.listReducer listReducer_js.initialState
      (obj [("type", JStr "SET_CREATE_TASK_NAME"); ("payload", JStr "milk")])
    = Normal listReducer_js.initialState.
Proof.
  destruct (action_changes_at_most_one_slice
              (obj [("type", JStr "SET_CREATE_TASK_NAME"); ("payload", JStr "milk")])
              (JStr "SET_CREATE_TASK_NAME")
              loginReducer_js.initialState listReducer_js.initialState
              taskReducer_js.initialState eq_refl) as [H|[[_ H]|[_ H]]].
  - exact H.
  - vm_compute in H. discriminate H.
  - vm_compute in H. discriminate H.
Defined.

(** ** The login form *)

Lemma login_mounted_login st :
  login_mounted st →
  ∃ l : gmap string JsVal, own_props (redux.getState st) !! "login" = Some (JObj l).
Proof.
  intros [(_ & l & Hst)|(_ & l & li & t & Hst)]; exists l;
    unfold redux.getState; rewrite Hst; by simplify_map_eq.
Qed.

(** A dispatch that only the login reducer recognizes, on a store that
    mounts it: the login slice is what the reducer returns, the other
    slices stay. *)
Lemma dispatch_login st (ma : gmap string JsVal) ty (l l' : gmap string JsVal) :
  login_mounted st →
  ma !! "type" = Some (JStr ty) →
  recognizes list_slice (JStr ty) = false →
  recognizes task_slice (JStr ty) = false →
  own_props (redux.getState st) !! "login" = Some (JObj l) →
  loginReducer_js.loginReducer (JObj l) (JObj ma) = Normal (JObj l') →
  ∃ st', redux.dispatch st (JObj ma) = Normal st'
    ∧ login_mounted st'
    ∧ own_props (redux.getState st') !! "login" = Some (JObj l')
    ∧ ∀ s, s ≠ "login" →
        own_props (redux.getState st') !! s = own_props (redux.getState st) !! s.
Proof.
  intros Hm Hma Hli Ht Hl Hred.
  assert (Hty : get_prop (JObj ma) "type" = Normal (JStr ty)) by (simpl; by rewrite Hma).
  destruct Hm as [(Hr & l0 & Hst)|(Hr & l0 & li & t & Hst)];
    unfold redux.getState in Hl; rewrite Hst in Hl; cbn [own_props] in Hl;
    [rewrite lookup_singleton_eq in Hl
    |rewrite !(lookup_insert_ne _ _ "login") in Hl by done;
     rewrite lookup_insert_eq in Hl];
    injection Hl as ->.
  - eexists. split.
    + unfold redux.dispatch. rewrite Hma. cbn [default from_option id is_undefined].
      rewrite Hr, Hst. unfold configureStore_js.rootReducer, redux.combineReducers.
      cbn [redux.combination get_prop default_param is_undefined mbind Completion_bind
           own_props].
      rewrite lookup_singleton_eq. cbn [default from_option id].
      rewrite Hred. cbn [mbind Completion_bind is_undefined]. reflexivity.
    + split; [left; split; [done|by eexists]|].
      unfold redux.getState. cbn [redux.currentState own_props].
      rewrite Hst. cbn [own_props]. split; [by rewrite lookup_insert_eq|].
      intros s Hs. by rewrite lookup_insert_ne, lookup_singleton_ne.
  - eexists. split.
    + unfold redux.dispatch. rewrite Hma. cbn [default from_option id is_undefined].
      rewrite Hr, Hst. unfold App_test_js.rootReducer, redux.combineReducers.
      cbn [redux.combination get_prop default_param is_undefined mbind Completion_bind
           own_props].
      rewrite (lookup_insert_ne _ "tasks" "login") by done.
      rewrite (lookup_insert_ne _ "lists" "login") by done.
      rewrite lookup_insert_eq.
      rewrite (lookup_insert_ne _ "tasks" "lists") by done.
      rewrite !lookup_insert_eq.
      cbn [default from_option id].
      rewrite Hred. cbn [mbind Completion_bind is_undefined].
      rewrite (listReducer_keeps li (JObj ma) (JStr ty) Hty Hli).
      cbn [mbind Completion_bind is_undefined].
      rewrite (taskReducer_keeps t (JObj ma) (JStr ty) Hty Ht).
      cbn [mbind Completion_bind is_undefined]. reflexivity.
    + split; [right; split; [done|by eexists _, _, _]|].
      unfold redux.getState. cbn [redux.currentState own_props].
      rewrite Hst. cbn [own_props]. split; [by simplify_map_eq|].
      intros s Hs.
      destruct (decide (s = "tasks")) as [->|?]; [by rewrite !lookup_insert_eq|].
      rewrite !(lookup_insert_ne _ "tasks") by done.
      destruct (decide (s = "lists")) as [->|?]; [by rewrite !lookup_insert_eq|].
      rewrite !(lookup_insert_ne _ "lists") by done.
      by rewrite !(lookup_insert_ne _ "login") by done.
Qed.

Lemma login_mounted_state st :
  login_mounted st → ∃ m : gmap string JsVal, redux.getState st = JObj m.
Proof.
  unfold redux.getState.
  intros [(_ & l & ->)|(_ & l & li & t & ->)]; by eexists.
Qed.

Lemma field_own_props (m : gmap string JsVal) s f :
  field (JObj m) s f
  = match m !! s with
    | Some (JObj p) => default JUndefined (p !! f)
    | _ => JUndefined
    end.
Proof. reflexivity. Qed.

(** A dispatch of [SET_USERNAME] by the login form. *)
Lemma setUsername_run w v :
  login_mounted (w_store w) →
  ∃ st', Login_js.setUsername v w
         = (Normal tt,
            set_store st'
              (log_events [EvDispatch (loginAction_js.setUsername v)] (w_issued w) w))
    ∧ login_mounted st'
    ∧ field (redux.getState st') "login" "username" = v
    ∧ ∀ s f, (s, f) ≠ ("login", "username") →
        field (redux.getState st') s f = field (redux.getState (w_store w)) s f.
Proof.
  intros Hm. destruct (login_mounted_login _ Hm) as (l & Hl).
  assert (Hy : (list_to_map [("type", JStr constants.SET_USERNAME); ("payload", v)]
                  : gmap string JsVal) !! "type" = Some (JStr constants.SET_USERNAME))
    by reflexivity.
  destruct (dispatch_login (w_store w) _ constants.SET_USERNAME l (<["username" := v]> l)
              Hm Hy eq_refl eq_refl Hl eq_refl) as (st' & Hd & Hm' & Hl' & Hframe).
  exists st'. split.
  { unfold Login_js.setUsername, dispatch, loginAction_js.setUsername, obj.
    by rewrite Hd. }
  split; [done|].
  destruct (login_mounted_state _ Hm) as (m & Hs).
  destruct (login_mounted_state _ Hm') as (m' & Hs').
  rewrite Hs in Hl, Hframe |- *. rewrite Hs' in Hl', Hframe |- *.
  cbn [own_props] in Hl, Hl', Hframe. rewrite !field_own_props.
  split.
  - rewrite Hl'. by rewrite lookup_insert_eq.
  - intros s f Hsf. rewrite !field_own_props. destruct (decide (s = "login")) as [->|Hne].
    + rewrite Hl', Hl. assert (f ≠ "username") by congruence.
      by rewrite lookup_insert_ne.
    + by rewrite Hframe.
Qed.

Lemma typed_run input v w : typed input v w = Login_js.setUsername v w.
Proof. by destruct input. Qed.

Lemma typing_run (inputs : list (LoginInput * JsVal)) :
  ∀ w, login_mounted (w_store w) →
  ∃ w', in_sequence (map (fun i => typed i.1 i.2) inputs) w = (Normal tt, w')
    ∧ login_mounted (w_store w')
    ∧ field (redux.getState (w_store w')) "login" "username"
      = default (field (redux.getState (w_store w)) "login" "username")
          (last (map snd inputs))
    ∧ (∀ s f, (s, f) ≠ ("login", "username") →
         field (redux.getState (w_store w')) s f
         = field (redux.getState (w_store w)) s f)
    ∧ w_trace w'
      = (w_trace w ++ map (fun i => EvDispatch (loginAction_js.setUsername i.2)) inputs)%list.
Proof.
  induction inputs as [|[input v] inputs IH]; intros w Hm.
  - exists w. repeat split; try done. by rewrite app_nil_r.
  - destruct (setUsername_run w v Hm) as (st' & Hrun & Hm' & Hu & Hframe).
    set (w1 := set_store st'
                 (log_events [EvDispatch (loginAction_js.setUsername v)] (w_issued w) w))
      in *.
    destruct (IH w1 Hm') as (w' & Hrest & Hm'' & Hu' & Hframe' & Htr).
    exists w'. split.
    { cbn [map in_sequence fst snd]. rewrite bind_run, typed_run, Hrun. exact Hrest. }
    split; [done|]. split; [|split].
    + rewrite Hu'. cbn [map snd]. rewrite last_cons.
      cbn [w1 set_store w_store]. rewrite Hu.
      by destruct (last (map snd inputs)).
    + intros s f Hsf. rewrite Hframe' by done. by apply Hframe.
    + rewrite Htr. cbn [w1 set_store log_events w_trace map snd].
      by rewrite <- app_assoc.
Qed.


(** X6. Whatever is typed into the login form, in either input, ends in
    [login.username]: the password input calls [setUsername] too.  After
    any sequence of changes the username is the text typed last, in
    whichever input, and every other field of the store, [login.password]
    included, is what it was before the first change; each change is one
    [SET_USERNAME] dispatch and no [SET_PASSWORD] is ever dispatched.
    So the request that [login] or [register] sends afterwards carries
    the password the store held before anything was typed. *)
Theorem password_input_sets_username (inputs : list (LoginInput * JsVal)) :
  ∀ w, login_mounted (w_store w) →
  ∃ w', in_sequence (map (fun i => typed i.1 i.2) inputs) w = (Normal tt, w')
    ∧ login_mounted (w_store w')
    ∧ field (redux.getState (w_store w')) "login" "username"
      = default (field (redux.getState (w_store w)) "login" "username")
          (last (map snd inputs))
    ∧ (∀ s f, (s, f) ≠ ("login", "username") →
         field (redux.getState (w_store w')) s f
         = field (redux.getState (w_store w)) s f)
    ∧ w_trace w'
      = (w_trace w ++ map (fun i => EvDispatch (loginAction_js.setUsername i.2)) inputs)%list
    ∧ ∀ baseUrl x,
        req_body (exchange_request baseUrl x w')
        = obj [("username", default (field (redux.getState (w_store w)) "login" "username")
                              (last (map snd inputs)));
               ("password", field (redux.getState (w_store w)) "login" "password")].
Proof.
  intros w Hm. destruct (typing_run inputs w Hm) as (w' & Hrun & Hm' & Hu & Hframe & Htr).
  exists w'. repeat (split; [done|]).
  intros baseUrl x. unfold exchange_request. cbn [req_body].
  rewrite Hu, Hframe by done. reflexivity.
Qed.

Lemma password_input_sets_username_witness :
  ∃ w', in_sequence [typed UsernameInput (JStr "ann"); typed PasswordInput (JStr "s3cret")]
          (initial_world (redux.mkStore configureStore_js.rootReducer
                            (obj [("login", loginReducer_js.initialState)])))
        = (Normal tt, w')
    ∧ field (redux.getState (w_store w')) "login" "username" = JStr "s3cret"
    ∧ field (redux.getState (w_store w')) "login" "password" = JUndefined
    ∧ req_body (exchange_request "http://localhost:8081/api" LogIn w')
      = obj [("username", JStr "s3cret"); ("password", JUndefined)].
Proof.
  destruct (password_input_sets_username
              [(UsernameInput, JStr "ann"); (PasswordInput, JStr "s3cret")]
              (initial_world (redux.mkStore configureStore_js.rootReducer
                                (obj [("login", loginReducer_js.initialState)]))))
    as (w' & Hrun & _ & Hu & Hframe & _ & Hreq).
  - left. split; [reflexivity|]. by eexists.
  - exists w'. split; [exact Hrun|]. split; [exact Hu|].
    split; [rewrite Hframe by done; reflexivity|].
    rewrite Hreq. reflexivity.
Defined.

Lemma unguarded_read_run w f :
  login_mounted (w_store w) →
  unguarded_read "login" f w
  = (Normal (field (redux.getState (w_store w)) "login" f), w).
Proof.
  intros Hm. destruct (login_mounted_login _ Hm) as (l & Hl).
  destruct (login_mounted_state _ Hm) as (m & Hs).
  unfold unguarded_read, props_of. rewrite Hs in Hl |- *. cbn [own_props] in Hl |- *.
  rewrite field_own_props. cbn [get_prop]. rewrite Hl. reflexivity.
Qed.

(** The [LOGIN] dispatch of the login form. *)
Lemma loginUser_run w username accessId :
  login_mounted (w_store w) →
  ∃ st', Login_js.loginUser username accessId w
         = (Normal tt,
            set_store st'
              (log_events [EvDispatch (loginAction_js.loginSuccess username accessId)]
                 (w_issued w) w))
    ∧ login_mounted st'
    ∧ field (redux.getState st') "login" "accessId" = accessId
    ∧ field (redux.getState st') "login" "username" = username
    ∧ ∀ s f, (s, f) ≠ ("login", "accessId") → (s, f) ≠ ("login", "username") →
        field (redux.getState st') s f = field (redux.getState (w_store w)) s f.
Proof.
  intros Hm. destruct (login_mounted_login _ Hm) as (l & Hl).
  assert (Hy : (list_to_map
                  [("type", JStr constants.LOGIN_SUCCESS);
                   ("payload", obj [("username", username); ("accessId", accessId)])]
                  : gmap string JsVal) !! "type" = Some (JStr constants.LOGIN_SUCCESS))
    by reflexivity.
  destruct (dispatch_login (w_store w) _ constants.LOGIN_SUCCESS l
              (<["username" := username]> (<["accessId" := accessId]> l))
              Hm Hy eq_refl eq_refl Hl eq_refl) as (st' & Hd & Hm' & Hl' & Hframe).
  exists st'. split.
  { unfold Login_js.loginUser, dispatch, loginAction_js.loginSuccess.
    unfold obj at 1. by rewrite Hd. }
  split; [done|].
  destruct (login_mounted_state _ Hm) as (m & Hs).
  destruct (login_mounted_state _ Hm') as (m' & Hs').
  rewrite Hs in Hl, Hframe |- *. rewrite Hs' in Hl', Hframe |- *.
  cbn [own_props] in Hl, Hl', Hframe. rewrite !field_own_props.
  split; [|split].
  - rewrite Hl'. by rewrite lookup_insert_ne, lookup_insert_eq.
  - rewrite Hl'. by rewrite lookup_insert_eq.
  - intros s f Ha Hu. rewrite !field_own_props.
    destruct (decide (s = "login")) as [->|Hne].
    + rewrite Hl', Hl. assert (f ≠ "username") by congruence.
      assert (f ≠ "accessId") by congruence.
      by rewrite !lookup_insert_ne.
    + by rewrite Hframe.
Qed.

Lemma exchange_run baseUrl network x w :
  login_mounted (w_store w) →
  exchange baseUrl network x w
  = (let rq := exchange_request baseUrl x w in
     let o := network (w_issued w) rq in
     let w1 := log_events [EvRequest rq; EvResponse o] (S (w_issued w)) w in
     match o with
     | Rejected e => (Throw e, w1)
     | Resolved r =>
         match resp_json r ≫= (fun body => get_prop body "access_id") with
         | Throw e => (Throw e, w1)
         | Normal access_id =>
             let body := match resp_json r with Normal b => b | Throw _ => JUndefined end in
             let token := match get_prop body "access_token" with
                          | Normal t => t | Throw _ => JUndefined end in
             if is_undefined access_id
             then (Normal (token, Some "Invalid Registration"), w1)
             else
               match Login_js.loginUser
                       (field (redux.getState (w_store w)) "login" "username")
                       access_id w1 with
               | (Normal _, w2) => (Normal (token, None), w2)
               | (Throw e, w2) => (Throw e, w2)
               end
         end
     end).
Proof.
  intros Hm.
  destruct x; unfold exchange, Login_js.login, Login_js.register;
    (rewrite bind_run, unguarded_read_run by done;
     rewrite bind_run, unguarded_read_run by done;
     rewrite bind_run; unfold fetch;
     match goal with
     | |- context [mkRequest (baseUrl +:+ "/user/login") _] =>
         fold (exchange_request baseUrl LogIn w);
         generalize (exchange_request baseUrl LogIn w)
     | |- context [mkRequest (baseUrl +:+ "/user/register") _] =>
         fold (exchange_request baseUrl SignUp w);
         generalize (exchange_request baseUrl SignUp w)
     end; intros rq;
     cbv zeta; destruct (network (w_issued w) rq) as [r|e]; [|done];
     rewrite bind_run; unfold eval at 1;
     destruct (resp_json r) as [body|e]; [|done];
     rewrite bind_run; unfold eval at 1; cbn [mbind Completion_bind];
     destruct (get_prop body "access_id") as [a|e] eqn:Ha; [|done];
     assert (Hbody : ∀ k, get_prop body k
                          = Normal (match get_prop body k with
                                    | Normal t => t | Throw _ => JUndefined end))
       by (intros k; destruct body; done);
     rewrite bind_run; destruct (is_undefined a); cbn [negb];
     [ rewrite bind_run; unfold eval at 1; rewrite (Hbody "errorMsg");
       unfold mret, M_ret; rewrite bind_run; unfold eval;
       by rewrite (Hbody "access_token")
     | rewrite bind_run, unguarded_read_run by done;
       rewrite bind_run; unfold eval at 1; rewrite bind_run;
       destruct (Login_js.loginUser _ a _) as [[[]|e] w2]; [|done];
       unfold mret, M_ret; rewrite bind_run; unfold eval;
       by rewrite (Hbody "access_token") ]).
Qed.

Lemma App_render_field st :
  login_mounted st →
  App_js.render (App_js.mapStateToProps (redux.getState st))
  = Normal (if is_undefined (field (redux.getState st) "login" "accessId")
            then App_js.Login else App_js.Wrapper).
Proof.
  intros Hm. destruct (login_mounted_login _ Hm) as (l & Hl).
  destruct (login_mounted_state _ Hm) as (m & Hs).
  rewrite Hs in Hl |- *. cbn [own_props] in Hl.
  unfold App_js.render, App_js.mapStateToProps. rewrite field_own_props.
  cbn [own_props get_prop mbind Completion_bind]. rewrite Hl.
  cbn [default from_option id get_prop mbind Completion_bind].
  by destruct (is_undefined _).
Qed.

Lemma prop_path_login w f :
  login_mounted (w_store w) →
  prop_path w "login" f = field (redux.getState (w_store w)) "login" f.
Proof.
  intros Hm. destruct (login_mounted_login _ Hm) as (l & Hl).
  destruct (login_mounted_state _ Hm) as (m & Hs).
  unfold prop_path, read_path, props_of. rewrite Hs in Hl |- *.
  cbn [own_props] in Hl |- *. rewrite field_own_props.
  cbn [get_prop mbind Completion_bind]. by rewrite Hl.
Qed.

Lemma is_undefined_false v : v ≠ JUndefined → is_undefined v = false.
Proof. by destruct v. Qed.

(** X7. [login] and [register] never look at the status of the
    response.  Whenever the body of the response, whatever its status,
    is an object whose [access_id] is not [undefined], the method
    dispatches one [LOGIN] action with the username of the store and
    that [access_id], resolves to [body.access_token] without calling
    [alert], and leaves a store on which [App] renders the routed pages;
    every field but [login.accessId] is as before. *)
Theorem exchange_accepts_any_status baseUrl network x w r body access_id :
  login_mounted (w_store w) →
  network (w_issued w) (exchange_request baseUrl x w) = Resolved r →
  resp_json r = Normal body →
  get_prop body "access_id" = Normal access_id →
  access_id ≠ JUndefined →
  ∃ w' token,
    exchange baseUrl network x w = (Normal (token, None), w')
    ∧ get_prop body "access_token" = Normal token
    ∧ field (redux.getState (w_store w')) "login" "accessId" = access_id
    ∧ (∀ s f, (s, f) ≠ ("login", "accessId") →
         field (redux.getState (w_store w')) s f
         = field (redux.getState (w_store w)) s f)
    ∧ w_trace w'
      = (w_trace w
         ++ [EvRequest (exchange_request baseUrl x w);
             EvResponse (Resolved r);
             EvDispatch (loginAction_js.loginSuccess
                           (field (redux.getState (w_store w)) "login" "username")
                           access_id)])%list
    ∧ App_js.render (App_js.mapStateToProps (redux.getState (w_store w')))
      = Normal App_js.Wrapper.
Proof.
  intros Hm Hnet Hjson Ha Hdef.
  rewrite exchange_run by done. cbv zeta. rewrite Hnet, Hjson.
  cbn [mbind Completion_bind]. rewrite Ha, (is_undefined_false _ Hdef).
  set (w1 := log_events _ _ w).
  destruct (loginUser_run w1 (field (redux.getState (w_store w)) "login" "username")
              access_id Hm) as (st' & Hrun & Hm' & Hacc & Hu & Hframe).
  rewrite Hrun. eexists _, _. split; [reflexivity|].
  split; [by destruct body|].
  cbn [set_store w_store w_trace log_events w1].
  split; [done|]. split; [|split].
  - intros s f Hsf. destruct (decide ((s, f) = ("login", "username"))) as [[= -> ->]|Hne].
    + by rewrite Hu.
    + by rewrite Hframe.
  - by rewrite <- app_assoc.
  - rewrite App_render_field by done. by rewrite Hacc, (is_undefined_false _ Hdef).
Qed.

Lemma exchange_accepts_any_status_witness :
  ∃ w', exchange "http://localhost:8081/api"
          (answering 401 (obj [("access_id", JNull); ("errorMsg", JStr "bad password")]))
          LogIn fresh_world
        = (Normal (JUndefined, None), w')
    ∧ field (redux.getState (w_store w')) "login" "accessId" = JNull
    ∧ App_js.render (App_js.mapStateToProps (redux.getState (w_store w')))
      = Normal App_js.Wrapper.
Proof.
  destruct (exchange_accepts_any_status "http://localhost:8081/api"
              (answering 401 (obj [("access_id", JNull); ("errorMsg", JStr "bad password")]))
              LogIn fresh_world
              (mkResponse 401 ""
                 (Normal (obj [("access_id", JNull); ("errorMsg", JStr "bad password")])))
              (obj [("access_id", JNull); ("errorMsg", JStr "bad password")]) JNull)
    as (w' & token & Hrun & Htoken & Hacc & _ & _ & Hview).
  - left. split; [reflexivity|]. by eexists.
  - reflexivity.
  - reflexivity.
  - reflexivity.
  - discriminate.
  - exists w'. injection Htoken as <-. split; [exact Hrun|]. split; [exact Hacc|exact Hview].
Defined.

(** X8. When the body of the response is an object without an
    [access_id] (or with [access_id: undefined]), [login] and [register]
    call [alert] with the fixed message "Invalid Registration" (the
    [errorMsg] of the body is read but is no part of the message),
    dispatch nothing, and still resolve to [body.access_token]. *)
Theorem exchange_denied_alerts baseUrl network x w r body :
  login_mounted (w_store w) →
  network (w_issued w) (exchange_request baseUrl x w) = Resolved r →
  resp_json r = Normal body →
  get_prop body "access_id" = Normal JUndefined →
  ∃ token,
    get_prop body "access_token" = Normal token
    ∧ exchange baseUrl network x w
      = (Normal (token, Some "Invalid Registration"),
         log_events [EvRequest (exchange_request baseUrl x w); EvResponse (Resolved r)]
           (S (w_issued w)) w).
Proof.
  intros Hm Hnet Hjson Ha.
  rewrite exchange_run by done. cbv zeta. rewrite Hnet, Hjson.
  cbn [mbind Completion_bind]. rewrite Ha. cbn [is_undefined].
  eexists. split; [|reflexivity]. by destruct body.
Qed.

Lemma exchange_denied_alerts_witness :
  exchange "http://localhost:8081/api"
    (answering 200 (obj [("errorMsg", JStr "user exists"); ("access_token", JStr "t-9")]))
    SignUp fresh_world
  = (Normal (JStr "t-9", Some "Invalid Registration"),
     log_events
       [EvRequest (exchange_request "http://localhost:8081/api" SignUp fresh_world);
        EvResponse
          (Resolved
             (mkResponse 200 ""
                (Normal (obj [("errorMsg", JStr "user exists");
                              ("access_token", JStr "t-9")]))))]
       1 fresh_world).
Proof.
  destruct (exchange_denied_alerts "http://localhost:8081/api"
              (answering 200 (obj [("errorMsg", JStr "user exists");
                                   ("access_token", JStr "t-9")]))
              SignUp fresh_world
              (mkResponse 200 ""
                 (Normal (obj [("errorMsg", JStr "user exists");
                               ("access_token", JStr "t-9")])))
              (obj [("errorMsg", JStr "user exists"); ("access_token", JStr "t-9")]))
    as (token & Htoken & Hrun).
  - left. split; [reflexivity|]. by eexists.
  - reflexivity.
  - reflexivity.
  - reflexivity.
  - injection Htoken as <-. exact Hrun.
Defined.

(** X9. [login] and [register] have no exception handler: when the
    request is rejected, when the body of the response is not JSON, or
    when the body is [null], the method rejects with that very error
    after the one request; nothing is dispatched, the store and the
    component state are untouched (the user is told nothing). *)
Theorem exchange_failure_propagates baseUrl network x w e :
  login_mounted (w_store w) →
  network (w_issued w) (exchange_request baseUrl x w) = Rejected e
  ∨ (∃ r, network (w_issued w) (exchange_request baseUrl x w) = Resolved r
          ∧ (resp_json r ≫= (fun body => get_prop body "access_id")) = Throw e) →
  exchange baseUrl network x w
  = (Throw e,
     log_events [EvRequest (exchange_request baseUrl x w);
                 EvResponse (network (w_issued w) (exchange_request baseUrl x w))]
       (S (w_issued w)) w).
Proof.
  intros Hm H. rewrite exchange_run by done. cbv zeta.
  destruct H as [Hnet|(r & Hnet & Hbody)]; rewrite Hnet; [done|].
  by rewrite Hbody.
Qed.

Lemma exchange_failure_propagates_witness :
  exchange "http://localhost:8081/api" unreachable_backend LogIn fresh_world
  = (Throw (mkErr "TypeError" "Failed to fetch"),
     log_events
       [EvRequest (exchange_request "http://localhost:8081/api" LogIn fresh_world);
        EvResponse (Rejected (mkErr "TypeError" "Failed to fetch"))]
       1 fresh_world)
  ∧ ∃ e, exchange "http://localhost:8081/api" (answering 200 JNull) LogIn fresh_world
         = (Throw e,
            log_events
              [EvRequest (exchange_request "http://localhost:8081/api" LogIn fresh_world);
               EvResponse (Resolved (mkResponse 200 "" (Normal JNull)))]
              1 fresh_world).
Proof.
  split.
  - apply (exchange_failure_propagates "http://localhost:8081/api" unreachable_backend
             LogIn fresh_world).
    + left. split; [reflexivity|]. by eexists.
    + left. reflexivity.
  - eexists.
    apply (exchange_failure_propagates "http://localhost:8081/api" (answering 200 JNull)
             LogIn fresh_world).
    + left. split; [reflexivity|]. by eexists.
    + right. eexists. split; reflexivity.
Defined.

Lemma createList_without_token baseUrl network w :
  truthy (prop_path w "login" "accessId") = false →
  Lists_js.createList baseUrl network w
  = (Normal tt, set_lastError (Some "You must be logged in to create a list.") w).
Proof.
  intros Hfalsy. unfold Lists_js.createList, try_catch.
  rewrite bind_run. unfold setState_lastError at 1.
  rewrite bind_run, guarded_read_run, bind_run, guarded_read_run.
  rewrite (prop_path_store _ w) by done. by rewrite Hfalsy.
Qed.

Lemma createTask_without_token baseUrl network w :
  truthy (prop_path w "login" "accessId") = false →
  Tasks_js.createTask baseUrl network w
  = (Normal tt, set_lastError (Some "You must be logged in to create a task.") w).
Proof.
  intros Hfalsy. unfold Tasks_js.createTask, try_catch.
  rewrite bind_run. unfold setState_lastError at 1.
  rewrite bind_run, guarded_read_run, bind_run, guarded_read_run,
    bind_run, guarded_read_run.
  rewrite (prop_path_store _ w) by done. by rewrite Hfalsy.
Qed.

(** X10. [App] and the create operations disagree on what a session
    is.  When a login is answered with an [access_id] that is defined
    but falsy ([null], the empty string, [0], [false]), the store after
    it makes [App] render the routed pages, and on that store both
    [createList] and [createTask] refuse to send anything, whatever the
    backend, with "You must be logged in ...". *)
Theorem falsy_token_passes_gate_but_blocks_create baseUrl network x w r body access_id :
  login_mounted (w_store w) →
  network (w_issued w) (exchange_request baseUrl x w) = Resolved r →
  resp_json r = Normal body →
  get_prop body "access_id" = Normal access_id →
  access_id ≠ JUndefined →
  truthy access_id = false →
  ∃ w' token,
    exchange baseUrl network x w = (Normal (token, None), w')
    ∧ App_js.render (App_js.mapStateToProps (redux.getState (w_store w')))
      = Normal App_js.Wrapper
    ∧ ∀ network',
        Lists_js.createList baseUrl network' w'
        = (Normal tt, set_lastError (Some "You must be logged in to create a list.") w')
        ∧ Tasks_js.createTask baseUrl network' w'
          = (Normal tt, set_lastError (Some "You must be logged in to create a task.") w').
Proof.
  intros Hm Hnet Hjson Ha Hdef Hfalsy.
  rewrite exchange_run by done. cbv zeta. rewrite Hnet, Hjson.
  cbn [mbind Completion_bind]. rewrite Ha, (is_undefined_false _ Hdef).
  set (w1 := log_events _ _ w).
  destruct (loginUser_run w1 (field (redux.getState (w_store w)) "login" "username")
              access_id Hm) as (st' & Hrun & Hm' & Hacc & _).
  rewrite Hrun. eexists _, _. split; [reflexivity|].
  set (w' := set_store st' _).
  assert (Hm'' : login_mounted (w_store w')) by done.
  split.
  - rewrite App_render_field by done.
    change (w_store w') with st'. by rewrite Hacc, (is_undefined_false _ Hdef).
  - intros network'.
    assert (Hp : truthy (prop_path w' "login" "accessId") = false).
    { rewrite prop_path_login by done. change (w_store w') with st'. by rewrite Hacc. }
    split; [by apply createList_without_token|by apply createTask_without_token].
Qed.

Lemma falsy_token_passes_gate_but_blocks_create_witness :
  ∃ w' token,
    exchange "http://localhost:8081/api"
      (answering 200 (obj [("access_id", JStr ""); ("access_token", JStr "t-1")]))
      LogIn fresh_world
    = (Normal (token, None), w')
    ∧ App_js.render (App_js.mapStateToProps (redux.getState (w_store w')))
      = Normal App_js.Wrapper
    ∧ Lists_js.createList "http://localhost:8081/api" unreachable_backend w'
      = (Normal tt, set_lastError (Some "You must be logged in to create a list.") w').
Proof.
  destruct (falsy_token_passes_gate_but_blocks_create "http://localhost:8081/api"
              (answering 200 (obj [("access_id", JStr ""); ("access_token", JStr "t-1")]))
              LogIn fresh_world
              (mkResponse 200 ""
                 (Normal (obj [("access_id", JStr ""); ("access_token", JStr "t-1")])))
              (obj [("access_id", JStr ""); ("access_token", JStr "t-1")]) (JStr ""))
    as (w' & token & Hrun & Hview & Hcreate).
  - left. split; [reflexivity|]. by eexists.
  - reflexivity.
  - reflexivity.
  - reflexivity.
  - discriminate.
  - reflexivity.
  - exists w', token. split; [exact Hrun|].
    split; [exact Hview|]. apply (Hcreate unreachable_backend).
Defined.

(** ** Exceptions and requests of the operations, in any world *)

Lemma settles_try_catch {A} (body : M A) handler :
  (∀ e, settles (handler e)) → settles (try_catch body handler).
Proof.
  intros Hh w. unfold try_catch. destruct (body w) as [[a|e] w'].
  - by eexists _, _.
  - apply Hh.
Qed.

Lemma settles_setState_lastError e : settles (setState_lastError e).
Proof. intros w. by eexists _, _. Qed.

Lemma settles_ret {A} (a : A) : settles (mret a : M A).
Proof. intros w. by eexists _, _. Qed.

Lemma requests_app tr1 tr2 : requests (tr1 ++ tr2) = (requests tr1 ++ requests tr2)%list.
Proof. unfold requests. apply omap_app. Qed.

Lemma issues_weaken {A} lo hi lo' hi' (m : M A) :
  issues lo hi m → (lo' ≤ lo)%nat → (hi ≤ hi')%nat → issues lo' hi' m.
Proof.
  intros H Hlo Hhi w. destruct (H w) as (evs & Htr & Hn). exists evs. split; [done|lia].
Qed.

Lemma issues_pure {A} (m : M A) :
  (∀ w, w_trace (m w).2 = w_trace w) → issues 0 0 m.
Proof. intros H w. exists []. rewrite H, app_nil_r. split; [done|simpl; lia]. Qed.

Lemma issues_ret {A} (a : A) : issues 0 0 (mret a : M A).
Proof. by apply issues_pure. Qed.

Lemma issues_eval {A} (c : Completion A) : issues 0 0 (eval c).
Proof. by apply issues_pure. Qed.

Lemma issues_guarded_read a b : issues 0 0 (guarded_read a b).
Proof. by apply issues_pure. Qed.

Lemma issues_setState_lastError e : issues 0 0 (setState_lastError e).
Proof. by apply issues_pure. Qed.

Lemma issues_showToast message type duration : issues 0 0 (showToast message type duration).
Proof. apply issues_pure. intros w. apply toasted_frame. Qed.

Lemma issues_dispatch action : issues 0 0 (dispatch action).
Proof.
  intros w. exists [EvDispatch action]. split; [|simpl; lia].
  unfold dispatch. by destruct (redux.dispatch _ _).
Qed.

Lemma issues_fetch network url body : issues 1 1 (fetch network url body).
Proof.
  intros w.
  exists [EvRequest (mkRequest url body);
          EvResponse (network (w_issued w) (mkRequest url body))].
  split; [|simpl; lia].
  unfold fetch. cbv zeta. by destruct (network _ _).
Qed.

Lemma issues_bind {A B} lo hi lo' hi' (m : M A) (k : A → M B) :
  issues lo hi m → (∀ a, issues lo' hi' (k a)) → issues lo (hi + hi') (m ≫= k).
Proof.
  intros Hm Hk w. rewrite bind_run. destruct (Hm w) as (evs & Htr & Hn).
  destruct (m w) as [[a|e] w1]; cbn [snd] in *.
  - destruct (Hk a w1) as (evs' & Htr' & Hn'). exists (evs ++ evs')%list.
    rewrite Htr', Htr, <- app_assoc. split; [done|].
    rewrite requests_app, length_app. lia.
  - exists evs. split; [done|lia].
Qed.

Lemma issues_bind_settled {A B} lo hi lo' hi' (m : M A) (k : A → M B) :
  settles m →
  issues lo hi m → (∀ a, issues lo' hi' (k a)) → issues (lo + lo') (hi + hi') (m ≫= k).
Proof.
  intros Hs Hm Hk w. rewrite bind_run. destruct (Hm w) as (evs & Htr & Hn).
  destruct (Hs w) as (a & w1 & Hrun). rewrite Hrun in Htr |- *. cbn [snd] in *.
  destruct (Hk a w1) as (evs' & Htr' & Hn'). exists (evs ++ evs')%list.
  rewrite Htr', Htr, <- app_assoc. split; [done|].
  rewrite requests_app, length_app. lia.
Qed.

Lemma issues_try_catch {A} lo hi lo' hi' (body : M A) handler :
  issues lo hi body → (∀ e, issues lo' hi' (handler e)) →
  issues lo (hi + hi') (try_catch body handler).
Proof.
  intros Hm Hk w. unfold try_catch. destruct (Hm w) as (evs & Htr & Hn).
  destruct (body w) as [[a|e] w1]; cbn [snd] in *.
  - exists evs. split; [done|lia].
  - destruct (Hk e w1) as (evs' & Htr' & Hn'). exists (evs ++ evs')%list.
    rewrite Htr', Htr, <- app_assoc. split; [done|].
    rewrite requests_app, length_app. lia.
Qed.

Lemma issues_if {A} lo1 hi1 lo2 hi2 (b : bool) (m1 m2 : M A) :
  issues lo1 hi1 m1 → issues lo2 hi2 m2 →
  issues (Nat.min lo1 lo2) (Nat.max hi1 hi2) (if b then m1 else m2).
Proof.
  intros H1 H2.
  destruct b; [eapply issues_weaken; [exact H1|..]|eapply issues_weaken; [exact H2|..]]; lia.
Qed.

Lemma issues_detached {A} lo hi (m : M A) : issues lo hi m → issues lo hi (detached m).
Proof. intros H w. exact (H w). Qed.

Lemma settles_guarded_read a b : settles (guarded_read a b).
Proof. intros w. rewrite guarded_read_run. by eexists _, _. Qed.

Lemma settles_showToast message type duration : settles (showToast message type duration).
Proof. intros w. by eexists _, _. Qed.

(** Bounds of a piece of component code, read off its structure. *)
Ltac bounds :=
  cbv zeta;
  lazymatch goal with
  | |- issues _ _ (guarded_read _ _ ≫= _) =>
      eapply issues_bind_settled;
      [apply settles_guarded_read|apply issues_guarded_read|intros ?; bounds]
  | |- issues _ _ (setState_lastError _ ≫= _) =>
      eapply issues_bind_settled;
      [apply settles_setState_lastError|apply issues_setState_lastError|intros ?; bounds]
  | |- issues _ _ (showToast _ _ _ ≫= _) =>
      eapply issues_bind_settled;
      [apply settles_showToast|apply issues_showToast|intros ?; bounds]
  | |- issues _ _ (_ ≫= _) => eapply issues_bind; [bounds|intros ?; bounds]
  | |- issues _ _ (try_catch _ _) => eapply issues_try_catch; [bounds|intros ?; bounds]
  | |- issues _ _ (if _ then _ else _) => eapply issues_if; [bounds|bounds]
  | |- issues _ _ (detached _) => eapply issues_detached; bounds
  | |- issues _ _ (fetch _ _ _) => apply issues_fetch
  | |- issues _ _ (dispatch _) => apply issues_dispatch
  | |- issues _ _ (eval _) => apply issues_eval
  | |- issues _ _ (guarded_read _ _) => apply issues_guarded_read
  | |- issues _ _ (setState_lastError _) => apply issues_setState_lastError
  | |- issues _ _ (showToast _ _ _) => apply issues_showToast
  | |- issues _ _ (mret _) => apply issues_ret
  | |- issues _ _ ?m => let h := head_of m in unfold h; bounds
  end
with head_of m :=
  lazymatch m with
  | ?f _ => head_of f
  | ?f => f
  end.

Ltac within := eapply issues_weaken; [bounds|simpl; lia|simpl; lia].

(** X11. No exception leaves [createList], [deleteList], [createTask],
    [deleteTask] or [switchTaskIsDone]: in every world, against every
    backend and on every store (one whose reducer throws included), the
    promise of the operation resolves. *)
Theorem operations_never_reject baseUrl network :
  settles (Lists_js.createList baseUrl network)
  ∧ (∀ id, settles (Lists_js.deleteList baseUrl network id))
  ∧ settles (Tasks_js.createTask baseUrl network)
  ∧ (∀ id, settles (Tasks_js.deleteTask baseUrl network id))
  ∧ (∀ id is_done, settles (Tasks_js.switchTaskIsDone baseUrl network id is_done)).
Proof.
  repeat split; intros;
    apply settles_try_catch; intros e;
    first [apply settles_setState_lastError | apply settles_ret].
Qed.

(** X12. How many requests an operation sends, in every world and
    against every backend: each of the three loads sends exactly one;
    a delete and the update of a task send one or two (the request and,
    unless it throws, one reload); a create sends none (validation) to
    two; opening a form sends none.  Nothing of the history before the
    operation is changed. *)
Theorem request_bounds baseUrl network :
  issues 1 1 (Lists_js.loadLists baseUrl network)
  ∧ (∀ listName id, issues 1 1 (Lists_js.loadTasks baseUrl network listName id))
  ∧ (∀ id, issues 1 1 (Tasks_js.loadTasks baseUrl network id))
  ∧ (∀ id, issues 1 2 (Lists_js.deleteList baseUrl network id))
  ∧ (∀ id, issues 1 2 (Tasks_js.deleteTask baseUrl network id))
  ∧ (∀ id is_done, issues 1 2 (Tasks_js.switchTaskIsDone baseUrl network id is_done))
  ∧ issues 0 2 (Lists_js.createList baseUrl network)
  ∧ issues 0 2 (Tasks_js.createTask baseUrl network)
  ∧ issues 0 0 Lists_js.openAddListForm
  ∧ issues 0 0 Tasks_js.openAddTaskForm.
Proof. repeat split; intros; within. Qed.

(** ** Deleting and updating *)

Lemma thrown_by_none o :
  thrown_by o = None →
  ∃ r, o = Resolved r ∧ (resp_ok r = false ∨ resp_ok r = true ∧ ∃ body, resp_json r = Normal body).
Proof.
  destruct o as [r|e]; [|done]. simpl. intros H. exists r. split; [done|].
  destruct (resp_ok r); [|by left]. right. split; [done|].
  destruct (resp_json r); [by eexists|done].
Qed.

(** X13. [deleteList] reloads the lists after a refused delete as after
    an accepted one.  When the delete request is answered with a status
    outside 200-299, the operation shows "Delete failed: ..." as a toast
    and as banner, then sends exactly one load-lists request and stores
    its sequence; the banner of the refusal stays only if that load is
    answered successfully with JSON, otherwise the message of the load
    replaces it. *)
Theorem refused_delete_reloads baseUrl network w id r :
  three_slices (w_store w) →
  network (w_issued w) (delete_list_request baseUrl w id) = Resolved r →
  resp_ok r = false →
  ∃ w', Lists_js.deleteList baseUrl network id w = (Normal tt, w')
    ∧ w_trace w'
      = (w_trace w
        ++ [EvRequest (delete_list_request baseUrl w id);
            EvResponse (Resolved r);
            EvRequest (list_request baseUrl w);
            EvResponse (network (S (w_issued w)) (list_request baseUrl w));
            EvDispatch (listAction_js.setLists
                          (loaded_sequence
                             (network (S (w_issued w)) (list_request baseUrl w))))])%list
    ∧ field (redux.getState (w_store w')) "lists" "list"
      = loaded_sequence (network (S (w_issued w)) (list_request baseUrl w))
    ∧ (∀ s' f', (s', f') ≠ ("lists", "list") →
         field (redux.getState (w_store w')) s' f'
         = field (redux.getState (w_store w)) s' f')
    ∧ w_toast w'
      = Some (mkToast ("Delete failed: " +:+ failure_text (resp_text r) r) "error")
    ∧ w_lastError w'
      = load_error "Load lists" (network (S (w_issued w)) (list_request baseUrl w))
          (Some ("Delete failed: " +:+ failure_text (resp_text r) r)).
Proof.
  intros H3 Hnet Hok.
  unfold Lists_js.deleteList, try_catch.
  rewrite bind_run, guarded_read_run, bind_run. unfold fetch.
  fold (delete_list_request baseUrl w id). rewrite Hnet, Hok. cbn [negb].
  rewrite !bind_run. unfold showToast, setState_lastError.
  match goal with |- context [toasted ?m ?t ?d ?w0] =>
    destruct (toasted_frame m t d w0) as (Hts & Htt & Hti & _ & Htoast)
  end.
  match goal with |- context [Lists_js.loadLists _ _ ?w1] =>
    destruct (loadLists_later baseUrl network w1 w (S (w_issued w)) H3)
      as (st' & Hrun & _ & Hf & Hframe);
    [cbn [w_store set_lastError]; by rewrite Hts
    |cbn [w_issued set_lastError]; by rewrite Hti|]
  end.
  rewrite Hrun. eexists. split; [reflexivity|].
  cbn [w_store w_trace w_toast w_lastError set_store set_lastError log_events].
  split; [|split; [|split; [|split]]].
  - rewrite Htt. cbn [w_trace log_events]. by rewrite <- app_assoc.
  - exact Hf.
  - exact Hframe.
  - exact Htoast.
  - reflexivity.
Qed.

Lemma refused_delete_reloads_witness :
  ∃ w', Lists_js.deleteList "http://localhost:8081/api" refusing_backend (JNum 1)
          (session (JStr "tok-1") (JStr "") (JStr "")) = (Normal tt, w')
    ∧ map req_url (requests (w_trace w'))
      = ["http://localhost:8081/api/list/delete"; "http://localhost:8081/api/list/list"]
    ∧ w_lastError w' = Some "Delete failed: boom".
Proof.
  destruct (refused_delete_reloads "http://localhost:8081/api" refusing_backend
              (session (JStr "tok-1") (JStr "") (JStr "")) (JNum 1)
              (mkResponse 500 "boom" (Normal (obj [("detail", JStr "boom")]))))
    as (w' & Hrun & Htr & _ & _ & _ & Herr).
  - apply session_three_slices.
  - reflexivity.
  - reflexivity.
  - exists w'. split; [exact Hrun|]. rewrite Htr, Herr. split; reflexivity.
Defined.

Ltac answered_task_change baseUrl network w H3 :=
  let Hts := fresh "Hts" in let Htt := fresh "Htt" in let Hti := fresh "Hti" in
  let Htoast := fresh "Htoast" in let st' := fresh "st'" in
  let Hrun := fresh "Hrun" in let Hf := fresh "Hf" in let Hframe := fresh "Hframe" in
  rewrite !bind_run; unfold eval, showToast, setState_lastError, detached;
  rewrite ?bind_run;
  match goal with |- context [toasted ?m ?t ?d ?w0] =>
    destruct (toasted_frame m t d w0) as (Hts & Htt & Hti & _ & Htoast)
  end;
  rewrite guarded_read_run;
  match goal with |- context [Tasks_js.loadTasks _ _ _ ?w1] =>
    rewrite (prop_path_store w1 w) by (cbn [w_store set_lastError]; by rewrite Hts);
    destruct (Tasks_loadTasks_later baseUrl network
                (prop_path w "tasks" "taskListId") w1 w (S (w_issued w)) H3)
      as (st' & Hrun & _ & Hf & Hframe);
    [cbn [w_store set_lastError]; by rewrite Hts
    |cbn [w_issued set_lastError]; by rewrite Hti|]
  end;
  rewrite Hrun; eexists; split; [reflexivity|];
  unfold tasks_reloaded;
  cbn [snd w_store w_trace w_toast w_lastError set_store set_lastError log_events];
  split; [|split; [|split; [|split]]];
  [ rewrite Htt; cbn [w_trace log_events]; by rewrite <- app_assoc
  | exact Hf | exact Hframe | exact Htoast | reflexivity ].

(** X14. [deleteTask] and [switchTaskIsDone] load the tasks of the
    selected list again whenever their request is answered, refused or
    not: after the answer (any status; on a 2xx status the body must be
    JSON) exactly one load-tasks request for [tasks.taskListId] follows,
    its sequence replaces [tasks.tasks], and nothing else in the store
    changes.  The toast tells the outcome, and the banner of a refusal
    stays unless the load fails too. *)
Theorem task_change_reloads baseUrl network w id is_done :
  three_slices (w_store w) →
  (thrown_by (network (w_issued w) (delete_task_request baseUrl w id)) = None →
   ∃ r,
     network (w_issued w) (delete_task_request baseUrl w id) = Resolved r
     ∧ ∃ w',
         Tasks_js.deleteTask baseUrl network id w = (Normal tt, w')
         ∧ tasks_reloaded baseUrl network w (delete_task_request baseUrl w id) r
             (answer_toast "Task deleted" "Delete" r) (answer_error "Delete" r) w')
  ∧ (thrown_by (network (w_issued w) (is_done_request baseUrl w id is_done)) = None →
     ∃ r,
       network (w_issued w) (is_done_request baseUrl w id is_done) = Resolved r
       ∧ ∃ w',
           Tasks_js.switchTaskIsDone baseUrl network id is_done w = (Normal tt, w')
           ∧ tasks_reloaded baseUrl network w (is_done_request baseUrl w id is_done) r
               (answer_toast "Task updated" "Update" r) (answer_error "Update" r) w').
Proof.
  intros H3. split; intros Hans;
    apply thrown_by_none in Hans as (r & Hnet & Hr); exists r; (split; [done|]);
    unfold Tasks_js.deleteTask, Tasks_js.switchTaskIsDone, try_catch;
    rewrite bind_run, guarded_read_run, bind_run; unfold fetch;
    [fold (delete_task_request baseUrl w id)
    |fold (is_done_request baseUrl w id is_done)];
    rewrite Hnet; unfold answer_toast, answer_error;
    (destruct Hr as [Hok|(Hok & body & Hjson)]; rewrite Hok; cbn [negb];
     [|rewrite !bind_run; unfold eval at 1; rewrite Hjson]);
    answered_task_change baseUrl network w H3.
Qed.

Lemma task_change_reloads_witness :
  ∃ w', Tasks_js.deleteTask "http://localhost:8081/api" refusing_backend (JNum 7)
          (session (JStr "tok-1") (JStr "") (JStr "")) = (Normal tt, w')
    ∧ map req_url (requests (w_trace w'))
      = ["http://localhost:8081/api/task/delete"; "http://localhost:8081/api/task/list"]
    ∧ w_toast w' = Some (mkToast "Delete failed: boom" "error")
    ∧ w_lastError w' = Some "Delete failed: boom".
Proof.
  destruct (task_change_reloads "http://localhost:8081/api" refusing_backend
              (session (JStr "tok-1") (JStr "") (JStr "")) (JNum 7) (JBool true))
    as (Hdelete & _).
  - apply session_three_slices.
  - destruct Hdelete as (r & Hr & w' & Hrun & Htr & _ & _ & Htoast & Herr).
    + reflexivity.
    + change (Resolved (mkResponse 500 "boom" (Normal (obj [("detail", JStr "boom")])))
              = Resolved r) in Hr.
      injection Hr as <-. exists w'. split; [exact Hrun|].
      rewrite Htr, Htoast, Herr. repeat split.
Defined.

Lemma thrown_by_some o e :
  thrown_by o = Some e →
  o = Rejected e ∨ ∃ r, o = Resolved r ∧ resp_ok r = true ∧ resp_json r = Throw e.
Proof.
  destruct o as [r|e']; simpl.
  - destruct (resp_ok r) eqn:Hok; [|done]. destruct (resp_json r) eqn:Hj; [done|].
    intros [= ->]. right. by exists r.
  - intros [= ->]. by left.
Qed.

(** X15. An exception while [deleteTask] or [switchTaskIsDone] awaits
    its answer (the request is rejected, or a 2xx response has a body
    that is not JSON) is swallowed: the operation resolves after its one
    request and leaves the store, the toast and the banner as they were,
    and no reload follows.  The same exception in [deleteList] is shown
    in the banner as "Delete exception: ...". *)
Theorem task_change_fails_silently baseUrl network w id is_done e :
  (thrown_by (network (w_issued w) (delete_task_request baseUrl w id)) = Some e →
   Tasks_js.deleteTask baseUrl network id w
   = (Normal tt,
      log_events [EvRequest (delete_task_request baseUrl w id);
                  EvResponse (network (w_issued w) (delete_task_request baseUrl w id))]
        (S (w_issued w)) w))
  ∧ (thrown_by (network (w_issued w) (is_done_request baseUrl w id is_done)) = Some e →
     Tasks_js.switchTaskIsDone baseUrl network id is_done w
     = (Normal tt,
        log_events [EvRequest (is_done_request baseUrl w id is_done);
                    EvResponse (network (w_issued w)
                                  (is_done_request baseUrl w id is_done))]
          (S (w_issued w)) w))
  ∧ (thrown_by (network (w_issued w) (delete_list_request baseUrl w id)) = Some e →
     Lists_js.deleteList baseUrl network id w
     = (Normal tt,
        set_lastError (Some ("Delete exception: " +:+ err_text e))
          (log_events [EvRequest (delete_list_request baseUrl w id);
                       EvResponse (network (w_issued w)
                                     (delete_list_request baseUrl w id))]
             (S (w_issued w)) w))).
Proof.
  split; [|split]; intros Hthrown;
    apply thrown_by_some in Hthrown as [Hnet|(r & Hnet & Hok & Hjson)];
    unfold Tasks_js.deleteTask, Tasks_js.switchTaskIsDone, Lists_js.deleteList, try_catch;
    rewrite bind_run, guarded_read_run, bind_run; unfold fetch;
    fold (delete_task_request baseUrl w id);
    fold (is_done_request baseUrl w id is_done);
    fold (delete_list_request baseUrl w id);
    rewrite Hnet; try done;
    rewrite Hok; cbn [negb]; rewrite !bind_run; unfold eval at 1; by rewrite Hjson.
Qed.

Lemma task_change_fails_silently_witness :
  Tasks_js.deleteTask "http://localhost:8081/api" terse_backend (JNum 7)
    (session (JStr "tok-1") (JStr "") (JStr ""))
  = (Normal tt,
     log_events
       [EvRequest (delete_task_request "http://localhost:8081/api"
                     (session (JStr "tok-1") (JStr "") (JStr "")) (JNum 7));
        EvResponse (terse_backend 0%nat
                      (delete_task_request "http://localhost:8081/api"
                         (session (JStr "tok-1") (JStr "") (JStr "")) (JNum 7)))]
       1 (session (JStr "tok-1") (JStr "") (JStr ""))).
Proof.
  destruct (task_change_fails_silently "http://localhost:8081/api" terse_backend
              (session (JStr "tok-1") (JStr "") (JStr "")) (JNum 7) (JBool true)
              (mkErr "SyntaxError" "Unexpected end of JSON input"))
    as (Hdelete & _).
  apply Hdelete. reflexivity.
Defined.

(** ** The store fields an operation may change *)

Lemma touches_weaken {A} (allowed allowed' : list (string * string)) (m : M A) :
  allowed ⊆ allowed' → touches_only allowed m → touches_only allowed' m.
Proof.
  intros Hsub H w H3. destruct (H w H3) as (H3' & Hframe). split; [done|].
  intros s f Hsf. apply Hframe. intros Hin. by apply Hsf, Hsub.
Qed.

Lemma touches_pure {A} allowed (m : M A) :
  (∀ w, w_store (m w).2 = w_store w) → touches_only allowed m.
Proof. intros H w H3. rewrite H. by split. Qed.

Lemma touches_bind {A B} allowed (m : M A) (k : A → M B) :
  touches_only allowed m → (∀ a, touches_only allowed (k a)) →
  touches_only allowed (m ≫= k).
Proof.
  intros Hm Hk w H3. rewrite bind_run. destruct (Hm w H3) as (H3' & Hframe).
  destruct (m w) as [[a|e] w1]; cbn [snd] in *; [|by split].
  destruct (Hk a w1 H3') as (H3'' & Hframe'). split; [done|].
  intros s f Hsf. rewrite Hframe' by done. by apply Hframe.
Qed.

Lemma touches_try_catch {A} allowed (body : M A) handler :
  touches_only allowed body → (∀ e, touches_only allowed (handler e)) →
  touches_only allowed (try_catch body handler).
Proof.
  intros Hm Hk w H3. unfold try_catch. destruct (Hm w H3) as (H3' & Hframe).
  destruct (body w) as [[a|e] w1]; cbn [snd] in *; [by split|].
  destruct (Hk e w1 H3') as (H3'' & Hframe'). split; [done|].
  intros s f Hsf. rewrite Hframe' by done. by apply Hframe.
Qed.

Lemma touches_if {A} allowed (b : bool) (m1 m2 : M A) :
  touches_only allowed m1 → touches_only allowed m2 →
  touches_only allowed (if b then m1 else m2).
Proof. by destruct b. Qed.

Lemma touches_detached {A} allowed (m : M A) :
  touches_only allowed m → touches_only allowed (detached m).
Proof. intros H w. exact (H w). Qed.

Lemma touches_fetch allowed network url body :
  touches_only allowed (fetch network url body).
Proof. apply touches_pure. intros w. unfold fetch. cbv zeta. by destruct (network _ _). Qed.

Lemma touches_showToast allowed message type duration :
  touches_only allowed (showToast message type duration).
Proof. apply touches_pure. intros w. apply toasted_frame. Qed.

Lemma touches_dispatch allowed sname sl ty f payload :
  (sname, sl) ∈ mounted →
  (ty, [f]) ∈ sl_cases sl →
  (sname, f) ∈ allowed →
  touches_only allowed (dispatch (obj [("type", JStr ty); ("payload", payload)])).
Proof.
  intros Hm Hcase Hin w H3.
  destruct (dispatch_run w sname sl ty f payload H3 Hm Hcase)
    as (st' & Hrun & H3' & _ & Hframe).
  rewrite Hrun. cbn [snd set_store w_store]. split; [done|].
  intros s f' Hsf. apply Hframe. intros [= -> ->]. by apply Hsf.
Qed.

Ltac member := repeat first [apply list_elem_of_here | apply list_elem_of_further].

(** The footprint of a piece of component code, read off its structure. *)
Ltac footprint :=
  cbv zeta;
  lazymatch goal with
  | |- touches_only _ (_ ≫= _) => apply touches_bind; [footprint|intros ?; footprint]
  | |- touches_only _ (try_catch _ _) =>
      apply touches_try_catch; [footprint|intros ?; footprint]
  | |- touches_only _ (if _ then _ else _) => apply touches_if; footprint
  | |- touches_only _ (detached _) => apply touches_detached; footprint
  | |- touches_only _ (fetch _ _ _) => apply touches_fetch
  | |- touches_only _ (showToast _ _ _) => apply touches_showToast
  | |- touches_only _ (dispatch _) =>
      unfold listAction_js.setLists, listAction_js.switchShowAddListForm,
        listAction_js.setCreateListName, listAction_js.setCreateListDescription,
        taskAction_js.setTasks, taskAction_js.setTaskListName,
        taskAction_js.setTaskListId, taskAction_js.switchShowAddTaskForm,
        taskAction_js.setCreateTaskName, taskAction_js.setCreateTaskDescription;
      first
        [ solve [eapply (touches_dispatch _ "lists" list_slice);
                 [member|cbn [sl_cases list_slice]; member|member]]
        | solve [eapply (touches_dispatch _ "tasks" task_slice);
                 [member|cbn [sl_cases task_slice]; member|member]] ]
  | |- touches_only _ (eval _) => by apply touches_pure
  | |- touches_only _ (guarded_read _ _) => by apply touches_pure
  | |- touches_only _ (setState_lastError _) => by apply touches_pure
  | |- touches_only _ (mret _) => by apply touches_pure
  | |- touches_only _ ?m => let h := head_of m in unfold h; footprint
  end.

(** X16. The footprint of every operation on the store.  On a store
    over the three slices, in every world and against every backend,
    each operation leaves such a store and changes at most: the
    collection it loads, for the loads, the deletes and the update of a
    task; the collection, the two inputs and the form flag of its own
    slice, for a create and for opening a form; the tasks and the
    selected list, for viewing the tasks of a list.  No operation
    touches the login slice, and no operation of one table changes the
    inputs or the form flag of the other. *)
Theorem operation_footprints baseUrl network :
  touches_only [("lists", "list")] (Lists_js.loadLists baseUrl network)
  ∧ (∀ id, touches_only [("lists", "list")] (Lists_js.deleteList baseUrl network id))
  ∧ touches_only [("lists", "list"); ("lists", "name"); ("lists", "description");
                  ("lists", "showAddList")]
      (Lists_js.createList baseUrl network)
  ∧ touches_only [("lists", "name"); ("lists", "description"); ("lists", "showAddList")]
      Lists_js.openAddListForm
  ∧ (∀ listName id,
       touches_only [("tasks", "tasks"); ("tasks", "taskListName"); ("tasks", "taskListId")]
         (Lists_js.loadTasks baseUrl network listName id))
  ∧ (∀ id, touches_only [("tasks", "tasks")] (Tasks_js.loadTasks baseUrl network id))
  ∧ (∀ id, touches_only [("tasks", "tasks")] (Tasks_js.deleteTask baseUrl network id))
  ∧ (∀ id is_done,
       touches_only [("tasks", "tasks")]
         (Tasks_js.switchTaskIsDone baseUrl network id is_done))
  ∧ touches_only [("tasks", "tasks"); ("tasks", "name"); ("tasks", "description");
                  ("tasks", "showAddTaskForm")]
      (Tasks_js.createTask baseUrl network)
  ∧ touches_only [("tasks", "name"); ("tasks", "description"); ("tasks", "showAddTaskForm")]
      Tasks_js.openAddTaskForm.
Proof. repeat apply conj; intros; footprint. Qed.

Lemma operation_footprints_witness :
  field (redux.getState
           (w_store (Lists_js.deleteList "http://localhost:8081/api" refusing_backend
                       (JNum 1) (session (JStr "tok-1") (JStr "groceries") (JStr ""))).2))
    "lists" "name"
  = JStr "groceries".
Proof.
  destruct (operation_footprints "http://localhost:8081/api" refusing_backend)
    as (_ & Hdelete & _).
  destruct (Hdelete (JNum 1) (session (JStr "tok-1") (JStr "groceries") (JStr "")))
    as (_ & Hframe).
  - apply session_three_slices.
  - rewrite Hframe; [reflexivity|].
    rewrite list_elem_of_singleton. discriminate.
Defined.

(** ** The dismissal of a toast *)

Lemma toast_pending_frame w w' :
  w_toast w' = w_toast w → w_timers w' = w_timers w → w_toastTimer w' = w_toastTimer w →
  toast_pending w → toast_pending w'.
Proof. unfold toast_pending. by intros -> -> ->. Qed.

Lemma toasted_pending message type duration w :
  toast_pending w →
  w_toast (toasted message type duration w) = Some (mkToast message type)
  ∧ w_timers (toasted message type duration w) = [(w_nextTimer w, duration)]
  ∧ w_toastTimer (toasted message type duration w) = Some (w_nextTimer w).
Proof.
  unfold toasted.
  intros [(Ht & Hts)|(h & d & Ht & Hts & Hh)].
  - destruct (w_toastTimer w);
      cbn [w_toast w_timers w_toastTimer w_nextTimer set_toast set_timers set_toastTimer];
      rewrite Hts; done.
  - rewrite Hh.
    cbn [w_toast w_timers w_toastTimer w_nextTimer set_toast set_timers set_toastTimer].
    rewrite Hts, filter_cons. cbn [fst]. by rewrite decide_False by (by intros []).
Qed.

Lemma keeps_pure {A} (m : M A) :
  (∀ w, w_toast (m w).2 = w_toast w ∧ w_timers (m w).2 = w_timers w
        ∧ w_toastTimer (m w).2 = w_toastTimer w) →
  keeps toast_pending m.
Proof. intros H w. destruct (H w) as (? & ? & ?). by apply toast_pending_frame. Qed.

Lemma keeps_bind {A B} P (m : M A) (k : A → M B) :
  keeps P m → (∀ a, keeps P (k a)) → keeps P (m ≫= k).
Proof.
  intros Hm Hk w HP. rewrite bind_run. specialize (Hm w HP).
  destruct (m w) as [[a|e] w1]; cbn [snd] in *; [by apply Hk|done].
Qed.

Lemma keeps_try_catch {A} P (body : M A) handler :
  keeps P body → (∀ e, keeps P (handler e)) → keeps P (try_catch body handler).
Proof.
  intros Hm Hk w HP. unfold try_catch. specialize (Hm w HP).
  destruct (body w) as [[a|e] w1]; cbn [snd] in *; [done|by apply Hk].
Qed.

Lemma keeps_if {A} P (b : bool) (m1 m2 : M A) :
  keeps P m1 → keeps P m2 → keeps P (if b then m1 else m2).
Proof. by destruct b. Qed.

Lemma keeps_detached {A} P (m : M A) : keeps P m → keeps P (detached m).
Proof. intros H w. exact (H w). Qed.

Lemma keeps_fetch network url body : keeps toast_pending (fetch network url body).
Proof. apply keeps_pure. intros w. unfold fetch. cbv zeta. by destruct (network _ _). Qed.

Lemma keeps_dispatch action : keeps toast_pending (dispatch action).
Proof. apply keeps_pure. intros w. unfold dispatch. by destruct (redux.dispatch _ _). Qed.

Lemma keeps_showToast message type duration :
  keeps toast_pending (showToast message type duration).
Proof.
  intros w HP. destruct (toasted_pending message type duration w HP) as (Ht & Hts & Hh).
  right. exists (w_nextTimer w), duration. cbn [showToast snd]. by rewrite Ht.
Qed.

(** The property survives a piece of component code, by its structure. *)
Ltac kept :=
  cbv zeta;
  lazymatch goal with
  | |- keeps _ (_ ≫= _) => apply keeps_bind; [kept|intros ?; kept]
  | |- keeps _ (try_catch _ _) => apply keeps_try_catch; [kept|intros ?; kept]
  | |- keeps _ (if _ then _ else _) => apply keeps_if; kept
  | |- keeps _ (detached _) => apply keeps_detached; kept
  | |- keeps _ (fetch _ _ _) => apply keeps_fetch
  | |- keeps _ (showToast _ _ _) => apply keeps_showToast
  | |- keeps _ (dispatch _) => apply keeps_dispatch
  | |- keeps _ (eval _) => by apply keeps_pure
  | |- keeps _ (guarded_read _ _) => by apply keeps_pure
  | |- keeps _ (setState_lastError _) => by apply keeps_pure
  | |- keeps _ (mret _) => by apply keeps_pure
  | |- keeps _ ?m => let h := head_of m in unfold h; kept
  end.

(** X17. The toast of the component state and its dismissal go
    together.  In the state the constructor leaves (no toast, no timer)
    and in every state reached from it by [showToast], by a pending
    timeout firing, and by the operations of the two components run as a
    whole, [this.state.toast] holds a toast exactly while one timeout is
    pending, and that timeout is the one scheduled with it: [showToast]
    on such a state leaves the new toast in the state with a single
    pending timeout of the new duration (the timeout of the toast it
    replaces is cancelled, so it cannot clear the new toast early), and
    a pending timeout that fires clears the toast and leaves no timeout
    behind.  Whether the toast of the state is rendered is another
    matter: [render] shows it in the branch of the open form only. *)
Theorem toast_has_one_dismissal baseUrl network :
  (∀ st, toast_pending (initial_world st))
  ∧ (∀ message type duration w,
       toast_pending w →
       w_toast (toasted message type duration w) = Some (mkToast message type)
       ∧ w_timers (toasted message type duration w) = [(w_nextTimer w, duration)]
       ∧ toast_pending (toasted message type duration w))
  ∧ (∀ h w,
       toast_pending w →
       toast_pending (timeout_fires h w)
       ∧ (h ∈ (w_timers w).*1 →
          w_toast (timeout_fires h w) = None ∧ w_timers (timeout_fires h w) = []))
  ∧ keeps toast_pending (Lists_js.loadLists baseUrl network)
  ∧ keeps toast_pending (Lists_js.createList baseUrl network)
  ∧ (∀ id, keeps toast_pending (Lists_js.deleteList baseUrl network id))
  ∧ (∀ listName id, keeps toast_pending (Lists_js.loadTasks baseUrl network listName id))
  ∧ keeps toast_pending Lists_js.openAddListForm
  ∧ keeps toast_pending clearError
  ∧ (∀ id, keeps toast_pending (Tasks_js.loadTasks baseUrl network id))
  ∧ keeps toast_pending (Tasks_js.createTask baseUrl network)
  ∧ (∀ id, keeps toast_pending (Tasks_js.deleteTask baseUrl network id))
  ∧ (∀ id is_done,
       keeps toast_pending (Tasks_js.switchTaskIsDone baseUrl network id is_done))
  ∧ keeps toast_pending Tasks_js.openAddTaskForm.
Proof.
  split; [by left|]. split.
  { intros message type duration w HP.
    destruct (toasted_pending message type duration w HP) as (Ht & Hts & Hh).
    split; [done|]. split; [done|].
    right. exists (w_nextTimer w), duration. by rewrite Ht. }
  split.
  { intros h w HP. unfold timeout_fires.
    destruct HP as [(Ht & Hts)|(h' & d & Ht & Hts & Hh)]; rewrite Hts, ?fmap_nil, ?fmap_cons; cbn [fst].
    - rewrite bool_decide_eq_false_2 by apply not_elem_of_nil.
      split; [by left|]. by intros ?%not_elem_of_nil.
    - destruct (decide (h = h')) as [->|Hne].
      + rewrite bool_decide_eq_true_2 by apply list_elem_of_here.
        cbn [w_toast w_timers set_toast set_timers].
        rewrite filter_cons. cbn [fst]. rewrite decide_False by (by intros []).
        split; [by left|done].
      + rewrite bool_decide_eq_false_2 by (by rewrite list_elem_of_singleton).
        split; [right; by exists h', d|]. by rewrite list_elem_of_singleton. }
  repeat apply conj; intros; kept.
Qed.

Lemma toast_has_one_dismissal_witness :
  w_timers (toasted "List deleted" "success" 3000
              (toasted "Delete failed: boom" "error" 5000
                 (session (JStr "tok-1") (JStr "") (JStr ""))))
  = [(2%positive, 3000)].
Proof.
  destruct (toast_has_one_dismissal "http://localhost:8081/api" refusing_backend)
    as (Hinit & Hshow & _).
  destruct (Hshow "Delete failed: boom" "error" 5000
              (session (JStr "tok-1") (JStr "") (JStr "")) (Hinit _))
    as (_ & _ & Hpending).
  destruct (Hshow "List deleted" "success" 3000 _ Hpending) as (_ & Htimers & _).
  exact Htimers.
Defined.

(** ** What is on screen *)

Lemma three_slices_props w :
  three_slices (w_store w) →
  ∃ login lists tasks : gmap string JsVal,
    props_of w = JObj (<["tasks" := JObj tasks]> (<["lists" := JObj lists]>
                         (<["login" := JObj login]> ∅)))
    ∧ (∀ f, field (redux.getState (w_store w)) "lists" f = default JUndefined (lists !! f))
    ∧ (∀ f, field (redux.getState (w_store w)) "tasks" f = default JUndefined (tasks !! f)).
Proof.
  intros (_ & l & li & t & Hst). exists l, li, t.
  unfold props_of, redux.getState. rewrite Hst. by repeat split.
Qed.

Lemma lists_screen_run w :
  three_slices (w_store w) →
  lists_screen w
  = (rows ← table_rows (field (redux.getState (w_store w)) "lists" "list");
     Normal (mkScreen rows
               (if truthy (field (redux.getState (w_store w)) "lists" "showAddList")
                then Some (mkForm (toast_box (w_toast w)) (banner (w_lastError w))
                             (or_empty (field (redux.getState (w_store w)) "lists" "name"))
                             (or_empty (field (redux.getState (w_store w)) "lists"
                                          "description")))
                else None))).
Proof.
  intros H3. destruct (three_slices_props w H3) as (l & li & t & Hp & Hli & _).
  unfold lists_screen, Lists_view.render, read_path. rewrite !Hli, Hp.
  cbn [get_prop mbind Completion_bind].
  rewrite (lookup_insert_ne _ "tasks" "lists") by done. rewrite lookup_insert_eq.
  cbn [default from_option id get_prop mbind Completion_bind truthy].
  destruct (truthy (default JUndefined (li !! "showAddList")));
    cbn [mbind Completion_bind]; by destruct (table_rows _).
Qed.

Lemma tasks_screen_run w :
  three_slices (w_store w) →
  tasks_screen w
  = (rows ← table_rows (field (redux.getState (w_store w)) "tasks" "tasks");
     Normal (mkScreen rows
               (if truthy (field (redux.getState (w_store w)) "tasks" "showAddTaskForm")
                then Some (mkForm (toast_box (w_toast w)) (banner (w_lastError w))
                             (or_empty (field (redux.getState (w_store w)) "tasks" "name"))
                             (or_empty (field (redux.getState (w_store w)) "tasks"
                                          "description")))
                else None))).
Proof.
  intros H3. destruct (three_slices_props w H3) as (l & li & t & Hp & _ & Ht).
  unfold tasks_screen, Tasks_view.render, read_path. rewrite !Ht, Hp.
  cbn [get_prop mbind Completion_bind].
  rewrite lookup_insert_eq.
  cbn [default from_option id get_prop mbind Completion_bind truthy].
  destruct (truthy (default JUndefined (t !! "showAddTaskForm")));
    cbn [mbind Completion_bind]; by destruct (table_rows _).
Qed.

(** X18. Outside the form nothing an operation reports is on screen.
    [render] shows the toast and the banner only in the branch of the
    open form, and the loads, the deletes and the update of a task never
    change the form flag: when one of them runs while the form is closed
    ([showAddList], for the tasks [showAddTaskForm], is falsy), the
    screen rendered afterwards is the bare table, whatever the operation
    put in [toast] and [lastError]. *)
Theorem feedback_hidden_outside_form baseUrl network w id listName is_done :
  three_slices (w_store w) →
  (truthy (field (redux.getState (w_store w)) "lists" "showAddList") = false →
   ∀ op, op ∈ [Lists_js.loadLists baseUrl network;
               Lists_js.deleteList baseUrl network id;
               Lists_js.loadTasks baseUrl network listName id] →
     lists_screen (op w).2
     = (rows ← table_rows (field (redux.getState (w_store (op w).2)) "lists" "list");
        Normal (mkScreen rows None)))
  ∧ (truthy (field (redux.getState (w_store w)) "tasks" "showAddTaskForm") = false →
     ∀ op, op ∈ [Tasks_js.loadTasks baseUrl network id;
                 Tasks_js.deleteTask baseUrl network id;
                 Tasks_js.switchTaskIsDone baseUrl network id is_done] →
       tasks_screen (op w).2
       = (rows ← table_rows (field (redux.getState (w_store (op w).2)) "tasks" "tasks");
          Normal (mkScreen rows None))).
Proof.
  intros H3. split; intros Hflag op Hop.
  - assert (Hfoot : touches_only [("lists", "list"); ("tasks", "tasks");
                                  ("tasks", "taskListName"); ("tasks", "taskListId")] op).
    { revert Hop. rewrite !elem_of_cons, elem_of_nil.
      intros [->|[->|[->|[]]]]; footprint. }
    destruct (Hfoot w H3) as (H3' & Hframe).
    rewrite lists_screen_run by done. rewrite (Hframe "lists" "showAddList"), Hflag; [done|].
    rewrite !elem_of_cons, elem_of_nil. intros [?|[?|[?|[?|[]]]]]; discriminate.
  - assert (Hfoot : touches_only [("tasks", "tasks")] op).
    { revert Hop. rewrite !elem_of_cons, elem_of_nil.
      intros [->|[->|[->|[]]]]; footprint. }
    destruct (Hfoot w H3) as (H3' & Hframe).
    rewrite tasks_screen_run by done.
    rewrite (Hframe "tasks" "showAddTaskForm"), Hflag; [done|].
    rewrite list_elem_of_singleton. discriminate.
Qed.

Lemma startup_three_slices : three_slices (w_store startup_world).
Proof. apply (created_store_three_slices "a"). reflexivity. Qed.

Lemma feedback_hidden_outside_form_witness :
  w_lastError (Lists_js.loadLists "http://localhost:8081/api" unreachable_backend
                 startup_world).2
  = Some "Load lists exception: Failed to fetch"
  ∧ lists_screen (Lists_js.loadLists "http://localhost:8081/api" unreachable_backend
                    startup_world).2
    = Normal (mkScreen [] None).
Proof.
  split; [reflexivity|].
  destruct (feedback_hidden_outside_form "http://localhost:8081/api" unreachable_backend
              startup_world (JNum 1) (JStr "chores") (JBool true) startup_three_slices)
    as (Hlists & _).
  rewrite (Hlists eq_refl (Lists_js.loadLists "http://localhost:8081/api"
                             unreachable_backend)).
  - reflexivity.
  - apply list_elem_of_here.
Defined.




Lemma configured_store_login_only suffix st actions st' :
  configureStore_js.configureStore suffix = Normal st →
  dispatch_all st actions = Normal st' →
  redux.currentReducer st' = configureStore_js.rootReducer
  ∧ ∃ login, redux.currentState st' = JObj (<["login" := login]> ∅).
Proof.
  intros Hc. assert (Hst : redux.currentReducer st = configureStore_js.rootReducer
                           ∧ ∃ login, redux.currentState st = JObj (<["login" := login]> ∅)).
  { injection Hc as <-. split; [done|]. by eexists. }
  clear Hc. revert st Hst. induction actions as [|a actions IH]; intros st Hst.
  - by intros [= <-].
  - cbn [dispatch_all]. destruct (redux.dispatch st a) as [st1|e] eqn:Hd; [|done].
    cbn [mbind Completion_bind]. apply IH.
    destruct Hst as (Hr & login & Hs). unfold redux.dispatch in Hd.
    destruct a as [| | | | | |m]; try done.
    destruct (is_undefined _); [done|]. rewrite Hr in Hd.
    unfold configureStore_js.rootReducer, redux.combineReducers in Hd.
    cbn [redux.combination] in Hd.
    destruct (get_prop _ "login") as [prev|]; [|done]. cbn [mbind Completion_bind] in Hd.
    destruct (loginReducer_js.loginReducer prev (JObj m)) as [next|]; [|done].
    cbn [mbind Completion_bind] in Hd. destruct (is_undefined next); [done|].
    cbn [mbind Completion_bind] in Hd. injection Hd as <-.
    split; [done|]. by eexists.
Qed.

(** X20. The two tables cannot be rendered on the store that
    [configureStore] builds.  That store mounts the login reducer only;
    in every state it reaches, after any sequence of dispatches, there
    is no [lists] and no [tasks] slice, so [render] of the lists
    component and of the tasks component throws a TypeError on its first
    line ([this.props.lists.showAddList],
    [this.props.tasks.showAddTaskForm]), whatever the component state. *)
Theorem tables_throw_on_configured_store suffix st actions w :
  configureStore_js.configureStore suffix = Normal st →
  dispatch_all st actions = Normal (w_store w) →
  lists_screen w = Throw (TypeError "Cannot read properties of undefined")
  ∧ tasks_screen w = Throw (TypeError "Cannot read properties of undefined").
Proof.
  intros Hc Hd.
  destruct (configured_store_login_only suffix st actions _ Hc Hd) as (_ & login & Hs).
  unfold lists_screen, tasks_screen, Lists_view.render, Tasks_view.render, props_of,
    redux.getState.
  rewrite Hs. cbn [own_props get_prop mbind Completion_bind].
  by rewrite !lookup_insert_ne, !lookup_empty.
Qed.

Lemma tables_throw_on_configured_store_witness :
  lists_screen
    (initial_world
       (redux.mkStore configureStore_js.rootReducer
          (obj [("login", obj [("accessId", JStr "tok-1"); ("username", JStr "ann")])])))
  = Throw (TypeError "Cannot read properties of undefined").
Proof.
  apply (tables_throw_on_configured_store "a"
           (redux.mkStore configureStore_js.rootReducer
              (obj [("login", loginReducer_js.initialState)]))
           [loginAction_js.loginSuccess (JStr "ann") (JStr "tok-1")]).
  - reflexivity.
  - reflexivity.
Defined.

Lemma table_row_unrenderable data : unrenderable data → ∃ e, table_row data = Throw e.
Proof.
  unfold table_row. intros [->|[->|H]]; [by eexists|by eexists|].
  assert (∃ v, get_prop data "is_done" = Normal v ∧ (v = JUndefined ∨ v = JNull))
    as (v & Hv & Hn) by (destruct H; eauto).
  destruct data; try discriminate Hv; cbn [get_prop mbind Completion_bind] in Hv |- *;
    injection Hv as Hv; rewrite ?Hv; destruct Hn as [Hn|Hn]; rewrite ?Hn;
    try subst v; try discriminate; by eexists.
Qed.

Lemma table_rows_unrenderable records data :
  data ∈ records → unrenderable data → ∃ e, table_rows (JArr records) = Throw e.
Proof.
  intros Hin Hbad. cbn [table_rows].
  induction Hin as [data records|data first records Hin IH].
  - destruct (table_row_unrenderable data Hbad) as (e & He).
    exists e. cbn [mapM]. by rewrite He.
  - destruct (IH Hbad) as (e & He). cbn [mapM].
    destruct (table_row first) as [row|e']; [|by eexists].
    cbn [mbind Completion_bind]. rewrite He. by eexists.
Qed.

(** X21. One incomplete record takes the whole table down.  The loads
    check that the body of the response is an array and nothing about
    its elements, and [render] calls [data.is_done.toString()] on every
    element: when a successful load brings an array in which one record
    is [null], or has no [is_done] (or [is_done: null]), the load
    resolves, the array is stored, and rendering the table throws.  It
    is so for the lists and for the tasks. *)
Theorem incomplete_record_breaks_table baseUrl network w id r records data :
  three_slices (w_store w) →
  resp_ok r = true →
  resp_json r = Normal (JArr records) →
  data ∈ records →
  unrenderable data →
  (network (w_issued w) (list_request baseUrl w) = Resolved r →
   ∃ w' e, Lists_js.loadLists baseUrl network w = (Normal tt, w')
     ∧ field (redux.getState (w_store w')) "lists" "list" = JArr records
     ∧ lists_screen w' = Throw e)
  ∧ (network (w_issued w) (task_list_request baseUrl w id) = Resolved r →
     ∃ w' e, Tasks_js.loadTasks baseUrl network id w = (Normal tt, w')
       ∧ field (redux.getState (w_store w')) "tasks" "tasks" = JArr records
       ∧ tasks_screen w' = Throw e).
Proof.
  intros H3 Hok Hjson Hin Hbad.
  destruct (table_rows_unrenderable records data Hin Hbad) as (e & He).
  split; intros Hnet.
  - destruct (loadLists_run baseUrl network w H3) as (st' & Hrun & H3' & Hf & _).
    rewrite Hnet in Hf. cbn [loaded_sequence] in Hf. rewrite Hok, Hjson in Hf.
    cbn [isArray] in Hf.
    eexists _, e. split; [exact Hrun|]. cbn [w_store set_store]. split; [exact Hf|].
    rewrite lists_screen_run by exact H3'. cbn [w_store set_store].
    by rewrite Hf, He.
  - destruct (Tasks_loadTasks_run baseUrl network id w H3) as (st' & Hrun & H3' & Hf & _).
    rewrite Hnet in Hf. cbn [loaded_sequence] in Hf. rewrite Hok, Hjson in Hf.
    cbn [isArray] in Hf.
    eexists _, e. split; [exact Hrun|]. cbn [w_store set_store]. split; [exact Hf|].
    rewrite tasks_screen_run by exact H3'. cbn [w_store set_store].
    by rewrite Hf, He.
Qed.

Lemma incomplete_record_breaks_table_witness :
  ∃ w' e,
    Lists_js.loadLists "http://localhost:8081/api"
      (steady_backend
         (JArr [obj [("id", JNum 1); ("name", JStr "chores"); ("is_done", JBool false)];
                obj [("id", JNum 2); ("name", JStr "shop")]]))
      startup_world
    = (Normal tt, w')
    ∧ lists_screen w' = Throw e.
Proof.
  destruct (incomplete_record_breaks_table "http://localhost:8081/api"
              (steady_backend
                 (JArr [obj [("id", JNum 1); ("name", JStr "chores");
                             ("is_done", JBool false)];
                        obj [("id", JNum 2); ("name", JStr "shop")]]))
              startup_world (JNum 1)
              (mkResponse 200 ""
                 (Normal
                    (JArr [obj [("id", JNum 1); ("name", JStr "chores");
                                ("is_done", JBool false)];
                           obj [("id", JNum 2); ("name", JStr "shop")]])))
              [obj [("id", JNum 1); ("name", JStr "chores"); ("is_done", JBool false)];
               obj [("id", JNum 2); ("name", JStr "shop")]]
              (obj [("id", JNum 2); ("name", JStr "shop")]))
    as (Hlists & _).
  - apply startup_three_slices.
  - reflexivity.
  - reflexivity.
  - apply list_elem_of_further, list_elem_of_here.
  - right. right. left. reflexivity.
  - destruct Hlists as (w' & e & Hrun & _ & Hscreen); [reflexivity|].
    exists w', e. split; [exact Hrun|exact Hscreen].
Defined.

(** X22. Viewing the tasks of a list selects the list only when the
    load is accepted.  [loadTasks(listName, id)] of the lists component
    always replaces [tasks.tasks] by what the load brings (the empty
    sequence on any failure), but it stores [listName] and [id] as the
    selected list only after a 2xx answer with a JSON body; after a
    refused or failed load the table of tasks is empty while
    [taskListName] and [taskListId] still name the list selected before
    (the one [createTask] will add to). *)
Theorem view_tasks_selects_on_success baseUrl network w listName id :
  three_slices (w_store w) →
  ∃ w', Lists_js.loadTasks baseUrl network listName id w = (Normal tt, w')
    ∧ field (redux.getState (w_store w')) "tasks" "tasks"
      = loaded_sequence (network (w_issued w) (task_list_request baseUrl w id))
    ∧ field (redux.getState (w_store w')) "tasks" "taskListName"
      = (if accepted (network (w_issued w) (task_list_request baseUrl w id))
         then listName
         else field (redux.getState (w_store w)) "tasks" "taskListName")
    ∧ field (redux.getState (w_store w')) "tasks" "taskListId"
      = (if accepted (network (w_issued w) (task_list_request baseUrl w id))
         then id
         else field (redux.getState (w_store w)) "tasks" "taskListId").
Proof.
  intros H3.
  assert (Hset : ∀ xs w1, three_slices (w_store w1) →
            ∃ st1, Lists_js.setTasks xs w1
                   = (Normal tt,
                      set_store st1
                        (log_events [EvDispatch (taskAction_js.setTasks xs)] (w_issued w1) w1))
              ∧ three_slices st1
              ∧ field (redux.getState st1) "tasks" "tasks" = stored constants.SET_TASKS xs
              ∧ ∀ s f, (s, f) ≠ ("tasks", "tasks") →
                  field (redux.getState st1) s f = field (redux.getState (w_store w1)) s f).
  { intros xs w1 H31.
    apply (dispatch_run w1 "tasks" task_slice constants.SET_TASKS "tasks" xs H31).
    - apply list_elem_of_further, list_elem_of_here.
    - apply list_elem_of_here. }
  unfold Lists_js.loadTasks, try_catch.
  rewrite bind_run, guarded_read_run, bind_run. unfold fetch.
  fold (task_list_request baseUrl w id).
  destruct (network (w_issued w) (task_list_request baseUrl w id)) as [r|e];
    cbn [loaded_sequence accepted];
    [destruct (resp_ok r); cbn [negb andb];
       [rewrite bind_run; unfold eval at 1; destruct (resp_json r) as [body|e]|]|].
  - rewrite bind_run.
    match goal with |- context [Lists_js.setTasks ?xs ?w1] =>
      destruct (Hset xs w1 H3) as (st1 & Hrun1 & H31 & Hf1 & Hframe1) end.
    rewrite Hrun1, bind_run.
    unfold Lists_js.setTaskListName, taskAction_js.setTaskListName.
    match goal with |- context [dispatch _ ?w1] =>
      destruct (dispatch_run w1 "tasks" task_slice constants.SET_TASKS_LIST_NAME
                  "taskListName" listName)
        as (st2 & Hrun2 & H32 & Hf2 & Hframe2) end;
      [exact H31 | apply list_elem_of_further, list_elem_of_here
      | apply list_elem_of_further, list_elem_of_here |].
    rewrite Hrun2.
    unfold Lists_js.setTaskListId, taskAction_js.setTaskListId.
    match goal with |- context [dispatch _ ?w1] =>
      destruct (dispatch_run w1 "tasks" task_slice constants.SET_TASKS_LIST_ID
                  "taskListId" id)
        as (st3 & Hrun3 & H33 & Hf3 & Hframe3) end;
      [exact H32 | apply list_elem_of_further, list_elem_of_here
      | do 2 apply list_elem_of_further; apply list_elem_of_here |].
    rewrite Hrun3. eexists. split; [reflexivity|].
    cbn [w_store set_store log_events] in *.
    split; [|split].
    + rewrite Hframe3, Hframe2 by done. rewrite Hf1.
      rewrite stored_isArray by (by right). by destruct body.
    + rewrite Hframe3 by done. exact Hf2.
    + exact Hf3.
  - rewrite bind_run. unfold setState_lastError.
    match goal with |- context [Lists_js.setTasks ?xs ?w1] =>
      destruct (Hset xs w1 H3) as (st1 & Hrun1 & H31 & Hf1 & Hframe1) end.
    rewrite Hrun1. eexists. split; [reflexivity|].
    cbn [w_store set_store set_lastError log_events] in *.
    split; [exact Hf1|]. split; by apply Hframe1.
  - rewrite bind_run. unfold setState_lastError.
    match goal with |- context [Lists_js.setTasks ?xs ?w1] =>
      destruct (Hset xs w1 H3) as (st1 & Hrun1 & H31 & Hf1 & Hframe1) end.
    rewrite Hrun1. eexists. split; [reflexivity|].
    cbn [w_store set_store set_lastError log_events] in *.
    split; [exact Hf1|]. split; by apply Hframe1.
  - rewrite bind_run. unfold setState_lastError.
    match goal with |- context [Lists_js.setTasks ?xs ?w1] =>
      destruct (Hset xs w1 H3) as (st1 & Hrun1 & H31 & Hf1 & Hframe1) end.
    rewrite Hrun1. eexists. split; [reflexivity|].
    cbn [w_store set_store set_lastError log_events] in *.
    split; [exact Hf1|]. split; by apply Hframe1.
Qed.

Lemma view_tasks_selects_on_success_witness :
  ∃ w', Lists_js.loadTasks "http://localhost:8081/api" refusing_backend
          (JStr "chores") (JNum 2) (session (JStr "tok-1") (JStr "") (JStr ""))
        = (Normal tt, w')
    ∧ field (redux.getState (w_store w')) "tasks" "tasks" = JArr []
    ∧ field (redux.getState (w_store w')) "tasks" "taskListName" = JStr "shop"
    ∧ field (redux.getState (w_store w')) "tasks" "taskListId" = JStr "1".
Proof.
  destruct (view_tasks_selects_on_success "http://localhost:8081/api" refusing_backend
              (session (JStr "tok-1") (JStr "") (JStr "")) (JStr "chores") (JNum 2))
    as (w' & Hrun & Htasks & Hname & Hid).
  - apply session_three_slices.
  - exists w'. split; [exact Hrun|]. rewrite Htasks, Hname, Hid. repeat split.
Defined.
